(** * Impact-energy calculator (web.py): a shallow embedding and its properties

    The development follows src/web.py.  Python values that the code handles
    are embedded as follows.

    - [str] is [string]; the model covers ASCII text (code points above 127
      are carried along unchanged and are never whitespace or letters).
    - [float] is the kernel's binary64 type [float] with IEEE-754 rounding,
      which is what CPython's [float] is.  [+], [*] and [/] are the IEEE
      operations; [x ** n] follows CPython's [float_pow], which hands the
      general case to the C library's [pow]: that function is the parameter
      [libm_pow] of the functions that reach it.
    - [dict] is an association list with string keys, in insertion order.
    - An exception is a value of [pyexn]; code that may raise returns
      [result A], and [try ... except Exception] is a [match] on it. *)

From Stdlib Require Import ZArith List Bool Ascii String Lia Floats.
Import ListNotations.

Set Warnings "-register-all".

Local Open Scope string_scope.

(** ** Python string methods used by the lookup *)

Module PyStr.

(** [str.isspace] on one ASCII character: TAB, LF, VT, FF, CR, the four
    separators 0x1c-0x1f and the space. *)
Definition is_space (c : ascii) : bool :=
  let n := nat_of_ascii c in
  (Nat.leb 9 n && Nat.leb n 13) || (Nat.leb 28 n && Nat.leb n 32).

Definition is_lower (c : ascii) : bool :=
  let n := nat_of_ascii c in Nat.leb 97 n && Nat.leb n 122.

Definition upper_char (c : ascii) : ascii :=
  if is_lower c then ascii_of_nat (nat_of_ascii c - 32) else c.

(** [s.upper()] *)
Fixpoint upper (s : string) : string :=
  match s with
  | EmptyString => EmptyString
  | String c r => String (upper_char c) (upper r)
  end.

(** [s.lstrip()] *)
Fixpoint lstrip (s : string) : string :=
  match s with
  | EmptyString => EmptyString
  | String c r => if is_space c then lstrip r else s
  end.

(** [s.rstrip()] *)
Fixpoint rstrip (s : string) : string :=
  match s with
  | EmptyString => EmptyString
  | String c r =>
      match rstrip r with
      | EmptyString => if is_space c then EmptyString else String c EmptyString
      | r' => String c r'
      end
  end.

(** [s.strip()] *)
Definition strip (s : string) : string := rstrip (lstrip s).

(** [s.replace(old, new)] for a one-character [old], the only form the
    source uses. *)
Fixpoint replace (old : ascii) (new : string) (s : string) : string :=
  match s with
  | EmptyString => EmptyString
  | String c r =>
      if Ascii.eqb c old then new ++ replace old new r
      else String c (replace old new r)
  end.

(** Every character of [s] satisfies [p]. *)
Fixpoint all_chars (p : ascii -> bool) (s : string) : bool :=
  match s with
  | EmptyString => true
  | String c r => p c && all_chars p r
  end.

End PyStr.

(** ** Python values *)

Inductive pyval : Type :=
| PyNone
| PyBool (b : bool)
| PyInt (z : Z)
| PyFloat (f : float)
| PyStr (s : string)
| PyList (l : list pyval)
| PyDict (d : list (string * pyval)).

(** Key lookup in a dict. *)
Fixpoint assoc {A : Type} (k : string) (d : list (string * A)) : option A :=
  match d with
  | [] => None
  | (k', v) :: r => if String.eqb k k' then Some v else assoc k r
  end.

(** ** Constants and mock data (web.py lines 10-25) *)

Definition DENSITIES : list (string * Z) :=
  [ ("C-type (Carbonaceous)", 1300%Z);
    ("S-type (Stony)", 2700%Z);
    ("M-type (Metallic)", 5000%Z);
    ("Rocky", 3000%Z) ].

(** [DENSITIES["Rocky"]]: the key is present, so the subscript cannot raise. *)
Definition DEFAULT_DENSITY : Z :=
  match assoc "Rocky" DENSITIES with Some z => z | None => 0%Z end.

Definition JOULES_PER_MEGATON : float := 4.184e15%float.

Definition MOCK_ASTEROID_DATA : pyval :=
  PyDict
    [ ("name", PyStr "99942 Apophis");
      ("neo_reference_id", PyStr "2000042");
      ("is_potentially_hazardous_asteroid", PyBool true);
      ("estimated_diameter",
        PyDict [ ("meters",
          PyDict [ ("estimated_diameter_min", PyStr "320.0");
                   ("estimated_diameter_max", PyStr "400.0") ]) ]);
      ("close_approach_data",
        PyList [ PyDict
          [ ("relative_velocity",
              PyDict [ ("kilometers_per_second", PyStr "7.42") ]);
            ("miss_distance", PyDict [ ("kilometers", PyStr "31000.0") ]) ] ]) ].

(** The names and miss distances (km) handed to the index page (web.py
    lines 27-33). *)
Definition MOCK_TOP_5_NEAREST : list (string * float) :=
  [ ("2023 NT1", 60000%float);
    ("99942 Apophis", 31000%float);
    ("2024 MK", 90000%float);
    ("(2002 AZ1)", 125000%float);
    ("433 Eros", 150000%float) ].

(** ** Asteroid lookup (web.py lines 38-46) *)

(** The comparison key of line 40:
    [asteroid_name.strip().upper().replace('(', '').replace(')', '').replace('-', ' ')]. *)
Definition normalize (asteroid_name : string) : string :=
  PyStr.replace "-" " "
    (PyStr.replace ")" ""
       (PyStr.replace "(" "" (PyStr.upper (PyStr.strip asteroid_name)))).

(** [MOCK_ASTEROID_DATA[k]] for the two string fields the lookup reads; both
    keys are present in the literal, so the subscripts cannot raise. *)
Definition mock_field (k : string) : string :=
  match MOCK_ASTEROID_DATA with
  | PyDict d => match assoc k d with Some (PyStr s) => s | _ => "" end
  | _ => ""
  end.

Definition find_mock_asteroid_data (asteroid_name : string) : option pyval :=
  let normalized_name := normalize asteroid_name in
  let mock_name_normalized := PyStr.upper (mock_field "name") in
  let mock_id := mock_field "neo_reference_id" in
  if String.eqb normalized_name mock_name_normalized
     || String.eqb normalized_name mock_id
  then Some MOCK_ASTEROID_DATA
  else None.


(** ** Exceptions and results *)

(** The exceptions the modelled code can raise, each with the text [str(e)]
    renders (CPython 3.12 on Linux). *)
Inductive pyexn : Type :=
| KeyError (text : string)
| IndexError (text : string)
| TypeError (text : string)
| ValueError (text : string)
| OverflowError (text : string)
| AttributeError (text : string).

Definition exn_text (e : pyexn) : string :=
  match e with
  | KeyError t | IndexError t | TypeError t
  | ValueError t | OverflowError t | AttributeError t => t
  end.

Inductive result (A : Type) : Type :=
| Ok (a : A)
| Raise (e : pyexn).
Arguments Ok {A} a.
Arguments Raise {A} e.

Definition bind {A B : Type} (m : result A) (k : A -> result B) : result B :=
  match m with
  | Ok a => k a
  | Raise e => Raise e
  end.

Notation "x <- m ;; k" := (bind m (fun x => k))
  (at level 61, m at next level, right associativity).

(** ** Floats as CPython has them *)

Module PyFloat.

Local Open Scope Z_scope.

Definition is_digit (c : ascii) : bool :=
  let n := nat_of_ascii c in Nat.leb 48 n && Nat.leb n 57.

(** [Py_ISSPACE]: the whitespace [float()] strips around an ASCII string. *)
Definition is_c_space (c : ascii) : bool :=
  let n := nat_of_ascii c in (Nat.leb 9 n && Nat.leb n 13) || Nat.eqb n 32.

Fixpoint lstrip_c (s : string) : string :=
  match s with
  | EmptyString => EmptyString
  | String c r => if is_c_space c then lstrip_c r else s
  end.

Fixpoint rstrip_c (s : string) : string :=
  match s with
  | EmptyString => EmptyString
  | String c r =>
      match rstrip_c r with
      | EmptyString => if is_c_space c then EmptyString else String c EmptyString
      | r' => String c r'
      end
  end.

(** PEP 515: an underscore must stand between two digits; the underscores
    are then dropped.  [prev] is the previous character. *)
Fixpoint drop_underscores (prev : ascii) (s : string) : option string :=
  match s with
  | EmptyString => if Ascii.eqb prev "_" then None else Some EmptyString
  | String c r =>
      if Ascii.eqb c "_" then
        if is_digit prev then drop_underscores c r else None
      else if Ascii.eqb prev "_" && negb (is_digit c) then None
      else option_map (String c) (drop_underscores c r)
  end.

(** The longest prefix of decimal digits, and what follows it. *)
Fixpoint span_digits (s : string) : string * string :=
  match s with
  | EmptyString => (EmptyString, EmptyString)
  | String c r =>
      if is_digit c then let (d, t) := span_digits r in (String c d, t)
      else (EmptyString, s)
  end.

Fixpoint Z_of_digits (acc : Z) (s : string) : Z :=
  match s with
  | EmptyString => acc
  | String c r => Z_of_digits (10 * acc + (Z.of_nat (nat_of_ascii c) - 48)) r
  end.

(** An optional sign: [true] for a minus. *)
Definition take_sign (s : string) : bool * string :=
  match s with
  | String "-" r => (true, r)
  | String "+" r => (false, r)
  | _ => (false, s)
  end.

(** The double nearest to [m * 2^e] for an integer [m] (ties to even),
    infinite when the rounded value is out of range. *)
Definition round_int (m e : Z) : spec_float :=
  binary_normalize prec emax m e false.

(** The double nearest to [(-1)^neg * m * 10^e], as [strtod] computes it:
    correctly rounded, ties to even, infinite on overflow, zero on
    underflow.  Decimal exponents beyond +-800 are clamped, which leaves
    the result unchanged for digit strings of fewer than 400 digits. *)
Definition of_decimal (neg : bool) (m e : Z) : float :=
  if m =? 0 then (if neg then neg_zero else zero)
  else
    let e := Z.max (-800) (Z.min 800 e) in
    if 0 <=? e then
      SF2Prim (round_int (if neg then - (m * 10 ^ e) else m * 10 ^ e) 0)
    else
      let d := 10 ^ (- e) in
      let s := Z.max 0 (Zdigits2 d + 55 - Zdigits2 m) in
      let (q, r) := Z.div_eucl (Z.shiftl m s) d in
      SF2Prim (binary_round_aux prec emax neg q (- s) (new_location d r)).

(** [_Py_parse_inf_or_nan] on the whole text. *)
Definition parse_inf_or_nan (s : string) : option float :=
  let (neg, t) := take_sign s in
  let u := PyStr.upper t in
  if String.eqb u "INF" || String.eqb u "INFINITY"
  then Some (if neg then neg_infinity else infinity)
  else if String.eqb u "NAN" then Some nan
  else None.

(** [strtod]'s grammar, which must match the whole text:
    [sign? (digits ('.' digits?)? | '.' digits) ([eE] sign? digits)?]. *)
Definition parse_decimal (s : string) : option float :=
  let (neg, s1) := take_sign s in
  let (ip, s2) := span_digits s1 in
  let (fp, s3) :=
    match s2 with
    | String "." r => span_digits r
    | _ => (EmptyString, s2)
    end in
  if String.eqb (ip ++ fp) "" then None
  else
    let (ex, s4) :=
      match s3 with
      | String c r =>
          if Ascii.eqb c "e" || Ascii.eqb c "E" then
            let (eneg, r1) := take_sign r in
            let (ed, r2) := span_digits r1 in
            if String.eqb ed "" then (0, s3)
            else ((if eneg then - Z_of_digits 0 ed else Z_of_digits 0 ed), r2)
          else (0, s3)
      | EmptyString => (0, s3)
      end in
    if String.eqb s4 "" then
      Some (of_decimal neg (Z_of_digits 0 (ip ++ fp))
              (ex - Z.of_nat (String.length fp)))
    else None.

(** [float(s)] for a string: [None] stands for the ValueError. *)
Definition of_string (s : string) : option float :=
  match drop_underscores "000" s with
  | None => None
  | Some t =>
      let u := rstrip_c (lstrip_c t) in
      match parse_decimal u with
      | Some f => Some f
      | None => parse_inf_or_nan u
      end
  end.

(** [float(n)] for an int: correctly rounded, [None] (the OverflowError)
    when the rounded value is not finite. *)
Definition of_Z (z : Z) : option float :=
  match round_int z 0 with
  | S754_infinity _ => None
  | sf => Some (SF2Prim sf)
  end.

End PyFloat.

(** ** Python operations on values *)

Definition type_name (v : pyval) : string :=
  match v with
  | PyNone => "NoneType"
  | PyBool _ => "bool"
  | PyInt _ => "int"
  | PyFloat _ => "float"
  | PyStr _ => "str"
  | PyList _ => "list"
  | PyDict _ => "dict"
  end.

Definition hex_digit (n : nat) : ascii :=
  ascii_of_nat (if Nat.ltb n 10 then 48 + n else 87 + n).

Definition BACKSLASH : ascii := ascii_of_nat 92.
Definition DQUOTE : ascii := ascii_of_nat 34.

(** [repr(s)] of an ASCII string: single quotes unless the text has a single
    and no double quote; backslash escapes for the quote, the backslash,
    TAB, LF, CR and the other control characters. *)
Fixpoint repr_body (q : ascii) (s : string) : string :=
  match s with
  | EmptyString => EmptyString
  | String c r =>
      let n := nat_of_ascii c in
      (if Ascii.eqb c q || Ascii.eqb c BACKSLASH
       then String BACKSLASH (String c EmptyString)
       else if Nat.eqb n 9 then String BACKSLASH "t"
       else if Nat.eqb n 10 then String BACKSLASH "n"
       else if Nat.eqb n 13 then String BACKSLASH "r"
       else if Nat.ltb n 32 || Nat.eqb n 127 then
         String BACKSLASH
           (String "x" (String (hex_digit (n / 16))
                          (String (hex_digit (n mod 16)) EmptyString)))
       else String c EmptyString) ++ repr_body q r
  end.

Definition has_char (c : ascii) (s : string) : bool :=
  negb (PyStr.all_chars (fun x => negb (Ascii.eqb x c)) s).

Definition py_repr (s : string) : string :=
  let q := if has_char "'" s && negb (has_char DQUOTE s) then DQUOTE else "'"%char in
  String q (repr_body q s ++ String q EmptyString).

(** [v[k]] for a string key [k]. *)
Definition getitem (v : pyval) (k : string) : result pyval :=
  match v with
  | PyDict d =>
      match assoc k d with
      | Some x => Ok x
      | None => Raise (KeyError (py_repr k))
      end
  | PyList _ => Raise (TypeError "list indices must be integers or slices, not str")
  | PyStr _ => Raise (TypeError "string indices must be integers, not 'str'")
  | _ => Raise (TypeError ("'" ++ type_name v ++ "' object is not subscriptable"))
  end.

Fixpoint last_char (s : string) : option ascii :=
  match s with
  | EmptyString => None
  | String c EmptyString => Some c
  | String _ r => last_char r
  end.

(** [v[-1]].  Dict keys are strings in this model, so a dict never has the
    key [-1]. *)
Definition getitem_last (v : pyval) : result pyval :=
  match v with
  | PyList l =>
      match rev l with
      | x :: _ => Ok x
      | [] => Raise (IndexError "list index out of range")
      end
  | PyStr s =>
      match last_char s with
      | Some c => Ok (PyStr (String c EmptyString))
      | None => Raise (IndexError "string index out of range")
      end
  | PyDict _ => Raise (KeyError "-1")
  | _ => Raise (TypeError ("'" ++ type_name v ++ "' object is not subscriptable"))
  end.

(** [v.get(k, default)]. *)
Definition py_get (v : pyval) (k : string) (default : pyval) : result pyval :=
  match v with
  | PyDict d =>
      Ok (match assoc k d with Some x => x | None => default end)
  | _ => Raise (AttributeError
                  ("'" ++ type_name v ++ "' object has no attribute 'get'"))
  end.

(** [float(v)]. *)
Definition py_float (v : pyval) : result float :=
  match v with
  | PyFloat f => Ok f
  | PyInt z =>
      match PyFloat.of_Z z with
      | Some f => Ok f
      | None => Raise (OverflowError "int too large to convert to float")
      end
  | PyBool b => Ok (if b then 1%float else 0%float)
  | PyStr s =>
      match PyFloat.of_string s with
      | Some f => Ok f
      | None => Raise (ValueError ("could not convert string to float: " ++ py_repr s))
      end
  | _ => Raise (TypeError ("float() argument must be a string or a real number, not '"
                            ++ type_name v ++ "'"))
  end.

(** [iv ** n] for a float [iv] and a positive int [n] (the source has
    [** 3] and [** 2]), after CPython's [float_pow].  NaN, the infinities,
    the zeros and a base of magnitude 1 are settled first; a negative base
    is replaced by its magnitude, the result being negated for an odd [n];
    the rest is left to the C library's [pow], here the parameter
    [libm_pow], whose last bit differs between libraries.  An infinite
    result of the library is the OverflowError; an underflow is silent. *)
Definition float_pow (libm_pow : float -> float -> float)
  (iv : float) (n : positive) : result float :=
  let iw := SF2Prim (PyFloat.round_int (Zpos n) 0) in
  let iw_is_odd := Z.odd (Zpos n) in
  if is_nan iv then Ok iv
  else if is_infinity iv then Ok (if iw_is_odd then iv else abs iv)
  else if is_zero iv then Ok (if iw_is_odd then iv else 0%float)
  else
    let negate_result := (iv <? 0)%float && iw_is_odd in
    let iv := abs iv in
    if (iv =? 1)%float then Ok (if negate_result then (-1)%float else 1%float)
    else
      let ix := libm_pow iv iw in
      if is_infinity ix
      then Raise (OverflowError "(34, 'Numerical result out of range')")
      else Ok (if negate_result then (- ix)%float else ix).

(** A number as the density argument holds it: the route passes either the
    parsed float or the int [DEFAULT_DENSITY]. *)
Inductive pynum : Type :=
| NInt (z : Z)
| NFloat (f : float).

(** The float operand of [density * (4/3)]. *)
Definition num_float (n : pynum) : result float :=
  match n with
  | NFloat f => Ok f
  | NInt z => py_float (PyInt z)
  end.

(** ** The impact-energy computation (web.py lines 48-88) *)

Definition math_pi : float := 0x1.921fb54442d18p+1%float.

(** An f-string field [f"{v:spec}suffix"], kept as the value, the format
    spec and the literal text after it. *)
Inductive formatted : Type :=
| Formatted (v : pynum) (spec : string) (suffix : string).

Definition formatted_value (x : formatted) : pynum :=
  match x with Formatted v _ _ => v end.

Module Report.
Record t : Type := mk {
  name : pyval;
  average_diameter_m : formatted;
  relative_velocity_km_s : formatted;
  assumed_density_kg_m3 : formatted;
  calculated_mass_kg : formatted;
  kinetic_energy_joules : formatted;
  impact_energy_megatons_tnt : formatted;
  is_potentially_hazardous : pyval;
  interpretation : string
}.
End Report.

(** The dict a call returns: the report, or [{"error": message}]. *)
Inductive outcome : Type :=
| ReportDict (r : Report.t)
| ErrorDict (error : string).

Definition DEVASTATING : string :=
  "Devastating impact event, comparable to large scale nuclear war scenarios. Mitigation is critical.".
Definition MAJOR : string :=
  "Major regional impact event, capable of causing widespread destruction and global climate effects.".
Definition POWERFUL : string :=
  "Powerful impact, capable of leveling a major metropolitan area (like the Tunguska event).".
Definition SMALLER : string :=
  "Smaller impact, likely resulting in localized damage or an atmospheric explosion (airburst).".

(** Lines 66-73. *)
Definition interpret (energy_megatons : float) : string :=
  if (100 <? energy_megatons)%float then DEVASTATING
  else if (10 <? energy_megatons)%float then MAJOR
  else if (1 <? energy_megatons)%float then POWERFUL
  else SMALLER.

(** The body of the [try] block, lines 52-85. *)
Definition calculate_body (libm_pow : float -> float -> float)
  (asteroid_data : pyval) (density : pynum) : result Report.t :=
  ed <- getitem asteroid_data "estimated_diameter" ;;
  estimated_diameter <- getitem ed "meters" ;;
  dmin <- getitem estimated_diameter "estimated_diameter_min" ;;
  min_d <- py_float dmin ;;
  dmax <- getitem estimated_diameter "estimated_diameter_max" ;;
  max_d <- py_float dmax ;;
  let avg_diameter := ((min_d + max_d) / 2)%float in
  let avg_radius := (avg_diameter / 2)%float in
  cad <- getitem asteroid_data "close_approach_data" ;;
  close_approach <- getitem_last cad ;;
  rv <- getitem close_approach "relative_velocity" ;;
  kps <- getitem rv "kilometers_per_second" ;;
  relative_velocity_km_s <- py_float kps ;;
  let V_m_s := (relative_velocity_km_s * 1000)%float in
  d <- num_float density ;;
  r3 <- float_pow libm_pow avg_radius 3 ;;
  let mass_kg := (d * (4 / 3) * math_pi * r3)%float in
  v2 <- float_pow libm_pow V_m_s 2 ;;
  let kinetic_energy_joules := (0.5 * mass_kg * v2)%float in
  let energy_megatons := (kinetic_energy_joules / JOULES_PER_MEGATON)%float in
  let interpretation := interpret energy_megatons in
  nm <- py_get asteroid_data "name" (PyStr "N/A") ;;
  hz <- py_get asteroid_data "is_potentially_hazardous_asteroid" (PyBool false) ;;
  Ok (Report.mk
        nm
        (Formatted (NFloat avg_diameter) ".2f" " meters")
        (Formatted (NFloat relative_velocity_km_s) ".3f" " km/s")
        (Formatted density "," " kg/m³")
        (Formatted (NFloat mass_kg) ".2e" " kg")
        (Formatted (NFloat kinetic_energy_joules) ".2e" "")
        (Formatted (NFloat energy_megatons) ".2e" " MT")
        hz
        interpretation).

Definition ERROR_PREFIX : string :=
  "An unexpected error occurred during calculation: ".

(** Lines 51 and 87-88: every exception of the body is caught. *)
Definition calculate_impact_energy (libm_pow : float -> float -> float)
  (asteroid_data : pyval) (density : pynum) : outcome :=
  match calculate_body libm_pow asteroid_data density with
  | Ok r => ReportDict r
  | Raise e => ErrorDict (ERROR_PREFIX ++ exn_text e)
  end.

(** ** The route (web.py lines 99-118) *)

(** [request.form]: the submitted fields, [get] returning the first value of
    a key or [None]. *)
Definition form := list (string * string).

(** Lines 105-108: only TypeError and ValueError are caught. *)
Definition parse_density (density_value : option string) : result pynum :=
  let attempt :=
    match density_value with
    | None => py_float PyNone
    | Some s => py_float (PyStr s)
    end in
  match attempt with
  | Ok f => Ok (NFloat f)
  | Raise (TypeError _) | Raise (ValueError _) => Ok (NInt DEFAULT_DENSITY)
  | Raise e => Raise e
  end.

Definition not_found_message (asteroid_name : string) : string :=
  "Asteroid '" ++ asteroid_name ++ "' not found. Try '99942 Apophis'.".

(** The dict handed to [jsonify]; [Raise] is an exception that leaves the
    view function. *)
Definition calculate_impact_route (libm_pow : float -> float -> float)
  (f : form) : result outcome :=
  let asteroid_name := assoc "asteroid_name" f in
  let density_value := assoc "density_value" f in
  selected_density <- parse_density density_value ;;
  match asteroid_name with
  | None => Raise (AttributeError "'NoneType' object has no attribute 'strip'")
  | Some n =>
      match find_mock_asteroid_data n with
      | None => Ok (ErrorDict (not_found_message n))
      | Some asteroid_data =>
          Ok (calculate_impact_energy libm_pow asteroid_data selected_density)
      end
  end.

(** * The vocabulary of the properties *)

(** ** The algorithm as the specification words it (steps 1 to 6) *)

Module Spec.

Local Open Scope float_scope.

Definition avgDiameter (diameterMin diameterMax : float) : float :=
  (diameterMin + diameterMax) / 2.

Definition avgRadius (diameterMin diameterMax : float) : float :=
  avgDiameter diameterMin diameterMax / 2.

Definition velocity_m_s (velocity_km_s : float) : float :=
  velocity_km_s * 1000.

Definition mass (density radiusCubed : float) : float :=
  density * (4 / 3) * math_pi * radiusCubed.

Definition kineticEnergy (m velocitySquared : float) : float :=
  0.5 * m * velocitySquared.

Definition energyMegatons (kineticEnergyJoules : float) : float :=
  kineticEnergyJoules / 4.184e15.

(** The chain from the density, the cube of the radius and the square of
    the velocity to the megatons. *)
Definition energy (density radiusCubed velocitySquared : float) : float :=
  energyMegatons (kineticEnergy (mass density radiusCubed) velocitySquared).

End Spec.

(** ** Characters of the lookup key *)

(** A character other than [old]. *)
Definition differs (old : ascii) (c : ascii) : bool := negb (Ascii.eqb c old).

Definition not_lower (c : ascii) : bool := negb (PyStr.is_lower c).

(** A string with no leading whitespace keeps that after [rstrip]. *)
Definition no_leading_space (s : string) : bool :=
  match s with
  | EmptyString => true
  | String c _ => negb (PyStr.is_space c)
  end.

(** Inputs free of the three rewritten characters. *)
Definition plain_char (c : ascii) : bool :=
  differs "(" c && differs ")" c && differs "-" c.

(** ** Reading a record *)

(** The value stored under a path of keys: [None] when a key on the way is
    absent or the value met is not a dict. *)
Fixpoint field (path : list string) (v : pyval) : option pyval :=
  match path with
  | [] => Some v
  | k :: rest =>
      match v with
      | PyDict d =>
          match assoc k d with
          | Some x => field rest x
          | None => None
          end
      | _ => None
      end
  end.

(** The float a field holds, when the field is there and [float()] takes it. *)
Definition read_float (path : list string) (v : pyval) : option float :=
  match field path v with
  | Some x => match py_float x with Ok f => Some f | Raise _ => None end
  | None => None
  end.

Definition DIAMETER_MIN : list string :=
  ["estimated_diameter"; "meters"; "estimated_diameter_min"].
Definition DIAMETER_MAX : list string :=
  ["estimated_diameter"; "meters"; "estimated_diameter_max"].
Definition APPROACHES : list string := ["close_approach_data"].
Definition VELOCITY : list string :=
  ["relative_velocity"; "kilometers_per_second"].

(** The last entry of a sequence. *)
Definition last_entry (l : list pyval) : option pyval :=
  match rev l with
  | x :: _ => Some x
  | [] => None
  end.

(** The record without the key [k]. *)
Fixpoint without (k : string) (d : list (string * pyval))
  : list (string * pyval) :=
  match d with
  | [] => []
  | (k', v) :: r =>
      if String.eqb k k' then without k r else (k', v) :: without k r
  end.

(** ** What the computation returns *)

(** The [name] and hazard entries of the report, with their defaults. *)
Definition name_of (items : list (string * pyval)) : pyval :=
  match assoc "name" items with Some x => x | None => PyStr "N/A" end.

Definition hazard_of (items : list (string * pyval)) : pyval :=
  match assoc "is_potentially_hazardous_asteroid" items with
  | Some x => x
  | None => PyBool false
  end.

(** The report the code builds from the numbers it has read and the two
    powers [r3 = avg_radius ** 3] and [v2 = V_m_s ** 2]. *)
Definition report_of (items : list (string * pyval)) (density : pynum)
  (d min_d max_d v r3 v2 : float) : Report.t :=
  let avg_diameter := Spec.avgDiameter min_d max_d in
  let mass_kg := Spec.mass d r3 in
  let kinetic_energy_joules := Spec.kineticEnergy mass_kg v2 in
  let energy_megatons := Spec.energyMegatons kinetic_energy_joules in
  Report.mk
    (name_of items)
    (Formatted (NFloat avg_diameter) ".2f" " meters")
    (Formatted (NFloat v) ".3f" " km/s")
    (Formatted density "," " kg/m³")
    (Formatted (NFloat mass_kg) ".2e" " kg")
    (Formatted (NFloat kinetic_energy_joules) ".2e" "")
    (Formatted (NFloat energy_megatons) ".2e" " MT")
    (hazard_of items)
    (interpret energy_megatons).

(** The two powers of the body, read off the record. *)
Definition body_powers (libm_pow : float -> float -> float)
  (min_d max_d v : float) : result float * result float :=
  (float_pow libm_pow (Spec.avgRadius min_d max_d) 3,
   float_pow libm_pow (Spec.velocity_m_s v) 2).

(** A [pow] for the examples: the square and the cube by multiplication.
    At the inputs the examples use, the power is either exactly a double
    (180^3, 7420^2) or far beyond the double range, so every library whose
    error stays below one unit in the last place returns the same value. *)
Definition product_pow (x y : float) : float :=
  if (y =? 2)%float then (x * x)%float
  else if (y =? 3)%float then (x * x * x)%float
  else nan.

(** What the examples ask of the C library's [pow]: the exact value where
    the power is a double (180^3 and 7420^2), infinity where it is beyond
    the double range (5e199^3 and 1e163^2). *)
Definition pow_on_examples (libm_pow : float -> float -> float) : Prop :=
  libm_pow 180%float 3%float = 5832000%float /\
  libm_pow 7420%float 2%float = 55056400%float /\
  libm_pow 0x1.4e718d7d7625ap+663%float 3%float = infinity /\
  libm_pow 0x1.63a432c8f5cd6p+541%float 2%float = infinity.

(** ** Defects of a record *)

(** The three defects of a resolved record: a field that is not there, a
    field whose content [float()] refuses, and an empty list of approaches. *)
Definition absent (p : list string) (v : pyval) : Prop := field p v = None.

Definition non_numeric (p : list string) (v : pyval) : Prop :=
  exists x e, field p v = Some x /\ py_float x = Raise e.

Definition malformed (rec : pyval) : Prop :=
  absent DIAMETER_MIN rec \/ absent DIAMETER_MAX rec \/
  non_numeric DIAMETER_MIN rec \/ non_numeric DIAMETER_MAX rec \/
  field APPROACHES rec = Some (PyList []) \/
  (exists l ca, field APPROACHES rec = Some (PyList l) /\
                last_entry l = Some ca /\
                (absent VELOCITY ca \/ non_numeric VELOCITY ca)).

(** Records with each defect in turn. *)
Definition NO_DIAMETER : pyval :=
  PyDict [ ("name", PyStr "x");
           ("close_approach_data",
             PyList [ PyDict [ ("relative_velocity",
               PyDict [ ("kilometers_per_second", PyStr "7.42") ]) ] ]) ].

Definition BAD_DIAMETER : pyval :=
  PyDict [ ("estimated_diameter",
             PyDict [ ("meters",
               PyDict [ ("estimated_diameter_min", PyStr "n/a");
                        ("estimated_diameter_max", PyStr "400.0") ]) ]);
           ("close_approach_data",
             PyList [ PyDict [ ("relative_velocity",
               PyDict [ ("kilometers_per_second", PyStr "7.42") ]) ] ]) ].

Definition NO_APPROACH : pyval :=
  PyDict [ ("estimated_diameter",
             PyDict [ ("meters",
               PyDict [ ("estimated_diameter_min", PyStr "320.0");
                        ("estimated_diameter_max", PyStr "400.0") ]) ]);
           ("close_approach_data", PyList []) ].

(** ** The two optional keys *)

(** The report with the defaults of the two [get] calls. *)
Definition with_defaults (r : Report.t) : Report.t :=
  Report.mk (PyStr "N/A")
    (Report.average_diameter_m r) (Report.relative_velocity_km_s r)
    (Report.assumed_density_kg_m3 r) (Report.calculated_mass_kg r)
    (Report.kinetic_energy_joules r) (Report.impact_energy_megatons_tnt r)
    (PyBool false) (Report.interpretation r).

(** The record without its [name] and hazard keys. *)
Definition strip_optional (items : list (string * pyval))
  : list (string * pyval) :=
  without "name" (without "is_potentially_hazardous_asteroid" items).

(** The mock record without the two keys. *)
Definition ANONYMOUS : list (string * pyval) :=
  [ ("estimated_diameter",
      PyDict [ ("meters",
        PyDict [ ("estimated_diameter_min", PyStr "320.0");
                 ("estimated_diameter_max", PyStr "400.0") ]) ]);
    ("close_approach_data",
      PyList [ PyDict [ ("relative_velocity",
        PyDict [ ("kilometers_per_second", PyStr "7.42") ]) ] ]) ].

(** ** Signs and order of doubles *)

(** Not greater than zero: NaN, a zero, or a value with the sign bit set. *)
Definition sf_nonpos (x : spec_float) : bool :=
  match x with
  | S754_nan | S754_zero _ => true
  | S754_infinity s | S754_finite s _ _ => s
  end.

(** Not less than zero: NaN, a zero, or a value with the sign bit clear. *)
Definition sf_nonneg (x : spec_float) : bool :=
  match x with
  | S754_nan | S754_zero _ => true
  | S754_infinity s | S754_finite s _ _ => negb s
  end.

Definition nonpos (x : float) : Prop := sf_nonpos (Prim2SF x) = true.
Definition nonneg (x : float) : Prop := sf_nonneg (Prim2SF x) = true.

(** ** Records for the boundary cases *)

(** A record with numeric diameters and one approach whose radius cubed
    leaves the double range. *)
Definition HUGE : pyval :=
  PyDict [ ("name", PyStr "huge");
           ("estimated_diameter",
             PyDict [ ("meters",
               PyDict [ ("estimated_diameter_min", PyStr "1e200");
                        ("estimated_diameter_max", PyStr "1e200") ]) ]);
           ("close_approach_data",
             PyList [ PyDict [ ("relative_velocity",
               PyDict [ ("kilometers_per_second", PyStr "7.42") ]) ] ]) ].

(** Two approaches with different velocities; the last is the mock one. *)
Definition TWO_APPROACHES : pyval :=
  PyDict [ ("name", PyStr "99942 Apophis");
           ("is_potentially_hazardous_asteroid", PyBool true);
           ("estimated_diameter",
             PyDict [ ("meters",
               PyDict [ ("estimated_diameter_min", PyStr "320.0");
                        ("estimated_diameter_max", PyStr "400.0") ]) ]);
           ("close_approach_data",
             PyList [ PyDict [ ("relative_velocity",
                        PyDict [ ("kilometers_per_second", PyStr "30.0") ]) ];
                      PyDict [ ("relative_velocity",
                        PyDict [ ("kilometers_per_second", PyStr "7.42") ]) ] ]) ].

(** A record with numeric fields and one approach whose velocity squared
    leaves the double range. *)
Definition FAST : pyval :=
  PyDict [ ("name", PyStr "fast");
           ("estimated_diameter",
             PyDict [ ("meters",
               PyDict [ ("estimated_diameter_min", PyStr "320.0");
                        ("estimated_diameter_max", PyStr "400.0") ]) ]);
           ("close_approach_data",
             PyList [ PyDict [ ("relative_velocity",
               PyDict [ ("kilometers_per_second", PyStr "1e160") ]) ] ]) ].

(** ** Positive doubles and the index of a band *)

(** A positive finite double. *)
Definition pos_finite (c : float) : Prop :=
  (0 <? c)%float = true /\ (c <? infinity)%float = true.

(** The position of a label in the ladder, from the smaller impact (0) to
    the devastating one (3). *)
Definition band_index (label : string) : nat :=
  if String.eqb label DEVASTATING then 3
  else if String.eqb label MAJOR then 2
  else if String.eqb label POWERFUL then 1
  else 0.

(** ** Ranks of doubles

    The definitions the rounding lemmas are stated with. *)

Module Rank.

Local Open Scope Z_scope.

(** The position of the fraction [r / d] ([0 <= r < d]) relative to one
    half. *)
Definition loc_of_frac (r d : Z) : location :=
  if r =? 0 then loc_Exact else loc_Inexact (2 * r ?= d).

(** The record [mrs] holds the quotient [n / d] and the position of the
    remainder. *)
Definition frac_rep (n d : Z) (mrs : shr_record) : Prop :=
  shr_m mrs = n / d /\ loc_of_shr_record mrs = loc_of_frac (n mod d) d.

(** Round to nearest, ties to even, of [n / d] to an integer. *)
Definition rne (n d : Z) : Z :=
  round_nearest_even (n / d) (loc_of_frac (n mod d) d).

(** The exponent of the format for a value of magnitude [mag]. *)
Definition cexp (mag : Z) : Z := Z.max (mag - 53) (-1074).

(** The rank of a binary64 value among the doubles: the biased exponent
    followed by the fraction bits, with the sign in front. *)
Definition ORD_INF : Z := 2047 * 2 ^ 52.

Definition ord (x : spec_float) : Z :=
  match x with
  | S754_zero _ | S754_nan => 0
  | S754_infinity s => if s then - ORD_INF else ORD_INF
  | S754_finite s m e =>
      let o := (e + 1074) * 2 ^ 52 + Zpos m in if s then - o else o
  end.

Definition is_sf_nan (x : spec_float) : bool :=
  match x with S754_nan => true | _ => false end.

Definition sf_sign (x : spec_float) : bool :=
  match x with
  | S754_zero s | S754_infinity s | S754_finite s _ _ => s
  | S754_nan => false
  end.

(** The rank of the double nearest to [(n / d) * 2^e], before the
    saturation at infinity. *)
Definition round_rank (n d e : Z) : Z :=
  let e' := cexp (Zdigits2 (n / d) + e) in
  (e' + 1074) * 2 ^ 52 + rne n (d * 2 ^ (e' - e)).

(** The rank a positive value [(n / d) * 2^e] rounds to. *)
Definition rounded_rank (n d e : Z) : Z := Z.min (round_rank n d e) ORD_INF.

(** The rank of [x * c] for a valid [x] and a valid positive finite [c]. *)
Definition mul_rank (mc : positive) (ec : Z) (x : spec_float) : Z :=
  match x with
  | S754_zero _ | S754_nan => 0
  | S754_infinity s => if s then - ORD_INF else ORD_INF
  | S754_finite s m e =>
      let r := rounded_rank (Zpos m * Zpos mc) 1 (e + ec) in
      if s then - r else r
  end.

(** The exponent [SFdiv_core_binary] works at. *)
Definition div_exponent (mx : positive) (ex : Z) (mj : positive) (ej : Z) : Z :=
  Z.min (cexp (Zdigits2 (Zpos mx) + ex - (Zdigits2 (Zpos mj) + ej))) (ex - ej).

(** The numerator it divides. *)
Definition div_numerator (mx : positive) (ex : Z) (mj : positive) (ej : Z) : Z :=
  Zpos mx * 2 ^ (ex - ej - div_exponent mx ex mj ej).

(** The rank of [x / j] for a valid [x] and a valid positive finite [j]. *)
Definition div_rank (mj : positive) (ej : Z) (x : spec_float) : Z :=
  match x with
  | S754_zero _ | S754_nan => 0
  | S754_infinity s => if s then - ORD_INF else ORD_INF
  | S754_finite s m e =>
      let r := rounded_rank (div_numerator m e mj ej) (Zpos mj)
                 (div_exponent m e mj ej) in
      if s then - r else r
  end.

End Rank.

(** ** The replacements of the lookup key *)

(** What line 40 does to the stripped identifier: the upper-casing and the
    three replacements. *)
Definition rewritten (s : string) : string :=
  PyStr.replace "-" " "
    (PyStr.replace ")" "" (PyStr.replace "(" "" (PyStr.upper s))).

(** ** The mock record seen through the route *)

(** The smallest densities (kg/m³) at which the mock record reaches the
    bands above the smaller one: 6.221680946902193, 62.216809469021925 and
    622.1680946902192. *)
Definition POWERFUL_FROM : float := 0x1.8e30054845d6cp+2%float.
Definition MAJOR_FROM : float := 0x1.f1bc069a574c6p+5%float.
Definition DEVASTATING_FROM : float := 0x1.37158420768fbp+9%float.

(** The label of the mock record as a function of the density. *)
Definition band_of_density (d : float) : string :=
  if (DEVASTATING_FROM <=? d)%float then DEVASTATING
  else if (MAJOR_FROM <=? d)%float then MAJOR
  else if (POWERFUL_FROM <=? d)%float then POWERFUL
  else SMALLER.

(** ** What the computation reads *)

(** The top-level keys of a record that the computation reads. *)
Definition READ_KEYS : list string :=
  [ "estimated_diameter"; "close_approach_data"; "name";
    "is_potentially_hazardous_asteroid" ].

(** The report with another density entry. *)
Definition with_density (density : pynum) (r : Report.t) : Report.t :=
  Report.mk (Report.name r)
    (Report.average_diameter_m r) (Report.relative_velocity_km_s r)
    (Formatted density "," " kg/m³") (Report.calculated_mass_kg r)
    (Report.kinetic_energy_joules r) (Report.impact_energy_megatons_tnt r)
    (Report.is_potentially_hazardous r) (Report.interpretation r).

(** The mock record without its catalog id. *)
Definition MOCK_WITHOUT_ID : list (string * pyval) :=
  [ ("name", PyStr "99942 Apophis");
    ("is_potentially_hazardous_asteroid", PyBool true);
    ("estimated_diameter",
      PyDict [ ("meters",
        PyDict [ ("estimated_diameter_min", PyStr "320.0");
                 ("estimated_diameter_max", PyStr "400.0") ]) ]);
    ("close_approach_data",
      PyList [ PyDict
        [ ("relative_velocity",
            PyDict [ ("kilometers_per_second", PyStr "7.42") ]);
          ("miss_distance", PyDict [ ("kilometers", PyStr "31000.0") ]) ] ]) ].

(** Two dicts with the same computed numbers and label, or the same error. *)
Definition same_energy (o1 o2 : outcome) : Prop :=
  match o1, o2 with
  | ReportDict r1, ReportDict r2 =>
      Report.calculated_mass_kg r1 = Report.calculated_mass_kg r2 /\
      Report.kinetic_energy_joules r1 = Report.kinetic_energy_joules r2 /\
      Report.impact_energy_megatons_tnt r1
      = Report.impact_energy_megatons_tnt r2 /\
      Report.interpretation r1 = Report.interpretation r2
  | ErrorDict error1, ErrorDict error2 => error1 = error2
  | _, _ => False
  end.

(** A record whose diameter is the text [nan], and the mock record with the
    velocity reversed. *)
Definition NAN_DIAMETER : pyval :=
  PyDict [ ("estimated_diameter",
             PyDict [ ("meters",
               PyDict [ ("estimated_diameter_min", PyStr "nan");
                        ("estimated_diameter_max", PyStr "400.0") ]) ]);
           ("close_approach_data",
             PyList [ PyDict [ ("relative_velocity",
               PyDict [ ("kilometers_per_second", PyStr "7.42") ]) ] ]) ].

Definition REVERSED : pyval :=
  PyDict [ ("estimated_diameter",
             PyDict [ ("meters",
               PyDict [ ("estimated_diameter_min", PyStr "320.0");
                        ("estimated_diameter_max", PyStr "400.0") ]) ]);
           ("close_approach_data",
             PyList [ PyDict [ ("relative_velocity",
               PyDict [ ("kilometers_per_second", PyStr "-7.42") ]) ] ]) ].

(** ** The text of a density *)

(** The characters a text that [float()] takes can hold: digits, the
    whitespace it strips, signs, the point, the exponent mark, the
    underscore, and the letters of [inf], [infinity] and [nan] in either
    case. *)
Definition float_char (c : ascii) : bool :=
  PyFloat.is_digit c || PyFloat.is_c_space c
  || has_char c "+-.eE_" || has_char (PyStr.upper_char c) "INFATY".

Definition is_ascii (c : ascii) : bool := Nat.ltb (nat_of_ascii c) 128.

(** ** Overflow of a power *)

(** The text of the OverflowError that [**] raises. *)
Definition OVERFLOW_TEXT : string := "(34, 'Numerical result out of range')".

(** [base ** n] overflows: the base is a finite number and the C library
    returns an infinite power of its magnitude. *)
Definition overflows (libm_pow : float -> float -> float)
  (base exponent : float) : Prop :=
  is_nan base = false /\ is_infinity base = false /\
  is_infinity (libm_pow (abs base) exponent) = true.

(** A record with an infinite diameter. *)
Definition INFINITE_DIAMETER : pyval :=
  PyDict [ ("estimated_diameter",
             PyDict [ ("meters",
               PyDict [ ("estimated_diameter_min", PyStr "inf");
                        ("estimated_diameter_max", PyStr "400.0") ]) ]);
           ("close_approach_data",
             PyList [ PyDict [ ("relative_velocity",
               PyDict [ ("kilometers_per_second", PyStr "7.42") ]) ] ]) ].

(** * Properties *)

(** ** String lemmas for the lookup key *)

Section StringFacts.

Import PyStr.

Variable p : ascii -> bool.

Lemma all_chars_app (s t : string) :
  all_chars p (s ++ t) = all_chars p s && all_chars p t.
Proof.
  induction s as [|c s IH]; simpl; [reflexivity|].
  now rewrite IH, andb_assoc.
Qed.

Lemma all_chars_lstrip (s : string) :
  all_chars p s = true -> all_chars p (lstrip s) = true.
Proof.
  induction s as [|c s IH]; simpl; [trivial|].
  intros H. apply andb_true_iff in H as [Hc Hs].
  destruct (is_space c); [auto|]. simpl. now rewrite Hc, Hs.
Qed.

Lemma all_chars_rstrip (s : string) :
  all_chars p s = true -> all_chars p (rstrip s) = true.
Proof.
  induction s as [|c s IH]; simpl; [trivial|].
  intros H. apply andb_true_iff in H as [Hc Hs].
  specialize (IH Hs).
  destruct (rstrip s) as [|c' r'].
  - destruct (is_space c); simpl; [reflexivity|]. now rewrite Hc.
  - simpl in *. now rewrite Hc, IH.
Qed.

Lemma all_chars_strip (s : string) :
  all_chars p s = true -> all_chars p (strip s) = true.
Proof. intros H. unfold strip. now apply all_chars_rstrip, all_chars_lstrip. Qed.

Lemma all_chars_replace (old : ascii) (new s : string) :
  all_chars p new = true -> all_chars p s = true ->
  all_chars p (replace old new s) = true.
Proof.
  intros Hn. induction s as [|c s IH]; simpl; [trivial|].
  intros H. apply andb_true_iff in H as [Hc Hs].
  destruct (Ascii.eqb c old).
  - rewrite all_chars_app, Hn. simpl. auto.
  - simpl. rewrite Hc. auto.
Qed.

End StringFacts.

Section NormalizeFacts.

Import PyStr.

Lemma replace_absent (old : ascii) (new s : string) :
  all_chars (differs old) s = true -> replace old new s = s.
Proof.
  induction s as [|c s IH]; simpl; [trivial|].
  intros H. apply andb_true_iff in H as [Hc Hs].
  unfold differs in Hc. apply negb_true_iff in Hc. rewrite Hc.
  now rewrite IH.
Qed.

Lemma replace_removes (old : ascii) (new s : string) :
  all_chars (differs old) new = true ->
  all_chars (differs old) (replace old new s) = true.
Proof.
  intros Hn. induction s as [|c s IH]; simpl; [trivial|].
  destruct (Ascii.eqb c old) eqn:E.
  - now rewrite all_chars_app, Hn, IH.
  - simpl. unfold differs at 1. now rewrite E, IH.
Qed.

Lemma upper_char_not_lower (c : ascii) : not_lower (upper_char c) = true.
Proof. destruct c as [[] [] [] [] [] [] [] []]; reflexivity. Qed.

Lemma upper_char_fixed (c : ascii) : not_lower c = true -> upper_char c = c.
Proof.
  unfold not_lower, upper_char. intros H. apply negb_true_iff in H.
  now rewrite H.
Qed.

Lemma upper_char_space (c : ascii) : is_space (upper_char c) = is_space c.
Proof. destruct c as [[] [] [] [] [] [] [] []]; reflexivity. Qed.

Lemma upper_not_lower (s : string) : all_chars not_lower (upper s) = true.
Proof.
  induction s as [|c s IH]; simpl; [reflexivity|].
  now rewrite upper_char_not_lower, IH.
Qed.

Lemma upper_fixed (s : string) :
  all_chars not_lower s = true -> upper s = s.
Proof.
  induction s as [|c s IH]; simpl; [trivial|].
  intros H. apply andb_true_iff in H as [Hc Hs].
  now rewrite upper_char_fixed, IH.
Qed.

(** Characters other than the three that [normalize] rewrites; [upper]
    neither creates nor removes them. *)
Lemma upper_char_differs (old c : ascii) :
  old = "("%char \/ old = ")"%char \/ old = "-"%char ->
  differs old (upper_char c) = differs old c.
Proof.
  intros [-> | [-> | ->]];
    destruct c as [[] [] [] [] [] [] [] []]; reflexivity.
Qed.

Lemma upper_differs (old : ascii) (s : string) :
  old = "("%char \/ old = ")"%char \/ old = "-"%char ->
  all_chars (differs old) (upper s) = all_chars (differs old) s.
Proof.
  intros Ho. induction s as [|c s IH]; simpl; [reflexivity|].
  now rewrite upper_char_differs, IH.
Qed.

Lemma lstrip_upper (s : string) : lstrip (upper s) = upper (lstrip s).
Proof.
  induction s as [|c s IH]; simpl; [reflexivity|].
  rewrite upper_char_space. destruct (is_space c); [exact IH | reflexivity].
Qed.

Lemma rstrip_upper (s : string) : rstrip (upper s) = upper (rstrip s).
Proof.
  induction s as [|c s IH]; simpl; [reflexivity|].
  rewrite IH, upper_char_space.
  destruct (rstrip s); simpl; [destruct (is_space c)|]; reflexivity.
Qed.

Lemma strip_upper (s : string) : strip (upper s) = upper (strip s).
Proof. unfold strip. now rewrite lstrip_upper, rstrip_upper. Qed.

Lemma lstrip_idem (s : string) : lstrip (lstrip s) = lstrip s.
Proof.
  induction s as [|c s IH]; simpl; [reflexivity|].
  destruct (is_space c) eqn:E; [exact IH|]. simpl. now rewrite E.
Qed.

Lemma rstrip_idem (s : string) : rstrip (rstrip s) = rstrip s.
Proof.
  induction s as [|c s IH]; simpl; [reflexivity|].
  destruct (rstrip s) as [|c' r'] eqn:E.
  - destruct (is_space c) eqn:Ec; simpl; [reflexivity|]. now rewrite Ec.
  - change (rstrip (String c (String c' r')))
      with (match rstrip (String c' r') with
            | EmptyString =>
                if is_space c then EmptyString else String c EmptyString
            | r'' => String c r''
            end).
    now rewrite IH.
Qed.

Lemma lstrip_no_leading (s : string) : no_leading_space (lstrip s) = true.
Proof.
  induction s as [|c s IH]; simpl; [reflexivity|].
  destruct (is_space c) eqn:E; [exact IH|]. simpl. now rewrite E.
Qed.

Lemma lstrip_fixed (s : string) :
  no_leading_space s = true -> lstrip s = s.
Proof.
  destruct s as [|c s]; simpl; [trivial|].
  intros H. apply negb_true_iff in H. now rewrite H.
Qed.

Lemma rstrip_no_leading (s : string) :
  no_leading_space s = true -> no_leading_space (rstrip s) = true.
Proof.
  destruct s as [|c s]; simpl; [trivial|].
  intros H. destruct (rstrip s); simpl; [|exact H].
  apply negb_true_iff in H. rewrite H. simpl. now rewrite H.
Qed.

Lemma strip_idem (s : string) : strip (strip s) = strip s.
Proof.
  unfold strip.
  rewrite (lstrip_fixed (rstrip (lstrip s))).
  - apply rstrip_idem.
  - apply rstrip_no_leading, lstrip_no_leading.
Qed.

(** The key [normalize] builds has no lower-case letter, parenthesis or
    hyphen left. *)
Lemma normalize_chars (x : string) :
  all_chars not_lower (normalize x) = true /\
  all_chars (differs "(") (normalize x) = true /\
  all_chars (differs ")") (normalize x) = true /\
  all_chars (differs "-") (normalize x) = true.
Proof.
  unfold normalize. repeat split.
  - do 3 (apply all_chars_replace; [reflexivity|]). apply upper_not_lower.
  - do 2 (apply all_chars_replace; [reflexivity|]). now apply replace_removes.
  - apply all_chars_replace; [reflexivity|]. now apply replace_removes.
  - now apply replace_removes.
Qed.

(** On such a string a further [normalize] only strips. *)
Lemma normalize_clean (y : string) :
  all_chars not_lower y = true ->
  all_chars (differs "(") y = true ->
  all_chars (differs ")") y = true ->
  all_chars (differs "-") y = true ->
  normalize y = strip y.
Proof.
  intros Hl H1 H2 H3. unfold normalize.
  rewrite (upper_fixed (strip y)) by now apply all_chars_strip.
  rewrite (replace_absent "(") by now apply all_chars_strip.
  rewrite (replace_absent ")") by now apply all_chars_strip.
  rewrite (replace_absent "-") by now apply all_chars_strip.
  reflexivity.
Qed.

Lemma normalize_again (x : string) :
  normalize (normalize x) = strip (normalize x).
Proof.
  destruct (normalize_chars x) as (Hl & H1 & H2 & H3).
  now apply normalize_clean.
Qed.

Lemma plain_split (s : string) :
  all_chars plain_char s = true ->
  all_chars (differs "(") s = true /\
  all_chars (differs ")") s = true /\
  all_chars (differs "-") s = true.
Proof.
  induction s as [|c s IH]; simpl; [auto|].
  intros H. apply andb_true_iff in H as [Hc Hs].
  destruct (IH Hs) as (A & B & C). unfold plain_char in Hc.
  apply andb_true_iff in Hc as [Hc Hc3].
  apply andb_true_iff in Hc as [Hc1 Hc2].
  now rewrite Hc1, Hc2, Hc3, A, B, C.
Qed.

Lemma normalize_plain (x : string) :
  all_chars plain_char x = true -> normalize x = upper (strip x).
Proof.
  intros H. apply plain_split in H as (A & B & C). unfold normalize.
  rewrite (replace_absent "(")
    by (rewrite upper_differs by auto; now apply all_chars_strip).
  rewrite (replace_absent ")")
    by (rewrite upper_differs by auto; now apply all_chars_strip).
  rewrite (replace_absent "-")
    by (rewrite upper_differs by auto; now apply all_chars_strip).
  reflexivity.
Qed.

End NormalizeFacts.

(** ** C4: lookup equivalence classes *)

(** C4. The identifiers "99942 Apophis", "99942 APOPHIS", "(99942 Apophis)"
    and the catalog id "2000042" all resolve to the Apophis record, and
    "nonexistent-xyz" resolves to [None]. *)
Theorem lookup_equivalence_classes :
  find_mock_asteroid_data "99942 Apophis" = Some MOCK_ASTEROID_DATA /\
  find_mock_asteroid_data "99942 APOPHIS" = Some MOCK_ASTEROID_DATA /\
  find_mock_asteroid_data "(99942 Apophis)" = Some MOCK_ASTEROID_DATA /\
  find_mock_asteroid_data "2000042" = Some MOCK_ASTEROID_DATA /\
  find_mock_asteroid_data "nonexistent-xyz" = None.
Proof. repeat split; reflexivity. Qed.

(** ** C5: normalization and idempotence *)

(** C5, as stated, fails: a hyphen at the end of the input becomes a
    trailing space, which only a second normalization strips. *)
Lemma normalize_not_idempotent :
  normalize (normalize "99942 Apophis-") <> normalize "99942 Apophis-".
Proof. vm_compute. discriminate. Qed.

(** C5, amended. A second normalization only strips the key:
    [normalize (normalize x) = strip (normalize x)] for every [x]; so
    normalization is idempotent from the second application on, and it is
    idempotent on every input that has no parenthesis and no hyphen. *)
Theorem normalize_twice (x : string) :
  normalize (normalize x) = PyStr.strip (normalize x) /\
  normalize (normalize (normalize x)) = normalize (normalize x) /\
  (PyStr.all_chars plain_char x = true ->
   normalize (normalize x) = normalize x).
Proof.
  split; [apply normalize_again|]. split.
  - rewrite (normalize_again (normalize x)), normalize_again.
    apply strip_idem.
  - intros H. rewrite normalize_again, normalize_plain by exact H.
    now rewrite strip_upper, strip_idem.
Qed.

Lemma normalize_twice_witness :
  PyStr.all_chars plain_char " 99942 Apophis " = true /\
  normalize (normalize " 99942 Apophis ") = normalize " 99942 Apophis ".
Proof.
  split; [reflexivity|].
  apply (normalize_twice " 99942 Apophis "). reflexivity.
Defined.

(** ** The order of binary64 values *)

Section FloatOrder.

Local Open Scope float_scope.

Ltac cmp_cases :=
  repeat match goal with
  | |- context [Pos.compare_cont Eq ?a ?b] =>
      change (Pos.compare_cont Eq a b) with (Pos.compare a b);
      destruct (Pos.compare_spec a b)
  | |- context [Z.compare ?a ?b] => destruct (Z.compare_spec a b)
  | H : context [Pos.compare_cont Eq ?a ?b] |- _ =>
      change (Pos.compare_cont Eq a b) with (Pos.compare a b) in H;
      destruct (Pos.compare_spec a b)
  | H : context [Z.compare ?a ?b] |- _ => destruct (Z.compare_spec a b)
  end.

Lemma SFcompare_antisym (a b : spec_float) :
  SFcompare b a = option_map CompOpp (SFcompare a b).
Proof.
  destruct a as [sa|sa| |sa ma ea], b as [sb|sb| |sb mb eb]; simpl;
    try reflexivity; try (destruct sa; reflexivity);
    try (destruct sb; reflexivity); try (destruct sa, sb; reflexivity).
  destruct sa, sb; simpl; try reflexivity;
    rewrite (Z.compare_antisym ea eb);
    change (Pos.compare_cont Eq mb ma) with (Pos.compare mb ma);
    change (Pos.compare_cont Eq ma mb) with (Pos.compare ma mb);
    rewrite (Pos.compare_antisym ma mb);
    destruct (ea ?= eb)%Z, (ma ?= mb)%positive; reflexivity.
Qed.

Lemma SFltb_trans (a b c : spec_float) :
  SFltb a b = true -> SFltb b c = true -> SFltb a c = true.
Proof.
  unfold SFltb.
  destruct a as [sa|sa| |sa ma ea], b as [sb|sb| |sb mb eb],
    c as [sc|sc| |sc mc ec]; simpl; try discriminate;
    try (destruct sa; simpl; try discriminate);
    try (destruct sb; simpl; try discriminate);
    try (destruct sc; simpl; try discriminate);
    try reflexivity; intros H1 H2;
    cmp_cases; subst; try discriminate; try reflexivity; try lia.
Qed.

Lemma ltb_trans (x y z : float) :
  (x <? y) = true -> (y <? z) = true -> (x <? z) = true.
Proof. rewrite !ltb_spec. apply SFltb_trans. Qed.

Lemma leb_not_ltb (x y : float) : (x <=? y) = true -> (y <? x) = false.
Proof.
  rewrite leb_spec, ltb_spec. unfold SFleb, SFltb.
  rewrite (SFcompare_antisym (Prim2SF x) (Prim2SF y)).
  destruct (SFcompare (Prim2SF x) (Prim2SF y)) as [[]|]; simpl; congruence.
Qed.

Lemma ltb_not_leb (x y : float) : (x <? y) = true -> (y <=? x) = false.
Proof.
  rewrite leb_spec, ltb_spec. unfold SFleb, SFltb.
  rewrite (SFcompare_antisym (Prim2SF x) (Prim2SF y)).
  destruct (SFcompare (Prim2SF x) (Prim2SF y)) as [[]|]; simpl; congruence.
Qed.

End FloatOrder.

(** ** C2: the severity ladder *)

Section Severity.

Local Open Scope float_scope.

Lemma labels_distinct :
  DEVASTATING <> MAJOR /\ DEVASTATING <> POWERFUL /\ DEVASTATING <> SMALLER /\
  MAJOR <> POWERFUL /\ MAJOR <> SMALLER /\ POWERFUL <> SMALLER.
Proof. repeat split; discriminate. Qed.

Lemma above_100_above_10 (e : float) : (100 <? e) = true -> (10 <? e) = true.
Proof. apply ltb_trans. reflexivity. Qed.

Lemma above_10_above_1 (e : float) : (10 <? e) = true -> (1 <? e) = true.
Proof. apply ltb_trans. reflexivity. Qed.

Lemma interpret_cases (e : float) :
  ((100 <? e) = true /\ interpret e = DEVASTATING) \/
  ((100 <? e) = false /\ (10 <? e) = true /\ interpret e = MAJOR) \/
  ((10 <? e) = false /\ (1 <? e) = true /\ interpret e = POWERFUL) \/
  ((1 <? e) = false /\ interpret e = SMALLER).
Proof.
  unfold interpret.
  destruct (100 <? e) eqn:E100; [now left|].
  destruct (10 <? e) eqn:E10; [right; now left|].
  destruct (1 <? e) eqn:E1; [right; right; now left|].
  right; right; now right.
Qed.

End Severity.

(** C2. The classification uses strict greater-than thresholds, evaluated
    top-down: above 100 the label is the devastating one, otherwise above 10
    the major one, otherwise above 1 the powerful one, otherwise the smaller
    one.  So each label is selected exactly on its band; an energy of exactly
    1.0, 10.0 or 100.0 falls into the lower band; and a value strictly above
    a threshold (and not above the next one) falls into the next band up, as
    do the doubles right after 1.0, 10.0 and 100.0. *)
Theorem severity_thresholds (e : float) :
  (interpret e = DEVASTATING <-> (100 <? e)%float = true) /\
  (interpret e = MAJOR <->
     (10 <? e)%float = true /\ (100 <? e)%float = false) /\
  (interpret e = POWERFUL <->
     (1 <? e)%float = true /\ (10 <? e)%float = false) /\
  (interpret e = SMALLER <-> (1 <? e)%float = false) /\
  (interpret 1 = SMALLER /\ interpret 10 = POWERFUL /\ interpret 100 = MAJOR) /\
  ((1 <? e)%float = true -> (e <=? 10)%float = true -> interpret e = POWERFUL) /\
  ((10 <? e)%float = true -> (e <=? 100)%float = true -> interpret e = MAJOR) /\
  (interpret (next_up 1) = POWERFUL /\ interpret (next_up 10) = MAJOR /\
   interpret (next_up 100) = DEVASTATING).
Proof.
  destruct labels_distinct as (D1 & D2 & D3 & D4 & D5 & D6).
  pose proof (above_100_above_10 e) as T1.
  pose proof (above_10_above_1 e) as T2.
  pose proof (leb_not_ltb e 10) as L10.
  pose proof (leb_not_ltb e 100) as L100.
  unfold interpret at 1 2 3 4 8 9.
  destruct (100 <? e)%float, (10 <? e)%float, (1 <? e)%float,
    (e <=? 10)%float, (e <=? 100)%float;
    try (specialize (T1 eq_refl)); try (specialize (T2 eq_refl));
    try (specialize (L10 eq_refl)); try (specialize (L100 eq_refl));
    try discriminate;
    repeat split; intros;
    repeat match goal with H : _ /\ _ |- _ => destruct H end;
    try reflexivity; try congruence.
Qed.

Lemma severity_thresholds_witness :
  (1 <? 5)%float = true /\ (5 <=? 10)%float = true /\ interpret 5 = POWERFUL.
Proof.
  split; [reflexivity|]. split; [reflexivity|].
  apply (severity_thresholds 5); reflexivity.
Defined.

(** ** Reading a record *)

Section Reading.

Lemma getitem_ok (v : pyval) (k : string) (x : pyval) :
  getitem v k = Ok x <-> field [k] v = Some x.
Proof.
  destruct v; simpl; try (split; discriminate).
  destruct (assoc k d); split; congruence.
Qed.

Lemma getitem_absent (v : pyval) (k : string) :
  field [k] v = None -> exists e, getitem v k = Raise e.
Proof.
  destruct v; simpl; eauto.
  destruct (assoc k d); [discriminate | eauto].
Qed.

Lemma field_cons (k : string) (p : list string) (v x : pyval) :
  field (k :: p) v = Some x <->
  exists y, getitem v k = Ok y /\ field p y = Some x.
Proof.
  destruct v; simpl; try (split; [discriminate | intros (y & H & _); discriminate]).
  destruct (assoc k d) as [y|].
  - split; [eauto | intros (y' & H & H'); congruence].
  - split; [discriminate | intros (y & H & _); discriminate].
Qed.

Lemma field_cons_none (k : string) (p : list string) (v : pyval) :
  field (k :: p) v = None ->
  (exists e, getitem v k = Raise e) \/
  (exists y, getitem v k = Ok y /\ field p y = None).
Proof.
  destruct v; simpl; eauto.
  destruct (assoc k d) as [y|]; eauto.
Qed.

Lemma assoc_without_same (k : string) (d : list (string * pyval)) :
  assoc k (without k d) = None.
Proof.
  induction d as [|[k' v] d IH]; simpl; [reflexivity|].
  destruct (String.eqb k k') eqn:E; [exact IH|]. simpl. now rewrite E.
Qed.

Lemma assoc_without_other (k k' : string) (d : list (string * pyval)) :
  k <> k' -> assoc k' (without k d) = assoc k' d.
Proof.
  intros N. induction d as [|[k0 v] d IH]; simpl; [reflexivity|].
  destruct (String.eqb k k0) eqn:E.
  - apply String.eqb_eq in E. subst k0.
    destruct (String.eqb k' k) eqn:E'; [|exact IH].
    apply String.eqb_eq in E'. congruence.
  - simpl. now rewrite IH.
Qed.

End Reading.

Section Body.

Variable libm_pow : float -> float -> float.

Lemma read_float_some (p : list string) (v : pyval) (f : float) :
  read_float p v = Some f <->
  exists x, field p v = Some x /\ py_float x = Ok f.
Proof.
  unfold read_float. destruct (field p v) as [x|].
  - destruct (py_float x) eqn:E; split.
    + intros [= ->]. eauto.
    + intros (y & [= <-] & H). congruence.
    + discriminate.
    + intros (y & [= <-] & H). congruence.
  - split; [discriminate | intros (y & H & _); discriminate].
Qed.

Lemma read_float_none (p : list string) (v : pyval) :
  read_float p v = None <->
  field p v = None \/ exists x e, field p v = Some x /\ py_float x = Raise e.
Proof.
  unfold read_float. destruct (field p v) as [x|].
  - destruct (py_float x) eqn:E; split.
    + discriminate.
    + intros [H | (y & e & [= <-] & H)]; congruence.
    + intros _. right. eauto.
    + reflexivity.
  - split; [now left | reflexivity].
Qed.

Lemma JOULES_PER_MEGATON_eq : JOULES_PER_MEGATON = 4.184e15%float.
Proof. reflexivity. Qed.

(** The only exception of [**] is the OverflowError. *)
Lemma float_pow_raise (iv : float) (n : positive) (e : pyexn) :
  float_pow libm_pow iv n = Raise e ->
  e = OverflowError "(34, 'Numerical result out of range')".
Proof.
  unfold float_pow.
  destruct (is_nan iv); [discriminate|].
  destruct (is_infinity iv); [discriminate|].
  destruct (is_zero iv); [discriminate|].
  destruct (abs iv =? 1)%float; [discriminate|].
  destruct (is_infinity _); [|discriminate].
  now intros [= <-].
Qed.

(** On a record whose four inputs can be read, the body stops at a power
    that overflows and otherwise builds the report. *)
Lemma calculate_body_read (items : list (string * pyval)) (density : pynum)
  (l : list pyval) (ca : pyval) (d min_d max_d v : float) :
  read_float DIAMETER_MIN (PyDict items) = Some min_d ->
  read_float DIAMETER_MAX (PyDict items) = Some max_d ->
  field APPROACHES (PyDict items) = Some (PyList l) ->
  last_entry l = Some ca ->
  read_float VELOCITY ca = Some v ->
  num_float density = Ok d ->
  calculate_body libm_pow (PyDict items) density =
  match body_powers libm_pow min_d max_d v with
  | (Ok r3, Ok v2) => Ok (report_of items density d min_d max_d v r3 v2)
  | (Raise e, _) | (Ok _, Raise e) => Raise e
  end.
Proof.
  intros Hmin Hmax Hcad Hlast Hv Hd.
  apply read_float_some in Hmin as (a & Fa & Pa).
  apply read_float_some in Hmax as (b & Fb & Pb).
  apply read_float_some in Hv as (kps & Fk & Pk).
  unfold DIAMETER_MIN in Fa. unfold DIAMETER_MAX in Fb.
  apply field_cons in Fa as (ed & G1 & Fa).
  apply field_cons in Fa as (m & G2 & Fa).
  apply getitem_ok in Fa.
  apply field_cons in Fb as (ed' & G1' & Fb).
  rewrite G1 in G1'. injection G1' as <-.
  apply field_cons in Fb as (m' & G2' & Fb).
  rewrite G2 in G2'. injection G2' as <-.
  apply getitem_ok in Fb.
  apply getitem_ok in Hcad.
  unfold VELOCITY in Fk.
  apply field_cons in Fk as (rv & G3 & Fk).
  apply getitem_ok in Fk.
  unfold calculate_body.
  rewrite G1. cbn [bind]. rewrite G2. cbn [bind]. rewrite Fa. cbn [bind].
  rewrite Pa. cbn [bind]. rewrite Fb. cbn [bind]. rewrite Pb. cbn [bind].
  rewrite Hcad. cbn [bind].
  unfold last_entry in Hlast. unfold getitem_last.
  destruct (rev l) as [|x r]; [discriminate|]. injection Hlast as ->.
  cbn [bind]. rewrite G3. cbn [bind]. rewrite Fk. cbn [bind].
  rewrite Pk. cbn [bind]. rewrite Hd. cbn [bind].
  unfold body_powers.
  change ((min_d + max_d) / 2 / 2)%float with (Spec.avgRadius min_d max_d).
  change (v * 1000)%float with (Spec.velocity_m_s v).
  destruct (float_pow libm_pow (Spec.avgRadius min_d max_d) 3) as [r3|e];
    cbn [bind]; [|reflexivity].
  destruct (float_pow libm_pow (Spec.velocity_m_s v) 2) as [v2|e];
    cbn [bind]; reflexivity.
Qed.

End Body.

(** ** C3: malformed records *)

Section Malformed.

Variable libm_pow : float -> float -> float.

Ltac next_bind :=
  match goal with
  | |- context [bind ?m _] =>
      let E := fresh "E" in
      destruct m eqn:E; cbn [bind]; [|discriminate]
  end.

(** What a successful run of the body has read. *)
Lemma calculate_body_ok_inv (rec : pyval) (density : pynum) (r : Report.t) :
  calculate_body libm_pow rec density = Ok r ->
  exists min_d max_d cad ca v,
    read_float DIAMETER_MIN rec = Some min_d /\
    read_float DIAMETER_MAX rec = Some max_d /\
    field APPROACHES rec = Some cad /\
    getitem_last cad = Ok ca /\
    read_float VELOCITY ca = Some v.
Proof.
  unfold calculate_body. do 11 next_bind. intros _.
  exists a2, a4, a5, a6, a9.
  repeat split.
  - apply read_float_some. exists a1. split; [|assumption].
    apply field_cons. exists a. split; [assumption|].
    apply field_cons. exists a0. split; [assumption|].
    now apply getitem_ok.
  - apply read_float_some. exists a3. split; [|assumption].
    apply field_cons. exists a. split; [assumption|].
    apply field_cons. exists a0. split; [assumption|].
    now apply getitem_ok.
  - now apply getitem_ok.
  - assumption.
  - apply read_float_some. exists a8. split; [|assumption].
    apply field_cons. exists a7. split; [assumption|].
    now apply getitem_ok.
Qed.

Lemma read_float_defect (p : list string) (v : pyval) :
  absent p v \/ non_numeric p v -> read_float p v = None.
Proof. intros H. apply read_float_none. exact H. Qed.

Lemma malformed_not_ok (rec : pyval) (density : pynum) (r : Report.t) :
  malformed rec -> calculate_body libm_pow rec density <> Ok r.
Proof.
  intros M H.
  apply calculate_body_ok_inv in H
    as (min_d & max_d & cad & ca & v & Hmin & Hmax & Hcad & Hlast & Hv).
  destruct M as [M | [M | [M | [M | [M | (l & ca' & Hl & Hca & M)]]]]].
  - rewrite (read_float_defect DIAMETER_MIN rec) in Hmin by auto. discriminate.
  - rewrite (read_float_defect DIAMETER_MAX rec) in Hmax by auto. discriminate.
  - rewrite (read_float_defect DIAMETER_MIN rec) in Hmin by auto. discriminate.
  - rewrite (read_float_defect DIAMETER_MAX rec) in Hmax by auto. discriminate.
  - rewrite M in Hcad. injection Hcad as <-. discriminate.
  - rewrite Hl in Hcad. injection Hcad as <-.
    unfold getitem_last in Hlast. unfold last_entry in Hca.
    destruct (rev l); [discriminate|].
    injection Hlast as E1. injection Hca as E2. subst.
    rewrite read_float_defect in Hv by exact M. discriminate.
Qed.

End Malformed.

(** C3. For every record whose diameter fields are absent, whose numeric
    fields hold content that [float()] refuses, or whose close-approach
    list is empty, and for every density, the exception raised in the body
    is caught: the call returns the dict [{"error": message}], the message
    being the fixed prefix followed by the text of the exception.  And on
    every input whatsoever the call returns one of the two dicts. *)
Theorem malformed_record_is_error
  (libm_pow : float -> float -> float) (rec : pyval) (density : pynum) :
  (malformed rec ->
   exists e, calculate_body libm_pow rec density = Raise e /\
             calculate_impact_energy libm_pow rec density
             = ErrorDict (ERROR_PREFIX ++ exn_text e)) /\
  ((exists r, calculate_impact_energy libm_pow rec density = ReportDict r) \/
   (exists e, calculate_impact_energy libm_pow rec density
              = ErrorDict (ERROR_PREFIX ++ exn_text e))).
Proof.
  unfold calculate_impact_energy. split.
  - intros M. pose proof (malformed_not_ok libm_pow rec density) as N.
    destruct (calculate_body libm_pow rec density) as [r|e].
    + now destruct (N r M).
    + eauto.
  - destruct (calculate_body libm_pow rec density) as [r|e]; eauto.
Qed.

Lemma malformed_record_is_error_witness :
  malformed BAD_DIAMETER /\
  exists e, calculate_body product_pow BAD_DIAMETER (NFloat 3000) = Raise e /\
            calculate_impact_energy product_pow BAD_DIAMETER (NFloat 3000)
            = ErrorDict (ERROR_PREFIX ++ exn_text e).
Proof.
  assert (M : malformed BAD_DIAMETER).
  { right. right. left. exists (PyStr "n/a"). eexists. split; reflexivity. }
  split; [exact M|].
  exact (proj1 (malformed_record_is_error product_pow BAD_DIAMETER (NFloat 3000)) M).
Defined.

Example no_diameter_error (libm_pow : float -> float -> float) :
  calculate_impact_energy libm_pow NO_DIAMETER (NFloat 3000)
  = ErrorDict "An unexpected error occurred during calculation: 'estimated_diameter'".
Proof. reflexivity. Qed.

Example bad_diameter_error (libm_pow : float -> float -> float) :
  calculate_impact_energy libm_pow BAD_DIAMETER (NFloat 3000)
  = ErrorDict "An unexpected error occurred during calculation: could not convert string to float: 'n/a'".
Proof. reflexivity. Qed.

Example no_approach_error (libm_pow : float -> float -> float) :
  calculate_impact_energy libm_pow NO_APPROACH (NFloat 3000)
  = ErrorDict "An unexpected error occurred during calculation: list index out of range".
Proof. vm_compute. reflexivity. Qed.

(** ** C6, C8: the route *)

Section Route.

Variable libm_pow : float -> float -> float.

Lemma parse_density_total (density_value : option string) :
  exists d, parse_density density_value = Ok d.
Proof.
  unfold parse_density. destruct density_value as [s|]; simpl.
  - destruct (PyFloat.of_string s); eauto.
  - eauto.
Qed.

Lemma parse_density_default (density_value : option string) :
  density_value = None \/
  (exists s, density_value = Some s /\ PyFloat.of_string s = None) ->
  parse_density density_value = Ok (NInt 3000).
Proof.
  intros [-> | (s & -> & H)]; unfold parse_density; simpl; [reflexivity|].
  now rewrite H.
Qed.

Lemma parse_density_parsed (s : string) (x : float) :
  PyFloat.of_string s = Some x -> parse_density (Some s) = Ok (NFloat x).
Proof. intros H. unfold parse_density. simpl. now rewrite H. Qed.

Lemma error_message_not_not_found (m n : string) :
  ERROR_PREFIX ++ m <> not_found_message n.
Proof. unfold ERROR_PREFIX, not_found_message. simpl. discriminate. Qed.

Lemma computation_error_prefix (rec : pyval) (density : pynum) (msg : string) :
  calculate_impact_energy libm_pow rec density = ErrorDict msg ->
  exists e, msg = ERROR_PREFIX ++ exn_text e.
Proof.
  unfold calculate_impact_energy.
  destruct (calculate_body libm_pow rec density) as [r|e]; [discriminate|].
  intros [= <-]. now exists e.
Qed.

End Route.

(** C6. When the identifier is unknown the route answers with the
    not-found dict, and that dict is never a value that
    [calculate_impact_energy] returns for a failed computation: the two
    messages start differently ("Asteroid '" against "An unexpected error"),
    whatever the identifier, the record and the density. *)
Theorem lookup_and_computation_errors_disjoint
  (libm_pow : float -> float -> float)
  (f : form) (n : string) (rec : pyval) (density : pynum) (msg : string) :
  assoc "asteroid_name" f = Some n ->
  find_mock_asteroid_data n = None ->
  calculate_impact_energy libm_pow rec density = ErrorDict msg ->
  calculate_impact_route libm_pow f = Ok (ErrorDict (not_found_message n)) /\
  ErrorDict msg <> ErrorDict (not_found_message n).
Proof.
  intros Hn Hfind Hcalc. split.
  - unfold calculate_impact_route.
    destruct (parse_density_total (assoc "density_value" f)) as (d & ->).
    cbn [bind]. now rewrite Hn, Hfind.
  - apply computation_error_prefix in Hcalc as (e & ->).
    intros H. apply (error_message_not_not_found (exn_text e) n). congruence.
Qed.

Lemma lookup_and_computation_errors_disjoint_witness :
  calculate_impact_route product_pow
    [("asteroid_name", "433 Eros"); ("density_value", "2700")]
  = Ok (ErrorDict "Asteroid '433 Eros' not found. Try '99942 Apophis'.") /\
  ErrorDict "An unexpected error occurred during calculation: list index out of range"
  <> ErrorDict "Asteroid '433 Eros' not found. Try '99942 Apophis'.".
Proof.
  apply (lookup_and_computation_errors_disjoint product_pow
           [("asteroid_name", "433 Eros"); ("density_value", "2700")]
           "433 Eros" NO_APPROACH (NFloat 3000)).
  - reflexivity.
  - reflexivity.
  - vm_compute. reflexivity.
Defined.

(** C8. When the form has no density value, or one that [float()] refuses,
    the route takes the int 3000 of the "Rocky" preset and goes on: with an
    identifier in the form it answers with the not-found dict or with the
    result of the computation at density 3000. *)
Theorem density_fallback
  (libm_pow : float -> float -> float) (f : form) (n : string) :
  assoc "asteroid_name" f = Some n ->
  assoc "density_value" f = None \/
  (exists s, assoc "density_value" f = Some s /\ PyFloat.of_string s = None) ->
  assoc "Rocky" DENSITIES = Some 3000%Z /\
  parse_density (assoc "density_value" f) = Ok (NInt 3000) /\
  calculate_impact_route libm_pow f =
  Ok (match find_mock_asteroid_data n with
      | None => ErrorDict (not_found_message n)
      | Some asteroid_data =>
          calculate_impact_energy libm_pow asteroid_data (NInt 3000)
      end).
Proof.
  intros Hn Hd. split; [reflexivity|].
  pose proof (parse_density_default _ Hd) as P. split; [exact P|].
  unfold calculate_impact_route. rewrite P. cbn [bind]. rewrite Hn.
  now destruct (find_mock_asteroid_data n).
Qed.

Lemma density_fallback_witness :
  assoc "Rocky" DENSITIES = Some 3000%Z /\
  parse_density (assoc "density_value"
                   [("asteroid_name", "99942 Apophis"); ("density_value", "dense")])
  = Ok (NInt 3000) /\
  calculate_impact_route product_pow
    [("asteroid_name", "99942 Apophis"); ("density_value", "dense")]
  = Ok (match find_mock_asteroid_data "99942 Apophis" with
        | None => ErrorDict (not_found_message "99942 Apophis")
        | Some asteroid_data =>
            calculate_impact_energy product_pow asteroid_data (NInt 3000)
        end).
Proof.
  apply (density_fallback product_pow
           [("asteroid_name", "99942 Apophis"); ("density_value", "dense")]
           "99942 Apophis").
  - reflexivity.
  - right. exists "dense". split; reflexivity.
Defined.

Example route_without_density :
  exists r,
    calculate_impact_route product_pow [("asteroid_name", "99942 Apophis")]
    = Ok (ReportDict r) /\
    Report.assumed_density_kg_m3 r = Formatted (NInt 3000) "," " kg/m³" /\
    Report.interpretation r = DEVASTATING.
Proof. eexists. split; [vm_compute; reflexivity|]. split; reflexivity. Qed.

(** ** C10: the two optional keys *)

Section Optional.

Variable libm_pow : float -> float -> float.

Lemma assoc_strip_optional (k : string) (items : list (string * pyval)) :
  k <> "name" -> k <> "is_potentially_hazardous_asteroid" ->
  assoc k (strip_optional items) = assoc k items.
Proof.
  intros N1 N2. unfold strip_optional.
  rewrite assoc_without_other by congruence.
  now rewrite assoc_without_other by congruence.
Qed.

Lemma strip_optional_name (items : list (string * pyval)) :
  assoc "name" (strip_optional items) = None.
Proof. apply assoc_without_same. Qed.

Lemma strip_optional_hazard (items : list (string * pyval)) :
  assoc "is_potentially_hazardous_asteroid" (strip_optional items) = None.
Proof.
  unfold strip_optional. rewrite assoc_without_other by discriminate.
  apply assoc_without_same.
Qed.

Lemma getitem_strip_optional (k : string) (items : list (string * pyval)) :
  k <> "name" -> k <> "is_potentially_hazardous_asteroid" ->
  getitem (PyDict (strip_optional items)) k = getitem (PyDict items) k.
Proof. intros N1 N2. simpl. now rewrite assoc_strip_optional. Qed.

Lemma calculate_body_strip_optional
  (items : list (string * pyval)) (density : pynum) :
  calculate_body libm_pow (PyDict (strip_optional items)) density =
  match calculate_body libm_pow (PyDict items) density with
  | Ok r => Ok (with_defaults r)
  | Raise e => Raise e
  end.
Proof.
  unfold calculate_body.
  rewrite !getitem_strip_optional by discriminate.
  unfold py_get.
  rewrite strip_optional_name, strip_optional_hazard.
  repeat match goal with
         | |- context [bind ?m _] => destruct m; cbn [bind]; try reflexivity
         end.
Qed.

End Optional.

(** C10. A record lacking the [name] key or the hazard key does not make the
    computation fail: whenever a record yields a report, the same record
    without the two keys yields the same report with ['N/A'] for the name and
    [False] for the flag; and in any report the name is ['N/A'] when the
    record has no [name] key and the flag is [False] when it has no hazard
    key. *)
Theorem optional_keys_default
  (libm_pow : float -> float -> float)
  (items : list (string * pyval)) (density : pynum) (r : Report.t) :
  calculate_impact_energy libm_pow (PyDict items) density = ReportDict r ->
  calculate_impact_energy libm_pow (PyDict (strip_optional items)) density
  = ReportDict (with_defaults r) /\
  (assoc "name" items = None -> Report.name r = PyStr "N/A") /\
  (assoc "is_potentially_hazardous_asteroid" items = None ->
   Report.is_potentially_hazardous r = PyBool false).
Proof.
  unfold calculate_impact_energy. intros H. split.
  - rewrite calculate_body_strip_optional.
    destruct (calculate_body libm_pow (PyDict items) density); [|discriminate].
    now injection H as ->.
  - revert H. unfold calculate_body, py_get.
    repeat match goal with
           | |- context [bind ?m _] =>
               destruct m; cbn [bind]; [|discriminate]
           end.
    intros [= <-]. cbn. split; intros ->; reflexivity.
Qed.

Lemma optional_keys_default_witness :
  exists r,
    calculate_impact_energy product_pow (PyDict ANONYMOUS) (NFloat 3000)
    = ReportDict r /\
    Report.name r = PyStr "N/A" /\
    Report.is_potentially_hazardous r = PyBool false.
Proof.
  eexists. split; [vm_compute; reflexivity|].
  split.
  - apply (optional_keys_default product_pow ANONYMOUS (NFloat 3000));
      [vm_compute|]; reflexivity.
  - apply (optional_keys_default product_pow ANONYMOUS (NFloat 3000));
      [vm_compute|]; reflexivity.
Defined.

(** ** Signs of binary64 products and quotients *)

Section FloatSign.

Local Open Scope float_scope.

(** Rounding keeps the sign it is given. *)
Lemma binary_round_aux_sign (s : bool) (m e : Z) (l : location) :
  match binary_round_aux prec emax s m e l with
  | S754_zero s' | S754_infinity s' | S754_finite s' _ _ => s' = s
  | S754_nan => True
  end.
Proof.
  unfold binary_round_aux.
  destruct (shr_fexp prec emax m e l) as [mrs' e'].
  destruct (shr_fexp prec emax _ e' loc_Exact) as [mrs'' e''].
  destruct (shr_m mrs''); [reflexivity | | exact I].
  destruct (Z.leb e'' (emax - prec)); reflexivity.
Qed.

Lemma SFmul_nonpos_nonneg (x y : spec_float) :
  sf_nonpos x = true -> sf_nonneg y = true ->
  sf_nonpos (SFmul prec emax x y) = true.
Proof.
  destruct x as [sx|sx| |sx mx ex], y as [sy|sy| |sy my ey]; simpl;
    try reflexivity; intros Hx Hy; subst;
    try (apply negb_true_iff in Hy; subst); try reflexivity.
  pose proof (binary_round_aux_sign (xorb true false)
                (Zpos (mx * my)) (ex + ey) loc_Exact) as H.
  destruct (binary_round_aux prec emax _ _ _ _); simpl; subst; reflexivity.
Qed.

Lemma SFmul_nonneg_nonneg (x y : spec_float) :
  sf_nonneg x = true -> sf_nonneg y = true ->
  sf_nonneg (SFmul prec emax x y) = true.
Proof.
  destruct x as [sx|sx| |sx mx ex], y as [sy|sy| |sy my ey]; simpl;
    try reflexivity; intros Hx Hy;
    try (apply negb_true_iff in Hx; subst);
    try (apply negb_true_iff in Hy; subst); try reflexivity.
  pose proof (binary_round_aux_sign (xorb false false)
                (Zpos (mx * my)) (ex + ey) loc_Exact) as H.
  destruct (binary_round_aux prec emax _ _ _ _); simpl; subst; reflexivity.
Qed.

Lemma SFmul_comm_sign (x y : spec_float) :
  sf_nonpos (SFmul prec emax x y) = sf_nonpos (SFmul prec emax y x).
Proof.
  destruct x as [sx|sx| |sx mx ex], y as [sy|sy| |sy my ey]; simpl;
    try reflexivity; try (now rewrite xorb_comm).
  now rewrite xorb_comm, Pos.mul_comm, Z.add_comm.
Qed.

Lemma SFmul_self_nonneg (x : spec_float) :
  sf_nonneg (SFmul prec emax x x) = true.
Proof.
  destruct x as [sx|sx| |sx mx ex]; simpl; try reflexivity;
    try (now destruct sx).
  pose proof (binary_round_aux_sign (xorb sx sx)
                (Zpos (mx * mx)) (ex + ex) loc_Exact) as H.
  rewrite xorb_nilpotent in *.
  destruct (binary_round_aux prec emax _ _ _ _); simpl; subst; reflexivity.
Qed.

Lemma SFdiv_nonpos_pos (x : spec_float) (my : positive) (ey : Z) :
  sf_nonpos x = true ->
  sf_nonpos (SFdiv prec emax x (S754_finite false my ey)) = true.
Proof.
  destruct x as [sx|sx| |sx mx ex]; simpl; try reflexivity; intros ->;
    try reflexivity.
  destruct (SFdiv_core_binary prec emax (Zpos mx) ex (Zpos my) ey)
    as [[mz ez] lz].
  pose proof (binary_round_aux_sign (xorb true false) mz ez lz) as H.
  destruct (binary_round_aux prec emax _ _ _ _); simpl; subst; reflexivity.
Qed.

Lemma mul_nonpos_nonneg (x y : float) :
  nonpos x -> nonneg y -> nonpos (x * y).
Proof. unfold nonpos, nonneg. rewrite mul_spec. apply SFmul_nonpos_nonneg. Qed.

Lemma mul_nonneg_nonpos (x y : float) :
  nonneg x -> nonpos y -> nonpos (x * y).
Proof.
  unfold nonpos, nonneg. rewrite mul_spec, SFmul_comm_sign. intros Hx Hy.
  now apply SFmul_nonpos_nonneg.
Qed.

Lemma mul_nonneg_nonneg (x y : float) :
  nonneg x -> nonneg y -> nonneg (x * y).
Proof. unfold nonneg. rewrite mul_spec. apply SFmul_nonneg_nonneg. Qed.

Lemma mul_self_nonneg (x : float) : nonneg (x * x).
Proof. unfold nonneg. rewrite mul_spec. apply SFmul_self_nonneg. Qed.

Lemma div_megaton_nonpos (x : float) : nonpos x -> nonpos (x / 4.184e15).
Proof.
  unfold nonpos. rewrite div_spec.
  change (Prim2SF 4.184e15) with (S754_finite false 8368000000000000 (-1)).
  apply SFdiv_nonpos_pos.
Qed.

Lemma leb_zero_nonpos (x : float) : (x <=? 0) = true -> nonpos x.
Proof.
  unfold nonpos. rewrite leb_spec.
  change (Prim2SF 0) with (S754_zero false).
  unfold SFleb, SFltb.
  destruct (Prim2SF x) as [s|s| |s m e]; simpl; intros H; try reflexivity;
    destruct s; simpl in *; congruence.
Qed.

Lemma ltb_zero_nonneg (x : float) : (0 <? x) = true -> nonneg x.
Proof.
  unfold nonneg. rewrite ltb_spec.
  change (Prim2SF 0) with (S754_zero false).
  unfold SFleb, SFltb.
  destruct (Prim2SF x) as [s|s| |s m e]; simpl; intros H; try reflexivity;
    destruct s; simpl in *; congruence.
Qed.

Lemma leb_zero_nonneg (x : float) : (0 <=? x) = true -> nonneg x.
Proof.
  unfold nonneg. rewrite leb_spec.
  change (Prim2SF 0) with (S754_zero false).
  unfold SFleb, SFltb.
  destruct (Prim2SF x) as [s|s| |s m e]; simpl; intros H; try reflexivity;
    destruct s; simpl in *; congruence.
Qed.

Lemma nonpos_not_positive (x : float) : nonpos x -> (0 <? x) = false.
Proof.
  unfold nonpos. rewrite ltb_spec.
  change (Prim2SF 0) with (S754_zero false).
  unfold SFltb.
  destruct (Prim2SF x) as [s|s| |s m e]; simpl; intros H; try reflexivity;
    subst; reflexivity.
Qed.

Lemma nonpos_smaller (x : float) : nonpos x -> interpret x = SMALLER.
Proof.
  intros H. apply nonpos_not_positive in H.
  assert (E1 : (1 <? x) = false).
  { destruct (1 <? x) eqn:E; [|reflexivity].
    rewrite (ltb_trans 0 1 x) in H by (reflexivity || assumption).
    discriminate. }
  unfold interpret.
  destruct (100 <? x) eqn:E100.
  { apply above_100_above_10, above_10_above_1 in E100. congruence. }
  destruct (10 <? x) eqn:E10.
  { apply above_10_above_1 in E10. congruence. }
  now rewrite E1.
Qed.

End FloatSign.

(** ** C1: the formula *)

Section Formula.

Variable libm_pow : float -> float -> float.

Lemma read_float_dict (p : list string) (rec : pyval) (x : float) :
  p <> [] -> read_float p rec = Some x -> exists items, rec = PyDict items.
Proof.
  intros Np H. destruct rec; eauto; destruct p; try congruence;
    unfold read_float in H; simpl in H; discriminate.
Qed.

(** The call on a record whose four inputs can be read. *)
Lemma calculate_read (rec : pyval) (density : pynum)
  (l : list pyval) (ca : pyval) (d min_d max_d v : float) :
  read_float DIAMETER_MIN rec = Some min_d ->
  read_float DIAMETER_MAX rec = Some max_d ->
  field APPROACHES rec = Some (PyList l) ->
  last_entry l = Some ca ->
  read_float VELOCITY ca = Some v ->
  num_float density = Ok d ->
  exists items,
    rec = PyDict items /\
    calculate_impact_energy libm_pow rec density =
    match body_powers libm_pow min_d max_d v with
    | (Ok r3, Ok v2) =>
        ReportDict (report_of items density d min_d max_d v r3 v2)
    | (Raise e, _) | (Ok _, Raise e) => ErrorDict (ERROR_PREFIX ++ exn_text e)
    end.
Proof.
  intros Hmin Hmax Hcad Hlast Hv Hd.
  assert (Np : DIAMETER_MIN <> []) by (unfold DIAMETER_MIN; discriminate).
  destruct (read_float_dict _ _ _ Np Hmin) as (items & ->).
  exists items. split; [reflexivity|].
  unfold calculate_impact_energy.
  rewrite (calculate_body_read libm_pow items density l ca d min_d max_d v)
    by assumption.
  destruct (body_powers libm_pow min_d max_d v) as [[r3|e] [v2|e']];
    reflexivity.
Qed.

(** The two powers of the mock record, of [HUGE] and of [FAST]. *)
Lemma mock_powers :
  pow_on_examples libm_pow ->
  body_powers libm_pow 320 400 0x1.dae147ae147aep+2
  = (Ok 5832000%float, Ok 55056400%float).
Proof.
  intros (H3 & H2 & _). unfold body_powers, float_pow. cbv.
  rewrite H3, H2. reflexivity.
Qed.

Lemma huge_powers (v : float) :
  pow_on_examples libm_pow ->
  fst (body_powers libm_pow 0x1.4e718d7d7625ap+664 0x1.4e718d7d7625ap+664 v)
  = Raise (OverflowError "(34, 'Numerical result out of range')").
Proof.
  intros (_ & _ & H3 & _). unfold body_powers, float_pow, fst. cbv.
  rewrite H3. reflexivity.
Qed.

Lemma fast_powers :
  pow_on_examples libm_pow ->
  body_powers libm_pow 320 400 0x1.6c2d4256ffcc3p+531
  = (Ok 5832000%float,
     Raise (OverflowError "(34, 'Numerical result out of range')")).
Proof.
  intros (H3 & _ & _ & H2). unfold body_powers, float_pow. cbv.
  rewrite H3, H2. reflexivity.
Qed.

(** The call on the mock record, for a library that is exact on its two
    powers. *)
Lemma calculate_mock (d : float) :
  pow_on_examples libm_pow ->
  calculate_impact_energy libm_pow MOCK_ASTEROID_DATA (NFloat d)
  = ReportDict
      (Report.mk (PyStr "99942 Apophis")
         (Formatted (NFloat 360) ".2f" " meters")
         (Formatted (NFloat 0x1.dae147ae147aep+2) ".3f" " km/s")
         (Formatted (NFloat d) "," " kg/m³")
         (Formatted (NFloat (Spec.mass d 5832000)) ".2e" " kg")
         (Formatted (NFloat (Spec.kineticEnergy (Spec.mass d 5832000) 55056400))
            ".2e" "")
         (Formatted (NFloat (Spec.energy d 5832000 55056400)) ".2e" " MT")
         (PyBool true)
         (interpret (Spec.energy d 5832000 55056400))).
Proof.
  intros H.
  edestruct (calculate_read MOCK_ASTEROID_DATA (NFloat d)) as (items & Ei & E).
  - vm_compute. reflexivity.
  - vm_compute. reflexivity.
  - vm_compute. reflexivity.
  - vm_compute. reflexivity.
  - vm_compute. reflexivity.
  - reflexivity.
  - rewrite E, (mock_powers H).
    unfold MOCK_ASTEROID_DATA in Ei. injection Ei as <-. reflexivity.
Qed.

End Formula.

(** C1, as stated, fails: this record has numeric diameter fields and a
    non-empty close-approach list, yet no mass or energy is computed for it.
    The cube of the radius 5e199 is beyond the double range, [**] raises
    OverflowError and the call returns the error dict. *)
Lemma formula_stops_at_overflow :
  (exists a b, read_float DIAMETER_MIN HUGE = Some a /\
               read_float DIAMETER_MAX HUGE = Some b) /\
  (exists l ca v, field APPROACHES HUGE = Some (PyList l) /\
                  last_entry l = Some ca /\ read_float VELOCITY ca = Some v) /\
  pow_on_examples product_pow /\
  (forall libm_pow : float -> float -> float,
     pow_on_examples libm_pow ->
     calculate_impact_energy libm_pow HUGE (NFloat 3000)
     = ErrorDict "An unexpected error occurred during calculation: (34, 'Numerical result out of range')").
Proof.
  split; [|split; [|split]].
  - do 2 eexists. split; vm_compute; reflexivity.
  - do 3 eexists. split; [|split].
    + vm_compute. reflexivity.
    + vm_compute. reflexivity.
    + vm_compute. reflexivity.
  - repeat split; vm_compute; reflexivity.
  - intros libm_pow H.
    edestruct (calculate_read libm_pow HUGE (NFloat 3000))
      as (items & Ei & E).
    + vm_compute. reflexivity.
    + vm_compute. reflexivity.
    + vm_compute. reflexivity.
    + vm_compute. reflexivity.
    + vm_compute. reflexivity.
    + reflexivity.
    + rewrite E. pose proof (huge_powers libm_pow 0x1.dae147ae147aep+2 H) as P.
      destruct (body_powers libm_pow _ _ _) as [r3 v2].
      cbn [fst] in P. rewrite P. reflexivity.
Qed.

(** C1, amended. For every record with numeric diameter fields and a
    non-empty close-approach list whose last entry has a numeric velocity,
    and every float density [d]: when [avgRadius ** 3] and [velocity ** 2]
    return, the call returns the report whose values are, in this order of
    operations, avgDiameter = (min + max) / 2, avgRadius = avgDiameter / 2,
    the velocity of the last entry times 1000,
    mass = d * (4/3) * pi * avgRadius ** 3,
    kineticEnergy = 0.5 * mass * velocity ** 2 and
    energyMegatons = kineticEnergy / 4.184e15, with the label of
    [interpret]; when one of the two powers raises (it overflows), the call
    returns the error dict.  On the mock record at density 3000, with a
    library [pow] that is exact on 180^3 and 7420^2, this is 360 m, 180 m,
    7420 m/s, a mass of about 7.33e10 kg, about 2.02e18 J and 482.18 MT,
    with the devastating label; and with two approaches only the last one
    counts. *)
Theorem impact_energy_formula
  (libm_pow : float -> float -> float)
  (rec : pyval) (l : list pyval) (ca : pyval) (d min_d max_d v : float) :
  (read_float DIAMETER_MIN rec = Some min_d ->
   read_float DIAMETER_MAX rec = Some max_d ->
   field APPROACHES rec = Some (PyList l) ->
   last_entry l = Some ca ->
   read_float VELOCITY ca = Some v ->
   let avgDiameter := Spec.avgDiameter min_d max_d in
   let avgRadius := Spec.avgRadius min_d max_d in
   let velocity := Spec.velocity_m_s v in
   (forall radiusCubed velocitySquared : float,
      float_pow libm_pow avgRadius 3 = Ok radiusCubed ->
      float_pow libm_pow velocity 2 = Ok velocitySquared ->
      let mass := Spec.mass d radiusCubed in
      let kineticEnergy := Spec.kineticEnergy mass velocitySquared in
      let energyMegatons := Spec.energyMegatons kineticEnergy in
      exists r,
        calculate_impact_energy libm_pow rec (NFloat d) = ReportDict r /\
        formatted_value (Report.average_diameter_m r) = NFloat avgDiameter /\
        formatted_value (Report.relative_velocity_km_s r) = NFloat v /\
        formatted_value (Report.assumed_density_kg_m3 r) = NFloat d /\
        formatted_value (Report.calculated_mass_kg r) = NFloat mass /\
        formatted_value (Report.kinetic_energy_joules r)
        = NFloat kineticEnergy /\
        formatted_value (Report.impact_energy_megatons_tnt r)
        = NFloat energyMegatons /\
        Report.interpretation r = interpret energyMegatons) /\
   ((exists e, float_pow libm_pow avgRadius 3 = Raise e) \/
    (exists e, float_pow libm_pow velocity 2 = Raise e) ->
    calculate_impact_energy libm_pow rec (NFloat d)
    = ErrorDict "An unexpected error occurred during calculation: (34, 'Numerical result out of range')")) /\
  (pow_on_examples libm_pow ->
   read_float DIAMETER_MIN MOCK_ASTEROID_DATA = Some 320%float /\
   read_float DIAMETER_MAX MOCK_ASTEROID_DATA = Some 400%float /\
   Spec.avgDiameter 320 400 = 360%float /\
   Spec.avgRadius 320 400 = 180%float /\
   Spec.velocity_m_s 0x1.dae147ae147aep+2 = 7420%float /\
   float_pow libm_pow 180 3 = Ok 5832000%float /\
   float_pow libm_pow 7420 2 = Ok 55056400%float /\
   Spec.mass 3000 5832000 = 0x1.1103ffe8ef154p+36%float /\
   (7.32e10 <? Spec.mass 3000 5832000)%float = true /\
   (Spec.mass 3000 5832000 <? 7.34e10)%float = true /\
   Spec.kineticEnergy (Spec.mass 3000 5832000) 55056400
   = 0x1.bff7649247296p+60%float /\
   (2.01e18 <? Spec.kineticEnergy (Spec.mass 3000 5832000) 55056400)%float
   = true /\
   (Spec.kineticEnergy (Spec.mass 3000 5832000) 55056400 <? 2.03e18)%float
   = true /\
   Spec.energy 3000 5832000 55056400 = 0x1.e22f4f3b3c23ap+8%float /\
   (482 <? Spec.energy 3000 5832000 55056400)%float = true /\
   (Spec.energy 3000 5832000 55056400 <? 483)%float = true /\
   calculate_impact_energy libm_pow MOCK_ASTEROID_DATA (NFloat 3000)
   = ReportDict
       (Report.mk (PyStr "99942 Apophis")
          (Formatted (NFloat 360) ".2f" " meters")
          (Formatted (NFloat 0x1.dae147ae147aep+2) ".3f" " km/s")
          (Formatted (NFloat 3000) "," " kg/m³")
          (Formatted (NFloat 0x1.1103ffe8ef154p+36) ".2e" " kg")
          (Formatted (NFloat 0x1.bff7649247296p+60) ".2e" "")
          (Formatted (NFloat 0x1.e22f4f3b3c23ap+8) ".2e" " MT")
          (PyBool true)
          DEVASTATING) /\
   calculate_impact_energy libm_pow TWO_APPROACHES (NFloat 3000)
   = calculate_impact_energy libm_pow MOCK_ASTEROID_DATA (NFloat 3000)).
Proof.
  split.
  - intros Hmin Hmax Hcad Hlast Hv.
    destruct (calculate_read libm_pow rec (NFloat d) l ca d min_d max_d v)
      as (items & -> & E); try assumption; [reflexivity|].
    cbv zeta. rewrite E. unfold body_powers. split.
    + intros r3 v2 -> ->. eexists. split; [reflexivity|].
      repeat match goal with |- _ /\ _ => split end; reflexivity.
    + intros [(e & H3) | (e & H2)].
      * rewrite H3. apply float_pow_raise in H3 as ->. reflexivity.
      * rewrite H2. apply float_pow_raise in H2 as ->.
        destruct (float_pow libm_pow (Spec.avgRadius min_d max_d) 3)
          as [r3|e3] eqn:H3; [reflexivity|].
        apply float_pow_raise in H3 as ->. reflexivity.
  - intros H.
    pose proof (mock_powers libm_pow H) as P. unfold body_powers in P.
    injection P as P3 P2.
    change (Spec.avgRadius 320 400) with 180%float in P3.
    change (Spec.velocity_m_s 0x1.dae147ae147aep+2) with 7420%float in P2.
    repeat match goal with |- _ /\ _ => split end;
      try exact P3; try exact P2;
      try (vm_compute; reflexivity).
    rewrite (calculate_mock libm_pow 3000 H). vm_compute. reflexivity.
Qed.

Lemma impact_energy_formula_witness :
  exists r,
    calculate_impact_energy product_pow MOCK_ASTEROID_DATA (NFloat 5000)
    = ReportDict r /\
    formatted_value (Report.calculated_mass_kg r)
    = NFloat (Spec.mass 5000 5832000) /\
    Report.interpretation r = DEVASTATING.
Proof.
  destruct (impact_energy_formula product_pow MOCK_ASTEROID_DATA
              [ PyDict [ ("relative_velocity",
                           PyDict [ ("kilometers_per_second", PyStr "7.42") ]);
                         ("miss_distance",
                           PyDict [ ("kilometers", PyStr "31000.0") ]) ] ]
              (PyDict [ ("relative_velocity",
                          PyDict [ ("kilometers_per_second", PyStr "7.42") ]);
                        ("miss_distance",
                          PyDict [ ("kilometers", PyStr "31000.0") ]) ])
              5000 320 400 0x1.dae147ae147aep+2) as [H _].
  destruct H as [H _]; try (vm_compute; reflexivity).
  destruct (H 5832000%float 55056400%float)
    as (r & E & _ & _ & _ & M & _ & _ & I); try (vm_compute; reflexivity).
  exists r. split; [exact E|]. split; [exact M|].
  rewrite I. vm_compute. reflexivity.
Defined.

(** ** C9: the sign of the density *)

(** C9, as stated, fails: the record is well-formed (numeric diameters, a
    non-empty close-approach list) and the density is an ordinary float,
    yet the call returns the error dict, because the square of the velocity
    1e163 m/s is beyond the double range and [**] raises OverflowError. *)
Lemma well_formed_record_can_fail :
  (exists a b, read_float DIAMETER_MIN FAST = Some a /\
               read_float DIAMETER_MAX FAST = Some b) /\
  (exists l ca v, field APPROACHES FAST = Some (PyList l) /\
                  last_entry l = Some ca /\ read_float VELOCITY ca = Some v) /\
  pow_on_examples product_pow /\
  (forall libm_pow : float -> float -> float,
     pow_on_examples libm_pow ->
     calculate_impact_energy libm_pow FAST (NFloat (-1))
     = ErrorDict "An unexpected error occurred during calculation: (34, 'Numerical result out of range')").
Proof.
  split; [|split; [|split]].
  - do 2 eexists. split.
    + vm_compute. reflexivity.
    + vm_compute. reflexivity.
  - do 3 eexists. split; [|split].
    + vm_compute. reflexivity.
    + vm_compute. reflexivity.
    + vm_compute. reflexivity.
  - repeat split; vm_compute; reflexivity.
  - intros libm_pow H.
    edestruct (calculate_read libm_pow FAST (NFloat (-1)))
      as (items & Ei & E).
    + vm_compute. reflexivity.
    + vm_compute. reflexivity.
    + vm_compute. reflexivity.
    + vm_compute. reflexivity.
    + vm_compute. reflexivity.
    + reflexivity.
    + rewrite E, (fast_powers libm_pow H). reflexivity.
Qed.

Section DensitySign.

Local Open Scope float_scope.

(** With a density that is not positive and two powers that are not
    negative, no product of the chain is above zero. *)
Lemma energy_nonpos (d r3 v2 : float) :
  (d <=? 0) = true -> (0 <=? r3) = true -> (0 <=? v2) = true ->
  nonpos (Spec.energy d r3 v2).
Proof.
  intros Hd Hr Hv.
  apply leb_zero_nonpos in Hd.
  apply leb_zero_nonneg in Hr. apply leb_zero_nonneg in Hv.
  unfold Spec.energy, Spec.energyMegatons, Spec.kineticEnergy, Spec.mass.
  apply div_megaton_nonpos.
  apply mul_nonpos_nonneg; [|assumption].
  apply mul_nonneg_nonpos; [reflexivity|].
  apply mul_nonpos_nonneg; [|assumption].
  apply mul_nonpos_nonneg; [|reflexivity].
  apply mul_nonpos_nonneg; [assumption | reflexivity].
Qed.

End DensitySign.

(** C9, amended. The density is not checked for positivity: for every
    record with numeric diameter fields and a non-empty close-approach list
    whose last entry has a numeric velocity, for which [avgRadius ** 3] and
    [velocity ** 2] return (neither overflows), and for every float density
    (zero, negative, infinite and NaN included), the call returns a report
    carrying that density.  With a density [<= 0] and the two powers
    [>= 0] (as they are for a positive radius and any velocity) the
    energy is never above zero (it is [<= 0], or NaN when an infinite factor
    meets a zero one), so the label is the smaller one. *)
Theorem density_sign_not_enforced
  (libm_pow : float -> float -> float)
  (rec : pyval) (l : list pyval) (ca : pyval)
  (d min_d max_d v radiusCubed velocitySquared : float) :
  read_float DIAMETER_MIN rec = Some min_d ->
  read_float DIAMETER_MAX rec = Some max_d ->
  field APPROACHES rec = Some (PyList l) ->
  last_entry l = Some ca ->
  read_float VELOCITY ca = Some v ->
  float_pow libm_pow (Spec.avgRadius min_d max_d) 3 = Ok radiusCubed ->
  float_pow libm_pow (Spec.velocity_m_s v) 2 = Ok velocitySquared ->
  exists r,
    calculate_impact_energy libm_pow rec (NFloat d) = ReportDict r /\
    formatted_value (Report.assumed_density_kg_m3 r) = NFloat d /\
    formatted_value (Report.impact_energy_megatons_tnt r)
    = NFloat (Spec.energy d radiusCubed velocitySquared) /\
    ((d <=? 0)%float = true ->
     (0 <=? radiusCubed)%float = true ->
     (0 <=? velocitySquared)%float = true ->
     (0 <? Spec.energy d radiusCubed velocitySquared)%float = false /\
     Report.interpretation r = SMALLER).
Proof.
  intros Hmin Hmax Hcad Hlast Hv H3 H2.
  destruct (calculate_read libm_pow rec (NFloat d) l ca d min_d max_d v)
    as (items & -> & E); try assumption; [reflexivity|].
  unfold body_powers in E. rewrite H3, H2 in E.
  eexists. split; [exact E|].
  split; [reflexivity|]. split; [reflexivity|].
  intros Hd Hr HV.
  pose proof (energy_nonpos d radiusCubed velocitySquared Hd Hr HV) as N.
  split; [now apply nonpos_not_positive | now apply nonpos_smaller].
Qed.

Lemma density_sign_not_enforced_witness :
  exists r,
    calculate_impact_energy product_pow MOCK_ASTEROID_DATA (NFloat (-3000))
    = ReportDict r /\
    formatted_value (Report.assumed_density_kg_m3 r) = NFloat (-3000) /\
    formatted_value (Report.impact_energy_megatons_tnt r)
    = NFloat (Spec.energy (-3000) 5832000 55056400) /\
    (0 <? Spec.energy (-3000) 5832000 55056400)%float = false /\
    Report.interpretation r = SMALLER.
Proof.
  destruct (density_sign_not_enforced product_pow MOCK_ASTEROID_DATA
              [ PyDict [ ("relative_velocity",
                           PyDict [ ("kilometers_per_second", PyStr "7.42") ]);
                         ("miss_distance",
                           PyDict [ ("kilometers", PyStr "31000.0") ]) ] ]
              (PyDict [ ("relative_velocity",
                          PyDict [ ("kilometers_per_second", PyStr "7.42") ]);
                        ("miss_distance",
                          PyDict [ ("kilometers", PyStr "31000.0") ]) ])
              (-3000) 320 400 0x1.dae147ae147aep+2 5832000 55056400)
    as (r & E & D & M & S); try (vm_compute; reflexivity).
  exists r. split; [exact E|]. split; [exact D|]. split; [exact M|].
  apply S; vm_compute; reflexivity.
Defined.

Example zero_density_report :
  exists r,
    calculate_impact_energy product_pow MOCK_ASTEROID_DATA (NFloat 0)
    = ReportDict r /\
    formatted_value (Report.impact_energy_megatons_tnt r) = NFloat 0 /\
    Report.interpretation r = SMALLER.
Proof. eexists. split; [vm_compute; reflexivity|]. split; reflexivity. Qed.

(** ** Rounding of binary64 values

    The operations of [SpecFloat] round through [binary_round_aux].  This
    part shows what that function returns on a positive value given as a
    fraction [(n / d) * 2^e], in terms of the rank of the result among the
    doubles, and derives that multiplying and dividing by a positive finite
    double are monotone. *)

Module Rounding.

Import Rank.

Local Open Scope Z_scope.

Section Digits.

Lemma digits2_pos_size (p : positive) : digits2_pos p = Pos.size p.
Proof. induction p; simpl; congruence. Qed.

Lemma digits2_pos_bounds (p : positive) :
  2 ^ (Zpos (digits2_pos p) - 1) <= Zpos p < 2 ^ Zpos (digits2_pos p).
Proof.
  rewrite digits2_pos_size.
  pose proof (Pos.size_gt p) as G. pose proof (Pos.size_le p) as L.
  apply Pos2Z.pos_lt_pos in G. apply Pos2Z.pos_le_pos in L.
  rewrite Pos2Z.inj_pow in G, L.
  change (Zpos p~0) with (2 * Zpos p) in L.
  replace (Zpos (Pos.size p)) with (Zpos (Pos.size p) - 1 + 1) in L at 1 by lia.
  rewrite Z.pow_add_r, Z.pow_1_r in L by lia.
  lia.
Qed.

Lemma Zdigits2_nonneg (n : Z) : 0 <= Zdigits2 n.
Proof. destruct n; simpl; lia. Qed.

Lemma Zdigits2_bounds (n : Z) :
  0 < n -> 2 ^ (Zdigits2 n - 1) <= n < 2 ^ Zdigits2 n.
Proof. destruct n as [|p|p]; try lia. intros _. apply digits2_pos_bounds. Qed.

Lemma Zdigits2_upper (n : Z) : 0 <= n -> n < 2 ^ Zdigits2 n.
Proof.
  intros H. destruct (Z.eq_dec n 0) as [->|N]; [reflexivity|].
  apply Zdigits2_bounds. lia.
Qed.

Lemma pow2_pos (k : Z) : 0 <= k -> 0 < 2 ^ k.
Proof. intros. apply Z.pow_pos_nonneg; lia. Qed.

Lemma pow2_le (a b : Z) : 0 <= a <= b -> 2 ^ a <= 2 ^ b.
Proof. intros. apply Z.pow_le_mono_r; lia. Qed.

Lemma pow2_lt (a b : Z) : 0 <= a < b -> 2 ^ a < 2 ^ b.
Proof. intros. apply Z.pow_lt_mono_r; lia. Qed.

Lemma pow2_lt_inv (a b : Z) : 0 <= a -> 0 <= b -> 2 ^ a < 2 ^ b -> a < b.
Proof. intros Ha Hb H. apply (Z.pow_lt_mono_r_iff 2); lia. Qed.

(** The number of digits is monotone. *)
Lemma Zdigits2_mono (a b : Z) : 0 <= a <= b -> Zdigits2 a <= Zdigits2 b.
Proof.
  intros [Ha Hab].
  destruct (Z.eq_dec a 0) as [->|Na]; [apply Zdigits2_nonneg|].
  pose proof (Zdigits2_bounds a ltac:(lia)) as [La _].
  pose proof (Zdigits2_bounds b ltac:(lia)) as [_ Ub].
  pose proof (Zdigits2_nonneg b) as Nb.
  assert (0 < Zdigits2 a) by (destruct a; simpl; lia).
  assert (Zdigits2 a - 1 < Zdigits2 b); [|lia].
  apply pow2_lt_inv; lia.
Qed.

End Digits.

Section Shift.

Lemma loc_of_shr_record_exact (mrs : shr_record) :
  loc_of_shr_record mrs = loc_Exact <-> shr_r mrs || shr_s mrs = false.
Proof. destruct mrs as [m [] []]; simpl; split; congruence. Qed.

Lemma loc_of_frac_exact (r d : Z) :
  loc_of_frac r d = loc_Exact <-> r = 0.
Proof.
  unfold loc_of_frac. destruct (Z.eqb_spec r 0); split; congruence.
Qed.

Lemma loc_of_frac_halved (f d : Z) (odd : bool) :
  0 <= f < d ->
  loc_of_frac (f + d * (if odd then 1 else 0)) (2 * d) =
  loc_of_shr_record (Build_shr_record 0 odd (negb (f =? 0))).
Proof.
  intros H. unfold loc_of_frac.
  destruct odd, (Z.eqb_spec f 0) as [E|E];
    match goal with |- context [?t =? 0] => destruct (Z.eqb_spec t 0) end;
    try lia; cbn [loc_of_shr_record negb]; try reflexivity; f_equal.
  - apply Z.compare_eq_iff. lia.
  - apply Z.compare_gt_iff. lia.
  - apply Z.compare_lt_iff. lia.
Qed.

Lemma shr_1_as_div (m : Z) (r s : bool) :
  0 <= m ->
  shr_1 (Build_shr_record m r s) =
  Build_shr_record (m / 2) (Z.odd m) (r || s).
Proof.
  intros Hm. destruct m as [|[p|p|]|p]; try lia; try reflexivity;
    cbn [shr_1 Z.odd]; f_equal.
  - apply (Z.div_unique_pos _ 2 _ 1); lia.
  - apply (Z.div_unique_pos _ 2 _ 0); lia.
Qed.

Lemma shr_1_frac (n d : Z) (mrs : shr_record) :
  0 <= n -> 0 < d -> frac_rep n d mrs -> frac_rep n (2 * d) (shr_1 mrs).
Proof.
  intros Hn Hd [Hm Hl].
  pose proof (Z.mod_pos_bound n d Hd) as Hr.
  pose proof (Z.div_pos n d Hn Hd) as Hq.
  assert (Hsticky : shr_r mrs || shr_s mrs = negb (n mod d =? 0)).
  { destruct (Z.eqb_spec (n mod d) 0) as [E|E]; simpl.
    - apply loc_of_shr_record_exact. rewrite Hl. now apply loc_of_frac_exact.
    - apply not_false_iff_true. intros F.
      apply loc_of_shr_record_exact in F. rewrite Hl in F.
      now apply loc_of_frac_exact in F. }
  assert (Hdiv : n / (2 * d) = (n / d) / 2).
  { rewrite (Z.mul_comm 2 d). symmetry. apply Z.div_div; lia. }
  assert (Hmod : n mod (2 * d) = n mod d + d * ((n / d) mod 2)).
  { rewrite (Z.mul_comm 2 d). apply Z.rem_mul_r; lia. }
  destruct mrs as [m r s]. cbn [shr_m shr_r shr_s] in Hm, Hsticky. subst m.
  rewrite shr_1_as_div by assumption. rewrite Hsticky.
  unfold frac_rep. cbn [shr_m]. split; [now rewrite Hdiv|].
  rewrite Hmod, Zmod_odd.
  rewrite (loc_of_frac_halved (n mod d) d (Z.odd (n / d))) by assumption.
  reflexivity.
Qed.

Lemma pow2_xI (p : positive) : 2 ^ Zpos p~1 = 2 * 2 ^ Zpos p * 2 ^ Zpos p.
Proof.
  replace (Zpos p~1) with (1 + Zpos p + Zpos p) by lia.
  rewrite !Z.pow_add_r by lia. reflexivity.
Qed.

Lemma pow2_xO (p : positive) : 2 ^ Zpos p~0 = 2 ^ Zpos p * 2 ^ Zpos p.
Proof.
  replace (Zpos p~0) with (Zpos p + Zpos p) by lia.
  rewrite !Z.pow_add_r by lia. reflexivity.
Qed.

Lemma iter_pos_shr_1_frac (p : positive) (n d : Z) (mrs : shr_record) :
  0 <= n -> 0 < d -> frac_rep n d mrs ->
  frac_rep n (d * 2 ^ Zpos p) (iter_pos shr_1 p mrs).
Proof.
  intros Hn. revert d mrs.
  induction p as [p IH|p IH|]; intros d mrs Hd H; cbn [iter_pos].
  - pose proof (pow2_pos (Zpos p) ltac:(lia)) as P.
    replace (d * 2 ^ Zpos p~1) with (2 * d * 2 ^ Zpos p * 2 ^ Zpos p)
      by (rewrite pow2_xI; ring).
    apply IH; [nia|]. apply IH; [lia|]. now apply shr_1_frac.
  - pose proof (pow2_pos (Zpos p) ltac:(lia)) as P.
    replace (d * 2 ^ Zpos p~0) with (d * 2 ^ Zpos p * 2 ^ Zpos p)
      by (rewrite pow2_xO; ring).
    apply IH; [nia|]. now apply IH.
  - replace (d * 2 ^ 1) with (2 * d) by (rewrite Z.pow_1_r; ring).
    now apply shr_1_frac.
Qed.

(** [shr] by [k >= 0] digits divides the denominator by [2^k]. *)
Lemma shr_frac (n d e k : Z) (mrs : shr_record) :
  0 <= n -> 0 < d -> 0 <= k -> frac_rep n d mrs ->
  frac_rep n (d * 2 ^ k) (fst (shr mrs e k)) /\ snd (shr mrs e k) = e + k.
Proof.
  intros Hn Hd Hk H. destruct k as [|p|p]; try lia; simpl.
  - rewrite Z.mul_1_r, Z.add_0_r. now split.
  - split; [|reflexivity]. now apply iter_pos_shr_1_frac.
Qed.

Lemma shr_record_of_loc_frac (n d : Z) :
  frac_rep n d (shr_record_of_loc (n / d) (loc_of_frac (n mod d) d)).
Proof.
  unfold frac_rep.
  destruct (loc_of_frac (n mod d) d) as [|[]]; simpl; now split.
Qed.

End Shift.

Section Nearest.

Lemma rne_bounds (n d : Z) : n / d <= rne n d <= n / d + 1.
Proof.
  unfold rne, round_nearest_even.
  destruct (loc_of_frac (n mod d) d) as [|[]]; try lia.
  destruct (Z.even (n / d)); lia.
Qed.

Lemma div_le_cross (n1 d1 n2 d2 : Z) :
  0 < d1 -> 0 < d2 -> n1 * d2 <= n2 * d1 -> n1 / d1 <= n2 / d2.
Proof.
  intros H1 H2 H.
  pose proof (Z.div_mod n1 d1 ltac:(lia)) as E1.
  pose proof (Z.div_mod n2 d2 ltac:(lia)) as E2.
  pose proof (Z.mod_pos_bound n1 d1 H1) as B1.
  pose proof (Z.mod_pos_bound n2 d2 H2) as B2.
  destruct (Z.le_gt_cases (n1 / d1) (n2 / d2)) as [L|G]; [exact L|].
  exfalso.
  assert (n2 / d2 + 1 <= n1 / d1) by lia.
  assert (d1 * d2 * (n2 / d2 + 1) <= d1 * d2 * (n1 / d1)) by nia.
  nia.
Qed.

(** Rounding to nearest, ties to even, is monotone in the fraction. *)
Lemma rne_mono (n1 d1 n2 d2 : Z) :
  0 < d1 -> 0 < d2 -> n1 * d2 <= n2 * d1 -> rne n1 d1 <= rne n2 d2.
Proof.
  intros H1 H2 H.
  pose proof (div_le_cross n1 d1 n2 d2 H1 H2 H) as Q.
  pose proof (rne_bounds n1 d1) as R1. pose proof (rne_bounds n2 d2) as R2.
  destruct (Z.eq_dec (n1 / d1) (n2 / d2)) as [E|N]; [|lia].
  pose proof (Z.div_mod n1 d1 ltac:(lia)) as E1.
  pose proof (Z.div_mod n2 d2 ltac:(lia)) as E2.
  pose proof (Z.mod_pos_bound n1 d1 H1) as B1.
  pose proof (Z.mod_pos_bound n2 d2 H2) as B2.
  assert (F : (n1 mod d1) * d2 <= (n2 mod d2) * d1) by nia.
  clear R1 R2 Q. unfold rne, round_nearest_even, loc_of_frac. rewrite <- E.
  set (q := n1 / d1) in *. set (r1 := n1 mod d1) in *. set (r2 := n2 mod d2) in *.
  clearbody q r1 r2. clear E E1 E2 H.
  destruct (Z.eqb_spec r1 0) as [Z1|Z1], (Z.eqb_spec r2 0) as [Z2|Z2];
    try destruct (Z.compare_spec (2 * r1) d1);
    try destruct (Z.compare_spec (2 * r2) d2);
    try destruct (Z.even q); try lia; exfalso; nia.
Qed.

(** Scaling both terms of the fraction changes nothing. *)
Lemma rne_scale (n d c : Z) : 0 < d -> 0 < c -> rne (c * n) (c * d) = rne n d.
Proof.
  intros Hd Hc. unfold rne.
  rewrite Z.div_mul_cancel_l by lia.
  rewrite Zmult_mod_distr_l.
  f_equal. unfold loc_of_frac.
  destruct (Z.eqb_spec (n mod d) 0) as [E|E].
  - rewrite E, Z.mul_0_r. reflexivity.
  - pose proof (Z.mod_pos_bound n d Hd).
    destruct (Z.eqb_spec (c * (n mod d)) 0); [nia|].
    f_equal.
    destruct (Z.compare_spec (2 * (n mod d)) d).
    + apply Z.compare_eq_iff. nia.
    + apply Z.compare_lt_iff. nia.
    + apply Z.compare_gt_iff. nia.
Qed.

End Nearest.

Ltac znorm :=
  change IntDef.Z.add with Z.add in *;
  change IntDef.Z.sub with Z.sub in *;
  change IntDef.Z.mul with Z.mul in *;
  change IntDef.Z.opp with Z.opp in *;
  change IntDef.Z.max with Z.max in *;
  change IntDef.Z.min with Z.min in *;
  change IntDef.Z.leb with Z.leb in *;
  change IntDef.Z.eqb with Z.eqb in *;
  change IntDef.Z.compare with Z.compare in *;
  change IntDef.Z.even with Z.even in *;
  change IntDef.Z.shiftl with Z.shiftl in *;
  change IntDef.Z.div_eucl with Z.div_eucl in *;
  change IntDef.Z.div2 with Z.div2 in *;
  change PosDef.Pos.mul with Pos.mul in *.

Section RoundAux.

Lemma fexp_cexp (e : Z) : fexp prec emax e = cexp e.
Proof. reflexivity. Qed.

Lemma Zdigits2_le_53 (m : Z) : 0 <= m < 2 ^ 53 -> Zdigits2 m <= 53.
Proof.
  intros [H0 H]. destruct (Z.eq_dec m 0) as [->|N]; [simpl; lia|].
  pose proof (Zdigits2_bounds m ltac:(lia)) as [L _].
  pose proof (Zdigits2_nonneg m).
  assert (0 < Zdigits2 m) by (destruct m; simpl; lia).
  assert (Zdigits2 m - 1 < 53); [|lia].
  apply pow2_lt_inv; lia.
Qed.

Lemma Zdigits2_eq_53 (m : Z) : 2 ^ 52 <= m < 2 ^ 53 -> Zdigits2 m = 53.
Proof.
  intros [L U]. pose proof (Zdigits2_le_53 m ltac:(lia)).
  pose proof (Zdigits2_bounds m ltac:(lia)) as [_ B].
  pose proof (Zdigits2_nonneg m).
  assert (52 < Zdigits2 m); [|lia].
  apply pow2_lt_inv; lia.
Qed.

(** The second [shr_fexp] of [binary_round_aux]: it leaves a mantissa below
    [2^53] as it is and halves [2^53]. *)
Lemma shr_fexp_normalize (m e : Z) :
  0 <= m <= 2 ^ 53 -> -1074 <= e -> (-1074 < e -> 2 ^ 52 <= m) ->
  exists mrs e2,
    shr_fexp prec emax m e loc_Exact = (mrs, e2) /\
    (e2 + 1074) * 2 ^ 52 + shr_m mrs = (e + 1074) * 2 ^ 52 + m /\
    0 <= shr_m mrs < 2 ^ 53 /\
    -1074 <= e2 /\
    cexp (Zdigits2 (shr_m mrs) + e2) = e2 /\
    (-1074 < e2 -> 2 ^ 52 <= shr_m mrs).
Proof.
  intros Hm He Hn. unfold shr_fexp. znorm. rewrite fexp_cexp.
  destruct (Z.eq_dec m (2 ^ 53)) as [->|N].
  - change (Zdigits2 (2 ^ 53)) with 54.
    replace (cexp (54 + e) - e) with 1 by (unfold cexp; lia).
    exists (Build_shr_record (2 ^ 52) false false), (e + 1).
    split; [reflexivity|]. cbn [shr_m].
    change (Zdigits2 (2 ^ 52)) with 53. unfold cexp.
    repeat split; lia.
  - assert (Hlt : 0 <= m < 2 ^ 53) by lia.
    pose proof (Zdigits2_le_53 m Hlt) as D. pose proof (Zdigits2_nonneg m) as D0.
    assert (C : cexp (Zdigits2 m + e) = e).
    { unfold cexp. destruct (Z.eq_dec e (-1074)) as [->|Ne]; [lia|].
      rewrite (Zdigits2_eq_53 m) by (split; [apply Hn|]; lia). lia. }
    rewrite C, Z.sub_diag. do 2 eexists. split; [reflexivity|].
    cbn [shr_m shr_record_of_loc]. repeat split; try lia; assumption.
Qed.

(** The mantissa once the digits below the format's exponent are cut. *)
Lemma truncated_bounds (n d e : Z) :
  0 <= n -> 0 < d ->
  let e' := cexp (Zdigits2 (n / d) + e) in
  e <= e' ->
  0 <= n / (d * 2 ^ (e' - e)) < 2 ^ 53 /\
  (-1074 < e' -> 2 ^ 52 <= n / (d * 2 ^ (e' - e))).
Proof.
  intros Hn Hd e' Hpre.
  pose proof (Z.div_pos n d Hn Hd) as Hq.
  pose proof (pow2_pos (e' - e) ltac:(lia)) as Pk.
  rewrite <- Z.div_div by lia.
  set (q := n / d) in *.
  pose proof (Zdigits2_nonneg q) as D0.
  pose proof (Zdigits2_upper q Hq) as U.
  assert (K : Zdigits2 q <= 53 + (e' - e)) by (unfold e', cexp; lia).
  repeat split.
  - apply Z.div_pos; lia.
  - apply Z.div_lt_upper_bound; [lia|].
    rewrite Z.mul_comm, <- Z.pow_add_r by lia.
    pose proof (pow2_le (Zdigits2 q) (53 + (e' - e)) ltac:(lia)). lia.
  - intros Hnorm.
    assert (E : e' - e = Zdigits2 q - 53) by (unfold e', cexp in *; lia).
    assert (Q : 0 < q) by (destruct q; simpl in *; lia).
    pose proof (Zdigits2_bounds q Q) as [L _].
    apply Z.div_le_lower_bound; [lia|].
    rewrite <- Z.pow_add_r by lia.
    replace (e' - e + 52) with (Zdigits2 q - 1) by lia. exact L.
Qed.

(** What [binary_round_aux] returns on a positive value [(n / d) * 2^e]
    whose exponent [e] is not above the one of the format. *)
Lemma binary_round_aux_rank (n d e : Z) :
  0 <= n -> 0 < d -> e <= cexp (Zdigits2 (n / d) + e) ->
  let x := binary_round_aux prec emax false (n / d) e (loc_of_frac (n mod d) d) in
  valid_binary x = true /\ is_sf_nan x = false /\ sf_sign x = false /\
  ord x = Z.min (round_rank n d e) ORD_INF.
Proof.
  intros Hn Hd Hpre x.
  destruct (truncated_bounds n d e Hn Hd Hpre) as [[T0 T1] T2].
  pose proof (rne_bounds n (d * 2 ^ (cexp (Zdigits2 (n / d) + e) - e))) as RB.
  unfold round_rank.
  set (e' := cexp (Zdigits2 (n / d) + e)) in *.
  set (m2 := rne n (d * 2 ^ (e' - e))) in *.
  destruct (shr_fexp_normalize m2 e')
    as (mrs2 & e2 & Hs2 & Hord & Hb & He2 & Hc & Hnorm);
    [lia | unfold e', cexp; lia | lia |].
  assert (X : x = match shr_m mrs2 with
                  | 0 => S754_zero false
                  | Zpos m => if e2 <=? emax - prec
                              then S754_finite false m e2
                              else S754_infinity false
                  | Zneg _ => S754_nan
                  end).
  { unfold x, binary_round_aux, shr_fexp at 1. znorm. rewrite fexp_cexp.
    fold e'.
    destruct (shr_frac n d e (e' - e) _ Hn Hd ltac:(lia)
                (shr_record_of_loc_frac n d)) as [[Fm Fl] S].
    destruct (shr (shr_record_of_loc (n / d) (loc_of_frac (n mod d) d)) e (e' - e))
      as [mrs1 e1].
    cbn [fst snd] in Fm, Fl, S. subst e1.
    rewrite Fm, Fl. fold (rne n (d * 2 ^ (e' - e))). fold m2.
    replace (e + (e' - e)) with e' by lia.
    rewrite Hs2. reflexivity. }
  rewrite X. clear X. clearbody m2.
  destruct (shr_m mrs2) as [|p|p] eqn:Em; [ | |lia].
  - cbn [valid_binary is_sf_nan sf_sign ord]. repeat split; try reflexivity.
    assert (e2 = -1074) by (destruct (Z.eq_dec e2 (-1074)); [assumption|lia]).
    unfold ORD_INF. lia.
  - destruct (Z.leb_spec e2 (emax - prec)) as [Le|Gt];
      change (emax - prec) with 971 in *.
    + cbn [valid_binary is_sf_nan sf_sign ord]. repeat split.
      * unfold bounded, canonical_mantissa. znorm. rewrite fexp_cexp.
        change (Zpos (digits2_pos p)) with (Zdigits2 (Zpos p)).
        rewrite Hc, Z.eqb_refl. apply Z.leb_le. exact Le.
      * unfold ORD_INF. lia.
    + cbn [valid_binary is_sf_nan sf_sign ord]. repeat split.
      unfold ORD_INF. specialize (Hnorm ltac:(lia)). lia.
Qed.

End RoundAux.

Section Rank.

Lemma valid_finite (s : bool) (m : positive) (e : Z) :
  valid_binary (S754_finite s m e) = true ->
  -1074 <= e <= 971 /\ Zpos m < 2 ^ 53 /\ (-1074 < e -> 2 ^ 52 <= Zpos m).
Proof.
  cbn [valid_binary]. unfold bounded, canonical_mantissa. znorm.
  rewrite fexp_cexp. change (emax - prec) with 971.
  intros H. apply andb_true_iff in H as [C B].
  apply Z.eqb_eq in C. apply Z.leb_le in B.
  change (Zpos (digits2_pos m)) with (Zdigits2 (Zpos m)) in C.
  pose proof (Zdigits2_bounds (Zpos m) ltac:(lia)) as [L U].
  pose proof (Zdigits2_nonneg (Zpos m)) as D0.
  assert (D : Zdigits2 (Zpos m) <= 53) by (unfold cexp in C; lia).
  pose proof (pow2_le (Zdigits2 (Zpos m)) 53 ltac:(lia)).
  repeat split; try (unfold cexp in C; lia).
  intros N. assert (E : Zdigits2 (Zpos m) = 53) by (unfold cexp in C; lia).
  rewrite E in L. exact L.
Qed.

(** Valid doubles compare as their ranks do. *)
Lemma SFleb_ord (a b : spec_float) :
  valid_binary a = true -> valid_binary b = true ->
  is_sf_nan a = false -> is_sf_nan b = false ->
  (SFleb a b = true <-> ord a <= ord b).
Proof.
  intros Va Vb Na Nb. unfold SFleb.
  destruct a as [sa|sa| |sa ma ea], b as [sb|sb| |sb mb eb];
    try discriminate;
    try (apply valid_finite in Va as (Ea & Ma & Sa));
    try (apply valid_finite in Vb as (Eb & Mb & Sb));
    cbn [SFcompare ord]; unfold ORD_INF;
    try (destruct sa); try (destruct sb);
    try (split; [intros _; lia | reflexivity]);
    try (split; [discriminate | lia]);
    change (Pos.compare_cont Eq ma mb) with (Pos.compare ma mb);
    rewrite ?Pos2Z.inj_compare;
    destruct (Z.compare_spec ea eb);
    destruct (Z.compare_spec (Zpos ma) (Zpos mb)); cbn [CompOpp];
    (split; [intros _; lia | first [reflexivity | intros; exfalso; lia | discriminate]])
    || (split; [discriminate | lia]).
Qed.

Lemma SFcompare_defined (a b : spec_float) :
  is_sf_nan a = false -> is_sf_nan b = false -> SFcompare a b <> None.
Proof. destruct a, b; simpl; discriminate. Qed.

Lemma SFltb_ord (a b : spec_float) :
  valid_binary a = true -> valid_binary b = true ->
  is_sf_nan a = false -> is_sf_nan b = false ->
  (SFltb a b = true <-> ord a < ord b).
Proof.
  intros Va Vb Na Nb.
  pose proof (SFleb_ord b a Vb Va Nb Na) as L.
  pose proof (SFcompare_defined a b Na Nb) as D.
  unfold SFleb in L. unfold SFltb.
  rewrite (SFcompare_antisym a b) in L.
  destruct (SFcompare a b) as [[]|]; cbn in L; [ | | |congruence];
    destruct L as [L1 L2].
  - split; [discriminate|]. specialize (L1 eq_refl). lia.
  - split; [intros _|reflexivity].
    destruct (Z.le_gt_cases (ord b) (ord a)) as [G|G]; [|exact G].
    specialize (L2 G). discriminate.
  - split; [discriminate|]. specialize (L1 eq_refl). lia.
Qed.

(** The rank of the rounded value is monotone in the value. *)
Lemma round_rank_mono (n1 d1 e1 n2 d2 e2 em : Z) :
  0 <= n1 -> 0 < d1 -> e1 <= cexp (Zdigits2 (n1 / d1) + e1) ->
  0 <= n2 -> 0 < d2 -> e2 <= cexp (Zdigits2 (n2 / d2) + e2) ->
  em <= e1 -> em <= e2 ->
  n1 * d2 * 2 ^ (e1 - em) <= n2 * d1 * 2 ^ (e2 - em) ->
  round_rank n1 d1 e1 <= round_rank n2 d2 e2.
Proof.
  intros Hn1 Hd1 P1 Hn2 Hd2 P2 M1 M2 H.
  destruct (truncated_bounds n1 d1 e1 Hn1 Hd1 P1) as [[A0 A1] A2].
  destruct (truncated_bounds n2 d2 e2 Hn2 Hd2 P2) as [[B0 B1] B2].
  unfold round_rank.
  set (c1 := cexp (Zdigits2 (n1 / d1) + e1)) in *.
  set (c2 := cexp (Zdigits2 (n2 / d2) + e2)) in *.
  pose proof (rne_bounds n1 (d1 * 2 ^ (c1 - e1))) as R1.
  pose proof (rne_bounds n2 (d2 * 2 ^ (c2 - e2))) as R2.
  assert (C1 : -1074 <= c1) by (unfold c1, cexp; lia).
  assert (C2 : -1074 <= c2) by (unfold c2, cexp; lia).
  pose proof (pow2_pos (c1 - e1) ltac:(lia)) as K1.
  pose proof (pow2_pos (c2 - e2) ltac:(lia)) as K2.
  pose proof (pow2_pos (e1 - em) ltac:(lia)) as PA.
  pose proof (pow2_pos (e2 - em) ltac:(lia)) as PB.
  assert (EA : 2 ^ (c1 - e1) * 2 ^ (e1 - em) = 2 ^ (c1 - em))
    by (rewrite <- Z.pow_add_r by lia; f_equal; lia).
  assert (EB : 2 ^ (c2 - e2) * 2 ^ (e2 - em) = 2 ^ (c2 - em))
    by (rewrite <- Z.pow_add_r by lia; f_equal; lia).
  destruct (Z.lt_trichotomy c1 c2) as [Lt | [Eq | Gt]].
  - specialize (B2 ltac:(lia)). nia.
  - rewrite Eq in *.
    assert (rne n1 (d1 * 2 ^ (c2 - e1)) <= rne n2 (d2 * 2 ^ (c2 - e2))); [|lia].
    apply rne_mono; try nia.
    pose proof (pow2_pos (c2 - em) ltac:(lia)) as PC.
    set (X := 2 ^ (c2 - e2)) in *. set (Y := 2 ^ (c2 - e1)) in *.
    set (A := 2 ^ (e1 - em)) in *. set (B := 2 ^ (e2 - em)) in *.
    set (C := 2 ^ (c2 - em)) in *.
    assert (XY : 0 <= X * Y) by (apply Z.mul_nonneg_nonneg; lia).
    pose proof (Z.mul_le_mono_nonneg_r _ _ (X * Y) XY H) as H'.
    assert (E1' : n1 * d2 * A * (X * Y) = n1 * (d2 * X) * C) by (rewrite <- EA; ring).
    assert (E2' : n2 * d1 * B * (X * Y) = n2 * (d1 * Y) * C) by (rewrite <- EB; ring).
    rewrite E1', E2' in H'.
    apply (Z.mul_le_mono_pos_r _ _ C); assumption.
  - exfalso. specialize (A2 ltac:(lia)).
    set (D1 := d1 * 2 ^ (c1 - e1)) in *. set (D2 := d2 * 2 ^ (c2 - e2)) in *.
    assert (HD1 : 0 < D1) by (unfold D1; nia).
    assert (HD2 : 0 < D2) by (unfold D2; nia).
    assert (L1 : 2 ^ 52 * D1 <= n1).
    { pose proof (Z.mul_div_le n1 D1 HD1). nia. }
    assert (U2 : n2 < 2 ^ 53 * D2).
    { pose proof (Z.mul_succ_div_gt n2 D2 HD2). nia. }
    assert (G : 2 * 2 ^ (c2 - em) <= 2 ^ (c1 - em)).
    { replace (c1 - em) with (1 + (c1 - em - 1)) by lia.
      rewrite Z.pow_add_r, Z.pow_1_r by lia.
      pose proof (pow2_le (c2 - em) (c1 - em - 1) ltac:(lia)). lia. }
    pose proof (pow2_pos (c2 - em) ltac:(lia)) as PC2.
    set (A := 2 ^ (e1 - em)) in *. set (B := 2 ^ (e2 - em)) in *.
    assert (S1 : 2 ^ 52 * D1 * d2 * A <= n1 * d2 * A) by nia.
    assert (S2 : n2 * d1 * B < 2 ^ 53 * D2 * d1 * B) by nia.
    assert (T1 : 2 ^ 52 * D1 * d2 * A = 2 ^ 52 * (d1 * d2) * 2 ^ (c1 - em))
      by (unfold D1; rewrite <- EA; ring).
    assert (T2 : 2 ^ 53 * D2 * d1 * B = 2 ^ 53 * (d1 * d2) * 2 ^ (c2 - em))
      by (unfold D2; rewrite <- EB; ring).
    assert (0 < d1 * d2) by nia.
    change (2 ^ 53) with (2 * 2 ^ 52) in *.
    nia.
Qed.

End Rank.

Section Operations.

Lemma binary_round_aux_opp (m e : Z) (l : location) :
  binary_round_aux prec emax true m e l
  = SFopp (binary_round_aux prec emax false m e l).
Proof.
  unfold binary_round_aux.
  destruct (shr_fexp prec emax m e l) as [mrs1 e1].
  destruct (shr_fexp prec emax _ e1 loc_Exact) as [mrs2 e2].
  destruct (shr_m mrs2); [reflexivity | | reflexivity].
  destruct (Z.leb e2 (emax - prec)); reflexivity.
Qed.

Lemma ord_opp (x : spec_float) : ord (SFopp x) = - ord x.
Proof. destruct x as [s|s| |s m e]; cbn; try destruct s; cbn; lia. Qed.

Lemma valid_opp (x : spec_float) : valid_binary (SFopp x) = valid_binary x.
Proof. destruct x; reflexivity. Qed.

Lemma is_sf_nan_opp (x : spec_float) : is_sf_nan (SFopp x) = is_sf_nan x.
Proof. destruct x; reflexivity. Qed.

Lemma round_rank_nonneg (n d e : Z) :
  0 <= n -> 0 < d -> e <= cexp (Zdigits2 (n / d) + e) -> 0 <= round_rank n d e.
Proof.
  intros Hn Hd P. destruct (truncated_bounds n d e Hn Hd P) as [[T0 _] _].
  pose proof (rne_bounds n (d * 2 ^ (cexp (Zdigits2 (n / d) + e) - e))).
  unfold round_rank. unfold cexp in *. lia.
Qed.

Lemma rounded_rank_bounds (n d e : Z) :
  0 <= n -> 0 < d -> e <= cexp (Zdigits2 (n / d) + e) ->
  0 <= rounded_rank n d e <= ORD_INF.
Proof.
  intros Hn Hd P. pose proof (round_rank_nonneg n d e Hn Hd P).
  unfold rounded_rank, ORD_INF in *. lia.
Qed.

(** Rounding with either sign. *)
Lemma binary_round_aux_signed (s : bool) (n d e : Z) :
  0 <= n -> 0 < d -> e <= cexp (Zdigits2 (n / d) + e) ->
  let x := binary_round_aux prec emax s (n / d) e (loc_of_frac (n mod d) d) in
  valid_binary x = true /\ is_sf_nan x = false /\
  ord x = if s then - rounded_rank n d e else rounded_rank n d e.
Proof.
  intros Hn Hd P x.
  destruct (binary_round_aux_rank n d e Hn Hd P) as (V & N & _ & O).
  unfold x. destruct s.
  - rewrite binary_round_aux_opp, valid_opp, is_sf_nan_opp, ord_opp, O.
    repeat split; assumption.
  - repeat split; assumption.
Qed.

(** Two valid positive doubles in rank order. *)
Lemma valid_order (m1 m2 : positive) (e1 e2 : Z) :
  valid_binary (S754_finite false m1 e1) = true ->
  valid_binary (S754_finite false m2 e2) = true ->
  (e1 + 1074) * 2 ^ 52 + Zpos m1 <= (e2 + 1074) * 2 ^ 52 + Zpos m2 ->
  e1 <= e2 /\ Zpos m1 <= Zpos m2 * 2 ^ (e2 - e1).
Proof.
  intros V1 V2 H.
  apply valid_finite in V1 as (E1 & M1 & N1).
  apply valid_finite in V2 as (E2 & M2 & N2).
  assert (L : e1 <= e2).
  { destruct (Z.le_gt_cases e1 e2) as [L|G]; [exact L|].
    specialize (N1 ltac:(lia)). lia. }
  split; [exact L|].
  destruct (Z.eq_dec e1 e2) as [->|N].
  - rewrite Z.sub_diag, Z.pow_0_r. lia.
  - specialize (N2 ltac:(lia)).
    pose proof (pow2_le 1 (e2 - e1) ltac:(lia)) as P.
    rewrite Z.pow_1_r in P. nia.
Qed.

(** *** Multiplication by a positive double *)

Lemma mul_exponent_ok (mx mc : positive) (ex ec : Z) :
  valid_binary (S754_finite false mx ex) = true ->
  valid_binary (S754_finite false mc ec) = true ->
  ex + ec <= cexp (Zdigits2 (Zpos mx * Zpos mc / 1) + (ex + ec)).
Proof.
  intros Vx Vc. rewrite Z.div_1_r.
  apply valid_finite in Vx as (Ex & Mx & Nx).
  apply valid_finite in Vc as (Ec & Mc & Nc).
  unfold cexp.
  destruct (Z.eq_dec ex (-1074)) as [->|Nx'], (Z.eq_dec ec (-1074)) as [->|Nc'];
    try lia.
  - specialize (Nc ltac:(lia)).
    pose proof (Zdigits2_mono (2 ^ 52) (Zpos mx * Zpos mc) ltac:(nia)) as D.
    change (Zdigits2 (2 ^ 52)) with 53 in D. lia.
  - specialize (Nx ltac:(lia)).
    pose proof (Zdigits2_mono (2 ^ 52) (Zpos mx * Zpos mc) ltac:(nia)) as D.
    change (Zdigits2 (2 ^ 52)) with 53 in D. lia.
  - specialize (Nx ltac:(lia)).
    pose proof (Zdigits2_mono (2 ^ 52) (Zpos mx * Zpos mc) ltac:(nia)) as D.
    change (Zdigits2 (2 ^ 52)) with 53 in D. lia.
Qed.

Lemma SFmul_rank (mc : positive) (ec : Z) (x : spec_float) :
  valid_binary (S754_finite false mc ec) = true ->
  valid_binary x = true -> is_sf_nan x = false ->
  let y := SFmul prec emax x (S754_finite false mc ec) in
  valid_binary y = true /\ is_sf_nan y = false /\ ord y = mul_rank mc ec x.
Proof.
  intros Vc Vx Nx y. unfold y.
  destruct x as [s|s| |s m e]; try discriminate; cbn [SFmul mul_rank].
  - rewrite xorb_false_r. repeat split.
  - rewrite xorb_false_r. repeat split.
  - rewrite xorb_false_r. znorm.
    assert (Vp : valid_binary (S754_finite false m e) = true) by exact Vx.
    pose proof (mul_exponent_ok m mc e ec Vp Vc) as P.
    pose proof (binary_round_aux_signed s (Zpos m * Zpos mc) 1 (e + ec)
                  ltac:(lia) ltac:(lia) P) as H.
    rewrite Z.div_1_r, Z.mod_1_r in H.
    change (loc_of_frac 0 1) with loc_Exact in H.
    change (Zpos (m * mc)) with (Zpos m * Zpos mc). exact H.
Qed.

Lemma mul_rank_mono (mc : positive) (ec : Z) (x1 x2 : spec_float) :
  valid_binary (S754_finite false mc ec) = true ->
  valid_binary x1 = true -> valid_binary x2 = true ->
  is_sf_nan x1 = false -> is_sf_nan x2 = false ->
  ord x1 <= ord x2 -> mul_rank mc ec x1 <= mul_rank mc ec x2.
Proof.
  intros Vc V1 V2 N1 N2 H.
  assert (B : forall s m e, valid_binary (S754_finite s m e) = true ->
              0 <= rounded_rank (Zpos m * Zpos mc) 1 (e + ec) <= ORD_INF).
  { intros s m e V. apply rounded_rank_bounds; try lia.
    now apply mul_exponent_ok. }
  assert (M : forall m1 e1 m2 e2,
              valid_binary (S754_finite false m1 e1) = true ->
              valid_binary (S754_finite false m2 e2) = true ->
              (e1 + 1074) * 2 ^ 52 + Zpos m1 <= (e2 + 1074) * 2 ^ 52 + Zpos m2 ->
              rounded_rank (Zpos m1 * Zpos mc) 1 (e1 + ec)
              <= rounded_rank (Zpos m2 * Zpos mc) 1 (e2 + ec)).
  { intros m1 e1 m2 e2 W1 W2 O.
    destruct (valid_order m1 m2 e1 e2 W1 W2 O) as [L K].
    unfold rounded_rank. apply Z.min_le_compat_r.
    apply (round_rank_mono _ _ _ _ _ _ (e1 + ec)); try lia;
      try now apply mul_exponent_ok.
    rewrite Z.sub_diag, Z.pow_0_r.
    replace (e2 + ec - (e1 + ec)) with (e2 - e1) by lia. nia. }
  destruct x1 as [s1|s1| |s1 m1 e1], x2 as [s2|s2| |s2 m2 e2];
    try discriminate; cbn [mul_rank ord] in *;
    try (pose proof (B _ _ _ V1)); try (pose proof (B _ _ _ V2));
    try (apply valid_finite in V1 as V1'); try (apply valid_finite in V2 as V2');
    unfold ORD_INF in *;
    try destruct s1; try destruct s2; try lia.
  - pose proof (M m2 e2 m1 e1 V2 V1 ltac:(lia)). lia.
  - pose proof (M m1 e1 m2 e2 V1 V2 ltac:(lia)). lia.
Qed.

(** Multiplying by a positive finite double is monotone. *)
Lemma SFmul_mono (mc : positive) (ec : Z) (x1 x2 : spec_float) :
  valid_binary (S754_finite false mc ec) = true ->
  valid_binary x1 = true -> valid_binary x2 = true ->
  SFleb x1 x2 = true ->
  SFleb (SFmul prec emax x1 (S754_finite false mc ec))
        (SFmul prec emax x2 (S754_finite false mc ec)) = true.
Proof.
  intros Vc V1 V2 L.
  assert (N1 : is_sf_nan x1 = false) by (destruct x1; auto; discriminate).
  assert (N2 : is_sf_nan x2 = false)
    by (destruct x2; auto; destruct x1; discriminate).
  destruct (SFmul_rank mc ec x1 Vc V1 N1) as (W1 & M1 & O1).
  destruct (SFmul_rank mc ec x2 Vc V2 N2) as (W2 & M2 & O2).
  apply SFleb_ord; try assumption.
  rewrite O1, O2. apply mul_rank_mono; try assumption.
  now apply SFleb_ord.
Qed.

End Operations.

Section Division.

Lemma new_location_frac (d r : Z) :
  0 < d -> 0 <= r < d -> new_location d r = loc_of_frac r d.
Proof.
  intros Hd Hr. unfold new_location, loc_of_frac.
  destruct (Z.even d) eqn:Ev.
  - unfold new_location_even. znorm. reflexivity.
  - unfold new_location_odd. znorm.
    destruct (Z.eqb_spec r 0); [reflexivity|]. f_equal.
    assert (Od : Z.odd d = true) by (rewrite <- Z.negb_even, Ev; reflexivity).
    apply Z.odd_spec in Od as [k Hk].
    destruct (Z.compare_spec (2 * r + 1) d), (Z.compare_spec (2 * r) d);
      try reflexivity; lia.
Qed.

Lemma div_eucl_div_mod (a b : Z) : Z.div_eucl a b = (a / b, a mod b).
Proof. unfold Z.div, Z.modulo. now destruct (Z.div_eucl a b). Qed.

Lemma SFdiv_core_binary_frac (mx mj : positive) (ex ej : Z) :
  let n := div_numerator mx ex mj ej in
  SFdiv_core_binary prec emax (Zpos mx) ex (Zpos mj) ej
  = (n / Zpos mj, div_exponent mx ex mj ej,
     loc_of_frac (n mod Zpos mj) (Zpos mj)).
Proof.
  intros n. unfold SFdiv_core_binary. znorm. rewrite fexp_cexp.
  fold (div_exponent mx ex mj ej).
  set (e' := div_exponent mx ex mj ej) in *.
  assert (S : 0 <= ex - ej - e') by (unfold e', div_exponent; lia).
  assert (M : match ex - ej - e' with
              | Zpos _ => Z.shiftl (Zpos mx) (ex - ej - e')
              | 0 => Zpos mx
              | Zneg _ => 0
              end = n).
  { unfold n, div_numerator. fold e'.
    destruct (ex - ej - e') as [|p|p] eqn:E; [ | |lia].
    - rewrite Z.pow_0_r. lia.
    - rewrite Z.shiftl_mul_pow2 by lia. reflexivity. }
  rewrite M, div_eucl_div_mod.
  rewrite new_location_frac; [reflexivity | lia |].
  apply Z.mod_pos_bound. lia.
Qed.

Lemma div_exponent_ok (mx mj : positive) (ex ej : Z) :
  let n := div_numerator mx ex mj ej in
  let e' := div_exponent mx ex mj ej in
  0 <= n /\ e' <= ex - ej /\ e' <= cexp (Zdigits2 (n / Zpos mj) + e').
Proof.
  intros n e'.
  assert (S : 0 <= ex - ej - e') by (unfold e', div_exponent; lia).
  pose proof (pow2_pos (ex - ej - e') S) as PS.
  assert (Hn : 0 <= n) by (unfold n, div_numerator; fold e'; nia).
  split; [exact Hn|]. split; [lia|].
  pose proof (Zdigits2_bounds (Zpos mx) ltac:(lia)) as [Lx _].
  pose proof (Zdigits2_bounds (Zpos mj) ltac:(lia)) as [_ Uj].
  set (dx := Zdigits2 (Zpos mx)) in *. set (dj := Zdigits2 (Zpos mj)) in *.
  assert (Dx : 0 < dx) by (unfold dx; simpl; lia).
  assert (Dj : 0 < dj) by (unfold dj; simpl; lia).
  set (q := n / Zpos mj).
  assert (Hq : 0 <= q) by (apply Z.div_pos; lia).
  pose proof (Zdigits2_nonneg q) as Dq.
  assert (K : dx - dj + (ex - ej - e') <= Zdigits2 q).
  { destruct (Z.le_gt_cases (dx - dj + (ex - ej - e')) 0) as [L|G]; [lia|].
    set (k := dx - 1 + (ex - ej - e') - dj) in *.
    assert (Q : 2 ^ k <= q).
    { apply Z.div_le_lower_bound; [lia|].
      unfold n, div_numerator. fold e'.
      assert (E : 2 ^ dj * 2 ^ k = 2 ^ (dx - 1) * 2 ^ (ex - ej - e')).
      { rewrite <- !Z.pow_add_r by lia. f_equal. lia. }
      pose proof (pow2_pos k ltac:(lia)). nia. }
    pose proof (Zdigits2_upper q Hq) as U.
    assert (k < Zdigits2 q) by (apply pow2_lt_inv; lia). lia. }
  unfold e' at 1, div_exponent. fold dx dj. fold e'. unfold cexp. lia.
Qed.

Lemma SFdiv_rank (mj : positive) (ej : Z) (x : spec_float) :
  valid_binary x = true -> is_sf_nan x = false ->
  let y := SFdiv prec emax x (S754_finite false mj ej) in
  valid_binary y = true /\ is_sf_nan y = false /\ ord y = div_rank mj ej x.
Proof.
  intros Vx Nx y. unfold y.
  destruct x as [s|s| |s m e]; try discriminate; cbn [SFdiv div_rank].
  - rewrite xorb_false_r. repeat split.
  - rewrite xorb_false_r. repeat split.
  - rewrite xorb_false_r, SFdiv_core_binary_frac.
    destruct (div_exponent_ok m mj e ej) as (Hn & _ & P).
    apply binary_round_aux_signed; [exact Hn | lia | exact P].
Qed.

Lemma div_rank_mono (mj : positive) (ej : Z) (x1 x2 : spec_float) :
  valid_binary x1 = true -> valid_binary x2 = true ->
  is_sf_nan x1 = false -> is_sf_nan x2 = false ->
  ord x1 <= ord x2 -> div_rank mj ej x1 <= div_rank mj ej x2.
Proof.
  intros V1 V2 N1 N2 H.
  assert (B : forall m e,
              0 <= rounded_rank (div_numerator m e mj ej) (Zpos mj)
                     (div_exponent m e mj ej) <= ORD_INF).
  { intros m e. destruct (div_exponent_ok m mj e ej) as (Hn & _ & P).
    apply rounded_rank_bounds; try lia; assumption. }
  assert (M : forall m1 e1 m2 e2,
              valid_binary (S754_finite false m1 e1) = true ->
              valid_binary (S754_finite false m2 e2) = true ->
              (e1 + 1074) * 2 ^ 52 + Zpos m1 <= (e2 + 1074) * 2 ^ 52 + Zpos m2 ->
              rounded_rank (div_numerator m1 e1 mj ej) (Zpos mj)
                (div_exponent m1 e1 mj ej)
              <= rounded_rank (div_numerator m2 e2 mj ej) (Zpos mj)
                   (div_exponent m2 e2 mj ej)).
  { intros m1 e1 m2 e2 W1 W2 O.
    destruct (valid_order m1 m2 e1 e2 W1 W2 O) as [L K].
    destruct (div_exponent_ok m1 mj e1 ej) as (Hn1 & S1 & P1).
    destruct (div_exponent_ok m2 mj e2 ej) as (Hn2 & S2 & P2).
    unfold rounded_rank. apply Z.min_le_compat_r.
    set (c1 := div_exponent m1 e1 mj ej) in *.
    set (c2 := div_exponent m2 e2 mj ej) in *.
    apply (round_rank_mono _ _ _ _ _ _ (Z.min c1 c2)); try lia; try assumption.
    unfold div_numerator. fold c1 c2.
    set (em := Z.min c1 c2).
    assert (E1 : 2 ^ (e1 - ej - c1) * 2 ^ (c1 - em) = 2 ^ (e1 - ej - em))
      by (rewrite <- Z.pow_add_r by lia; f_equal; lia).
    assert (E2 : 2 ^ (e2 - ej - c2) * 2 ^ (c2 - em) = 2 ^ (e2 - ej - em))
      by (rewrite <- Z.pow_add_r by lia; f_equal; lia).
    assert (E3 : 2 ^ (e2 - e1) * 2 ^ (e1 - ej - em) = 2 ^ (e2 - ej - em))
      by (rewrite <- Z.pow_add_r by lia; f_equal; lia).
    pose proof (pow2_pos (e1 - ej - em) ltac:(lia)) as Q1.
    replace (Zpos m1 * 2 ^ (e1 - ej - c1) * Zpos mj * 2 ^ (c1 - em))
      with (Zpos mj * (Zpos m1 * 2 ^ (e1 - ej - em))) by (rewrite <- E1; ring).
    replace (Zpos m2 * 2 ^ (e2 - ej - c2) * Zpos mj * 2 ^ (c2 - em))
      with (Zpos mj * (Zpos m2 * 2 ^ (e2 - ej - em))) by (rewrite <- E2; ring).
    apply Z.mul_le_mono_nonneg_l; [lia|].
    rewrite <- E3. nia. }
  destruct x1 as [s1|s1| |s1 m1 e1], x2 as [s2|s2| |s2 m2 e2];
    try discriminate; cbn [div_rank ord] in *;
    try (pose proof (B m1 e1)); try (pose proof (B m2 e2));
    try (apply valid_finite in V1 as V1'); try (apply valid_finite in V2 as V2');
    unfold ORD_INF in *;
    try destruct s1; try destruct s2; try lia.
  - pose proof (M m2 e2 m1 e1 V2 V1 ltac:(lia)). lia.
  - pose proof (M m1 e1 m2 e2 V1 V2 ltac:(lia)). lia.
Qed.

(** Dividing by a positive finite double is monotone. *)
Lemma SFdiv_mono (mj : positive) (ej : Z) (x1 x2 : spec_float) :
  valid_binary x1 = true -> valid_binary x2 = true ->
  SFleb x1 x2 = true ->
  SFleb (SFdiv prec emax x1 (S754_finite false mj ej))
        (SFdiv prec emax x2 (S754_finite false mj ej)) = true.
Proof.
  intros V1 V2 L.
  assert (N1 : is_sf_nan x1 = false) by (destruct x1; auto; discriminate).
  assert (N2 : is_sf_nan x2 = false)
    by (destruct x2; auto; destruct x1; discriminate).
  destruct (SFdiv_rank mj ej x1 V1 N1) as (W1 & M1 & O1).
  destruct (SFdiv_rank mj ej x2 V2 N2) as (W2 & M2 & O2).
  apply SFleb_ord; try assumption.
  rewrite O1, O2. apply div_rank_mono; try assumption.
  now apply SFleb_ord.
Qed.

End Division.

End Rounding.

(** ** Monotone operations on doubles *)

Section Monotone.

Import Rank Rounding.

Local Open Scope float_scope.

Lemma pos_finite_spec (c : float) :
  pos_finite c -> exists m e, Prim2SF c = S754_finite false m e.
Proof.
  intros [H0 Hi]. rewrite ltb_spec in H0, Hi.
  change (Prim2SF 0) with (S754_zero false) in H0.
  change (Prim2SF infinity) with (S754_infinity false) in Hi.
  unfold SFltb in *.
  destruct (Prim2SF c) as [s|s| |s m e]; cbn in *; try discriminate;
    destruct s; try discriminate; eauto.
Qed.

Lemma SFmul_comm (x y : spec_float) :
  SFmul prec emax x y = SFmul prec emax y x.
Proof.
  destruct x as [sx|sx| |sx mx ex], y as [sy|sy| |sy my ey]; cbn [SFmul];
    try reflexivity; try (now rewrite xorb_comm).
  rewrite xorb_comm. znorm. now rewrite Pos.mul_comm, Z.add_comm.
Qed.

Lemma mul_comm (x y : float) : x * y = y * x.
Proof. apply Prim2SF_inj. rewrite !mul_spec. apply SFmul_comm. Qed.

(** Multiplying by a positive finite double keeps the order. *)
Lemma mul_mono_r (c x y : float) :
  pos_finite c -> (x <=? y) = true -> (x * c <=? y * c) = true.
Proof.
  intros Hc. destruct (pos_finite_spec c Hc) as (m & e & E).
  rewrite !leb_spec, !mul_spec. unfold SF64mul. rewrite E.
  apply SFmul_mono; try apply Prim2SF_valid.
  rewrite <- E. apply Prim2SF_valid.
Qed.

Lemma mul_mono_l (c x y : float) :
  pos_finite c -> (x <=? y) = true -> (c * x <=? c * y) = true.
Proof. rewrite (mul_comm c x), (mul_comm c y). apply mul_mono_r. Qed.

(** Dividing by a positive finite double keeps the order. *)
Lemma div_mono (c x y : float) :
  pos_finite c -> (x <=? y) = true -> (x / c <=? y / c) = true.
Proof.
  intros Hc. destruct (pos_finite_spec c Hc) as (m & e & E).
  rewrite !leb_spec, !div_spec. unfold SF64div. rewrite E.
  apply SFdiv_mono; apply Prim2SF_valid.
Qed.

Lemma ltb_leb_trans (c x y : float) :
  (c <? x) = true -> (x <=? y) = true -> (c <? y) = true.
Proof.
  rewrite !ltb_spec, leb_spec. intros H1 H2.
  assert (Nc : is_sf_nan (Prim2SF c) = false)
    by (destruct (Prim2SF c); auto; discriminate).
  assert (Nx : is_sf_nan (Prim2SF x) = false)
    by (destruct (Prim2SF x); auto; discriminate).
  assert (Ny : is_sf_nan (Prim2SF y) = false)
    by (destruct (Prim2SF y); auto; destruct (Prim2SF x); discriminate).
  apply SFltb_ord in H1; try apply Prim2SF_valid; try assumption.
  apply SFleb_ord in H2; try apply Prim2SF_valid; try assumption.
  apply SFltb_ord; try apply Prim2SF_valid; try assumption.
  clear - H1 H2. apply (Z.lt_le_trans _ _ _ H1 H2).
Qed.

Lemma band_index_interpret (e : float) :
  band_index (interpret e) =
  if 100 <? e then 3%nat else if 10 <? e then 2%nat
  else if 1 <? e then 1%nat else 0%nat.
Proof.
  unfold interpret.
  destruct (100 <? e), (10 <? e), (1 <? e); reflexivity.
Qed.

(** The band never goes down when the energy goes up. *)
Lemma band_index_mono (e1 e2 : float) :
  (e1 <=? e2) = true ->
  (band_index (interpret e1) <= band_index (interpret e2))%nat.
Proof.
  intros H. rewrite !band_index_interpret.
  pose proof (fun c => ltb_leb_trans c e1 e2) as T.
  pose proof (above_100_above_10 e2) as A1.
  pose proof (above_10_above_1 e2) as A2.
  destruct (100 <? e1) eqn:E1.
  { now rewrite (T 100 E1 H). }
  destruct (10 <? e1) eqn:E2.
  { rewrite (T 10 E2 H). destruct (100 <? e2); lia. }
  destruct (1 <? e1) eqn:E3.
  { rewrite (T 1 E3 H). destruct (100 <? e2), (10 <? e2); lia. }
  lia.
Qed.

Lemma pos_finite_not_infinite (y : float) :
  pos_finite y -> is_infinity y = false.
Proof.
  intros H. destruct (pos_finite_spec y H) as (m & e & E).
  unfold is_infinity. rewrite eqb_spec, abs_spec, E.
  reflexivity.
Qed.

(** The three energies are monotone in the density. *)
Lemma energy_chain_mono (d1 d2 r3 v2 : float) :
  pos_finite r3 -> pos_finite v2 ->
  (d1 <=? d2) = true ->
  (Spec.mass d1 r3 <=? Spec.mass d2 r3) = true /\
  (Spec.kineticEnergy (Spec.mass d1 r3) v2
   <=? Spec.kineticEnergy (Spec.mass d2 r3) v2) = true /\
  (Spec.energy d1 r3 v2 <=? Spec.energy d2 r3 v2) = true.
Proof.
  intros Hr Hv Hd.
  assert (M : (Spec.mass d1 r3 <=? Spec.mass d2 r3) = true).
  { unfold Spec.mass. apply mul_mono_r; [exact Hr|].
    apply mul_mono_r; [split; reflexivity|].
    apply mul_mono_r; [split; reflexivity|]. exact Hd. }
  assert (K : (Spec.kineticEnergy (Spec.mass d1 r3) v2
               <=? Spec.kineticEnergy (Spec.mass d2 r3) v2) = true).
  { unfold Spec.kineticEnergy. apply mul_mono_r; [exact Hv|].
    apply mul_mono_l; [split; reflexivity|]. exact M. }
  split; [exact M|]. split; [exact K|].
  unfold Spec.energy, Spec.energyMegatons.
  apply div_mono; [split; reflexivity|]. exact K.
Qed.

End Monotone.

(** ** C7: energy and band against density *)




Example bands_along_density :
  interpret (Spec.energy 2 5832000 55056400) = SMALLER /\
  interpret (Spec.energy 20 5832000 55056400) = POWERFUL /\
  interpret (Spec.energy 200 5832000 55056400) = MAJOR /\
  interpret (Spec.energy 2000 5832000 55056400) = DEVASTATING.
Proof. repeat split; vm_compute; reflexivity. Qed.

(** * Further properties of the code *)

(** ** The lookup: what it is insensitive to *)

Section LookupInvariance.

Import PyStr.

Lemma upper_upper (s : string) : upper (upper s) = upper s.
Proof. apply upper_fixed, upper_not_lower. Qed.

(** The key depends on the upper-cased input only. *)
Lemma normalize_upper (s : string) : normalize (upper s) = normalize s.
Proof. unfold normalize. now rewrite strip_upper, upper_upper. Qed.

Lemma lstrip_spaces_app (l t : string) :
  all_chars is_space l = true -> lstrip (l ++ t) = lstrip t.
Proof.
  induction l as [|c l IH]; simpl; [reflexivity|].
  intros H. apply andb_true_iff in H as [Hc Hl]. now rewrite Hc, IH.
Qed.

Lemma lstrip_spaces (l : string) :
  all_chars is_space l = true -> lstrip l = "".
Proof.
  induction l as [|c l IH]; simpl; [reflexivity|].
  intros H. apply andb_true_iff in H as [Hc Hl]. now rewrite Hc, IH.
Qed.

Lemma rstrip_spaces (r : string) :
  all_chars is_space r = true -> rstrip r = "".
Proof.
  induction r as [|c r IH]; simpl; [reflexivity|].
  intros H. apply andb_true_iff in H as [Hc Hr]. now rewrite IH, Hc.
Qed.

Lemma rstrip_app_spaces (t r : string) :
  all_chars is_space r = true -> rstrip (t ++ r) = rstrip t.
Proof.
  intros H. induction t as [|c t IH]; simpl.
  - now apply rstrip_spaces.
  - now rewrite IH.
Qed.

Lemma lstrip_app (s r : string) :
  lstrip (s ++ r) = if all_chars is_space s then lstrip r else lstrip s ++ r.
Proof.
  induction s as [|c s IH]; simpl; [reflexivity|].
  destruct (is_space c); simpl; [exact IH | reflexivity].
Qed.

(** Whitespace around the input is dropped by [strip]. *)
Lemma strip_padded (l s r : string) :
  all_chars is_space l = true -> all_chars is_space r = true ->
  strip (l ++ s ++ r) = strip s.
Proof.
  intros Hl Hr. unfold strip.
  rewrite lstrip_spaces_app by assumption. rewrite lstrip_app.
  destruct (all_chars is_space s) eqn:Hs.
  - rewrite (lstrip_spaces r Hr), (lstrip_spaces s Hs). reflexivity.
  - now apply rstrip_app_spaces.
Qed.

End LookupInvariance.

(** X1. The lookup ignores the case of letters: two identifiers with the
    same upper-casing resolve alike. *)
Theorem lookup_ignores_case (a b : string) :
  PyStr.upper a = PyStr.upper b ->
  find_mock_asteroid_data a = find_mock_asteroid_data b.
Proof.
  intros H. unfold find_mock_asteroid_data.
  now rewrite <- (normalize_upper a), <- (normalize_upper b), H.
Qed.

Lemma lookup_ignores_case_witness :
  find_mock_asteroid_data "99942 aPoPhIs"
  = find_mock_asteroid_data "99942 Apophis".
Proof. apply lookup_ignores_case. reflexivity. Defined.

(** X2. The lookup ignores whitespace around the identifier, whatever the
    identifier is. *)
Theorem lookup_ignores_outer_whitespace (l s r : string) :
  PyStr.all_chars PyStr.is_space l = true ->
  PyStr.all_chars PyStr.is_space r = true ->
  find_mock_asteroid_data (l ++ s ++ r) = find_mock_asteroid_data s.
Proof.
  intros Hl Hr. unfold find_mock_asteroid_data, normalize.
  now rewrite strip_padded.
Qed.

Lemma lookup_ignores_outer_whitespace_witness :
  find_mock_asteroid_data ("  " ++ "2000042" ++ String (ascii_of_nat 10) "")
  = find_mock_asteroid_data "2000042".
Proof. apply lookup_ignores_outer_whitespace; reflexivity. Defined.

(** ** The lookup: the rewrites it absorbs *)

Section LookupRewrites.

Import PyStr.

Lemma append_assoc (a b c : string) : (a ++ b) ++ c = a ++ (b ++ c).
Proof. induction a as [|x a IH]; simpl; [reflexivity | now rewrite IH]. Qed.

Lemma append_empty_r (a : string) : a ++ "" = a.
Proof. induction a as [|x a IH]; simpl; [reflexivity | now rewrite IH]. Qed.

Lemma replace_app (old : ascii) (new s t : string) :
  replace old new (s ++ t) = replace old new s ++ replace old new t.
Proof.
  induction s as [|c s IH]; simpl; [reflexivity|].
  rewrite IH. destruct (Ascii.eqb c old); simpl; [|reflexivity].
  now rewrite append_assoc.
Qed.

Lemma upper_app (s t : string) : upper (s ++ t) = upper s ++ upper t.
Proof. induction s as [|c s IH]; simpl; [reflexivity | now rewrite IH]. Qed.

Lemma rewritten_app (s t : string) :
  rewritten (s ++ t) = rewritten s ++ rewritten t.
Proof. unfold rewritten. now rewrite upper_app, !replace_app. Qed.

Lemma space_plain (c : ascii) :
  is_space c = true ->
  upper_char c = c /\ Ascii.eqb c "(" = false /\ Ascii.eqb c ")" = false /\
  Ascii.eqb c "-" = false.
Proof.
  destruct c as [[] [] [] [] [] [] [] []]; cbn; intros H;
    try discriminate; auto.
Qed.

Lemma rewritten_spaces (l : string) :
  all_chars is_space l = true -> rewritten l = l.
Proof.
  unfold rewritten. induction l as [|c l IH]; simpl; [reflexivity|].
  intros H. apply andb_true_iff in H as [Hc Hl].
  destruct (space_plain c Hc) as (U & A & B & C).
  rewrite U, A. simpl. rewrite B. simpl. rewrite C. now rewrite IH.
Qed.

(** A string is its [strip] between two runs of whitespace. *)
Lemma lstrip_split (s : string) :
  exists l, all_chars is_space l = true /\ s = l ++ lstrip s.
Proof.
  induction s as [|c s (l & Hl & E)]; simpl.
  - now exists "".
  - destruct (is_space c) eqn:Hc.
    + exists (String c l). simpl. rewrite Hc, Hl. split; [reflexivity|].
      now rewrite <- E.
    + now exists "".
Qed.

Lemma rstrip_split (s : string) :
  exists r, all_chars is_space r = true /\ s = rstrip s ++ r.
Proof.
  induction s as [|c s (r & Hr & E)]; simpl.
  - now exists "".
  - destruct (rstrip s) as [|c' s'] eqn:R.
    + destruct (is_space c) eqn:Hc.
      * exists (String c r). simpl. rewrite Hc, Hr. split; [reflexivity|].
        now rewrite E at 1.
      * exists r. split; [exact Hr|]. simpl. now rewrite E at 1.
    + exists r. split; [exact Hr|]. simpl. now rewrite E at 1.
Qed.

Lemma strip_split (s : string) :
  exists l r, all_chars is_space l = true /\ all_chars is_space r = true /\
              s = l ++ strip s ++ r.
Proof.
  destruct (lstrip_split s) as (l & Hl & El).
  destruct (rstrip_split (lstrip s)) as (r & Hr & Er).
  exists l, r. split; [exact Hl|]. split; [exact Hr|].
  unfold strip. now rewrite <- Er.
Qed.

(** The three rewrites absorb each of the replacements done beforehand. *)
Lemma replace_upper (old : ascii) (new s : string) :
  upper_char old = old -> upper new = new ->
  (forall c, Ascii.eqb (upper_char c) old = Ascii.eqb c old) ->
  upper (replace old new s) = replace old new (upper s).
Proof.
  intros Ho Hn Hc. induction s as [|c s IH]; simpl; [reflexivity|].
  rewrite Hc. destruct (Ascii.eqb c old); simpl.
  - now rewrite upper_app, Hn, IH.
  - now rewrite IH.
Qed.

Lemma upper_char_eqb (old c : ascii) :
  old = "("%char \/ old = ")"%char \/ old = "-"%char ->
  Ascii.eqb (upper_char c) old = Ascii.eqb c old.
Proof.
  intros [-> | [-> | ->]];
    destruct c as [[] [] [] [] [] [] [] []]; reflexivity.
Qed.

Lemma replace_idem (old : ascii) (new s : string) :
  all_chars (differs old) new = true ->
  replace old new (replace old new s) = replace old new s.
Proof. intros H. apply replace_absent. now apply replace_removes. Qed.

Lemma replace_comm (o1 o2 : ascii) (n1 n2 s : string) :
  Ascii.eqb o1 o2 = false ->
  all_chars (differs o2) n1 = true -> all_chars (differs o1) n2 = true ->
  replace o1 n1 (replace o2 n2 s) = replace o2 n2 (replace o1 n1 s).
Proof.
  intros N H1 H2. induction s as [|c s IH]; simpl; [reflexivity|].
  destruct (Ascii.eqb c o2) eqn:E2, (Ascii.eqb c o1) eqn:E1; simpl;
    rewrite ?E1, ?E2, ?replace_app, ?IH;
    rewrite ?(replace_absent o1 n1 n2 H2), ?(replace_absent o2 n2 n1 H1);
    try reflexivity.
  apply Ascii.eqb_eq in E1, E2. subst. now rewrite Ascii.eqb_refl in N.
Qed.

(** Each replacement done before [normalize]'s own is absorbed by them. *)
Lemma rewritten_absorbs (s : string) :
  rewritten (replace "(" "" s) = rewritten s /\
  rewritten (replace ")" "" s) = rewritten s /\
  rewritten (replace "-" " " s) = rewritten s.
Proof.
  unfold rewritten. repeat split.
  - rewrite (replace_upper "(" "") by (auto using upper_char_eqb).
    now rewrite replace_idem.
  - rewrite (replace_upper ")" "") by (auto using upper_char_eqb).
    rewrite (replace_comm "(" ")" "" "") by reflexivity.
    now rewrite replace_idem.
  - rewrite (replace_upper "-" " ") by (auto using upper_char_eqb).
    rewrite (replace_comm "(" "-" "" " ") by reflexivity.
    rewrite (replace_comm ")" "-" "" " ") by reflexivity.
    now rewrite replace_idem.
Qed.

Lemma replace_spaces (old : ascii) (new l : string) :
  Ascii.eqb old "(" || Ascii.eqb old ")" || Ascii.eqb old "-" = true ->
  all_chars is_space l = true -> replace old new l = l.
Proof.
  intros Ho. induction l as [|c l IH]; simpl; [reflexivity|].
  intros H. apply andb_true_iff in H as [Hc Hl].
  destruct (space_plain c Hc) as (_ & A & B & C).
  rewrite IH by assumption.
  destruct (Ascii.eqb c old) eqn:E; [|reflexivity].
  apply Ascii.eqb_eq in E. subst c. rewrite A, B, C in Ho. discriminate.
Qed.

(** The key of the input is the key of the rewritten input between two
    runs of whitespace. *)
Lemma normalize_rewritten (old : ascii) (new s : string) :
  Ascii.eqb old "(" || Ascii.eqb old ")" || Ascii.eqb old "-" = true ->
  rewritten (replace old new (strip s)) = rewritten (strip s) ->
  exists l r, all_chars is_space l = true /\ all_chars is_space r = true /\
              normalize s = l ++ normalize (replace old new s) ++ r.
Proof.
  intros Ho A.
  destruct (strip_split s) as (l & r & Hl & Hr & Es).
  destruct (strip_split (replace old new (strip s)))
    as (l' & r' & Hl' & Hr' & Et).
  exists l', r'. split; [exact Hl'|]. split; [exact Hr'|].
  change (normalize s) with (rewritten (strip s)).
  change (normalize (replace old new s))
    with (rewritten (strip (replace old new s))).
  assert (S : strip (replace old new s) = strip (replace old new (strip s))).
  { rewrite Es at 1. rewrite !replace_app.
    rewrite (replace_spaces old new l Ho Hl), (replace_spaces old new r Ho Hr).
    now apply strip_padded. }
  rewrite S, <- A. rewrite Et at 1.
  rewrite !rewritten_app.
  now rewrite (rewritten_spaces l' Hl'), (rewritten_spaces r' Hr').
Qed.

Lemma last_char_app (a : string) (c : ascii) (b : string) :
  last_char (a ++ String c b) = last_char (String c b).
Proof.
  induction a as [|x a IH]; [reflexivity|].
  change (String x a ++ String c b) with (String x (a ++ String c b)).
  cbn [last_char]. rewrite IH.
  destruct (a ++ String c b) eqn:E; [|reflexivity].
  destruct a; discriminate.
Qed.

Lemma last_char_spaces (c : ascii) (r : string) :
  all_chars is_space (String c r) = true ->
  exists x, last_char (String c r) = Some x /\ is_space x = true.
Proof.
  revert c. induction r as [|d r IH]; intros c H.
  - exists c. simpl in H. now rewrite andb_true_r in H.
  - simpl in H. apply andb_true_iff in H as [_ H].
    destruct (IH d H) as (x & L & S). exists x. split; [|exact S].
    exact L.
Qed.

(** A key without whitespace at its ends has none to lose. *)
Lemma no_outer_spaces (K l x r : string) :
  K = l ++ x ++ r ->
  all_chars is_space l = true -> all_chars is_space r = true ->
  no_leading_space K = true ->
  (forall c, last_char K = Some c -> is_space c = false) ->
  K = x.
Proof.
  intros E Hl Hr Lead Last.
  destruct l as [|c l].
  - destruct r as [|c r]; [now rewrite append_empty_r in E|].
    exfalso. destruct (last_char_spaces c r Hr) as (y & L & S).
    simpl in E. rewrite E, last_char_app in Last.
    now rewrite (Last y L) in S.
  - exfalso. rewrite E in Lead. simpl in Lead, Hl.
    apply andb_true_iff in Hl as [Hc _]. now rewrite Hc in Lead.
Qed.

Lemma resolving_key (s : string) (rec : pyval) :
  find_mock_asteroid_data s = Some rec ->
  rec = MOCK_ASTEROID_DATA /\
  (normalize s = "99942 APOPHIS" \/ normalize s = "2000042").
Proof.
  unfold find_mock_asteroid_data. cbv zeta.
  destruct (_ || _) eqn:E; [|discriminate].
  intros [= <-]. split; [reflexivity|].
  apply orb_true_iff in E as [E | E]; apply String.eqb_eq in E;
    [left | right]; exact E.
Qed.

Lemma key_resolves (s : string) :
  normalize s = "99942 APOPHIS" \/ normalize s = "2000042" ->
  find_mock_asteroid_data s = Some MOCK_ASTEROID_DATA.
Proof.
  unfold find_mock_asteroid_data. intros [-> | ->]; reflexivity.
Qed.

Lemma resolving_rewritten (old : ascii) (new s : string) (rec : pyval) :
  Ascii.eqb old "(" || Ascii.eqb old ")" || Ascii.eqb old "-" = true ->
  rewritten (replace old new (strip s)) = rewritten (strip s) ->
  find_mock_asteroid_data s = Some rec ->
  find_mock_asteroid_data (replace old new s) = Some rec.
Proof.
  intros Ho A H. apply resolving_key in H as (-> & K).
  destruct (normalize_rewritten old new s Ho A) as (l & r & Hl & Hr & E).
  apply key_resolves.
  destruct K as [K | K]; rewrite K in E; [left | right]; symmetry;
    apply (no_outer_spaces _ l _ r E Hl Hr); try reflexivity;
    intros c [= <-]; reflexivity.
Qed.

End LookupRewrites.

(** X16. An identifier that resolves still resolves after its parentheses
    are deleted or its hyphens are written as spaces, wherever they stand:
    the lookup's own replacements absorb them.  (The converse fails: a
    parenthesis or hyphen put next to outer whitespace can leave whitespace
    in the key.) *)
Theorem resolving_survives_rewrites (s : string) (rec : pyval) :
  find_mock_asteroid_data s = Some rec ->
  find_mock_asteroid_data (PyStr.replace "(" "" s) = Some rec /\
  find_mock_asteroid_data (PyStr.replace ")" "" s) = Some rec /\
  find_mock_asteroid_data (PyStr.replace "-" " " s) = Some rec.
Proof.
  intros H. destruct (rewritten_absorbs (PyStr.strip s)) as (A & B & C).
  repeat split.
  - now apply resolving_rewritten.
  - now apply resolving_rewritten.
  - now apply resolving_rewritten.
Qed.

Lemma resolving_survives_rewrites_witness :
  find_mock_asteroid_data (PyStr.replace "(" "" " (99942)-apophis ")
  = Some MOCK_ASTEROID_DATA /\
  find_mock_asteroid_data (PyStr.replace ")" "" " (99942)-apophis ")
  = Some MOCK_ASTEROID_DATA /\
  find_mock_asteroid_data (PyStr.replace "-" " " " (99942)-apophis ")
  = Some MOCK_ASTEROID_DATA.
Proof. apply resolving_survives_rewrites. reflexivity. Defined.

(** ** The route: its outcomes *)

Section MockThroughRoute.

Import Rank Rounding.

Local Open Scope float_scope.

Variable libm_pow : float -> float -> float.

(** The call on the mock record for a density of either type. *)
Lemma calculate_mock_num (dn : pynum) (d : float) :
  pow_on_examples libm_pow ->
  num_float dn = Ok d ->
  calculate_impact_energy libm_pow MOCK_ASTEROID_DATA dn
  = ReportDict
      (report_of
         [ ("name", PyStr "99942 Apophis");
           ("is_potentially_hazardous_asteroid", PyBool true) ]
         dn d 320 400 0x1.dae147ae147aep+2 5832000 55056400).
Proof.
  intros H Hd.
  edestruct (calculate_read libm_pow MOCK_ASTEROID_DATA dn)
    as (items & Ei & E).
  - vm_compute. reflexivity.
  - vm_compute. reflexivity.
  - vm_compute. reflexivity.
  - vm_compute. reflexivity.
  - vm_compute. reflexivity.
  - exact Hd.
  - rewrite E, (mock_powers libm_pow H).
    unfold MOCK_ASTEROID_DATA in Ei. injection Ei as <-. reflexivity.
Qed.

Lemma ltb_leb_false (c x y : float) :
  (x <=? y) = true -> (c <? y) = false -> (c <? x) = false.
Proof.
  intros L N. destruct (c <? x) eqn:E; [|reflexivity].
  now rewrite (ltb_leb_trans c x y E L) in N.
Qed.

(** A double that is not at or above [t] is at or below the double just
    before [t], unless it is NaN. *)
Lemma below_predecessor (t p d : float) :
  (ord (Prim2SF p) + 1 = ord (Prim2SF t))%Z ->
  is_sf_nan (Prim2SF t) = false -> is_sf_nan (Prim2SF p) = false ->
  is_sf_nan (Prim2SF d) = false ->
  (t <=? d) = false -> (d <=? p) = true.
Proof.
  intros O Nt Np Nd. rewrite !leb_spec. intros H.
  apply SFleb_ord; try apply Prim2SF_valid; try assumption.
  destruct (Z.le_gt_cases (ord (Prim2SF t)) (ord (Prim2SF d))) as [G|G].
  - apply SFleb_ord in G; try apply Prim2SF_valid; try assumption.
    congruence.
  - clear - O G. lia.
Qed.

Lemma energy_of_nan (d r3 v2 : float) :
  Prim2SF d = S754_nan -> Prim2SF (Spec.energy d r3 v2) = S754_nan.
Proof.
  intros E.
  unfold Spec.energy, Spec.energyMegatons, Spec.kineticEnergy, Spec.mass.
  rewrite div_spec, !mul_spec, E.
  change (Prim2SF 0.5) with (S754_finite false 4503599627370496 (-53)).
  reflexivity.
Qed.

Lemma interpret_nan (e : float) :
  Prim2SF e = S754_nan -> interpret e = SMALLER.
Proof.
  intros E. unfold interpret. rewrite !ltb_spec, E. reflexivity.
Qed.

(** The label of the mock record's energy at every density. *)
Lemma mock_band (d : float) :
  interpret (Spec.energy d 5832000 55056400) = band_of_density d.
Proof.
  assert (R3 : pos_finite 5832000) by (split; reflexivity).
  assert (V2 : pos_finite 55056400) by (split; reflexivity).
  pose proof (fun a b H => proj2 (proj2 (energy_chain_mono a b _ _ R3 V2 H)))
    as M.
  destruct (is_sf_nan (Prim2SF d)) eqn:Nd.
  { assert (E : Prim2SF d = S754_nan) by (destruct (Prim2SF d); easy).
    rewrite (interpret_nan _ (energy_of_nan d _ _ E)).
    unfold band_of_density. rewrite !leb_spec, E. reflexivity. }
  assert (A3 : (100 <? Spec.energy DEVASTATING_FROM 5832000 55056400) = true)
    by (vm_compute; reflexivity).
  assert (B3 : (100 <? Spec.energy 0x1.37158420768fap+9 5832000 55056400)
               = false) by (vm_compute; reflexivity).
  assert (A2 : (10 <? Spec.energy MAJOR_FROM 5832000 55056400) = true)
    by (vm_compute; reflexivity).
  assert (B2 : (10 <? Spec.energy 0x1.f1bc069a574c5p+5 5832000 55056400)
               = false) by (vm_compute; reflexivity).
  assert (A1 : (1 <? Spec.energy POWERFUL_FROM 5832000 55056400) = true)
    by (vm_compute; reflexivity).
  assert (B1 : (1 <? Spec.energy 0x1.8e30054845d6bp+2 5832000 55056400)
               = false) by (vm_compute; reflexivity).
  pose proof (fun c t A L =>
                ltb_leb_trans c (Spec.energy t 5832000 55056400)
                  (Spec.energy d 5832000 55056400) A (M t d L)) as Up.
  pose proof (fun c p L B =>
                ltb_leb_false c (Spec.energy d 5832000 55056400)
                  (Spec.energy p 5832000 55056400) (M d p L) B) as Down.
  unfold band_of_density, interpret.
  destruct (DEVASTATING_FROM <=? d) eqn:L3.
  { now rewrite (Up 100 DEVASTATING_FROM A3 L3). }
  apply (below_predecessor _ 0x1.37158420768fap+9) in L3;
    [|reflexivity|reflexivity|reflexivity|exact Nd].
  rewrite (Down 100 0x1.37158420768fap+9 L3 B3).
  destruct (MAJOR_FROM <=? d) eqn:L2.
  { now rewrite (Up 10 MAJOR_FROM A2 L2). }
  apply (below_predecessor _ 0x1.f1bc069a574c5p+5) in L2;
    [|reflexivity|reflexivity|reflexivity|exact Nd].
  rewrite (Down 10 0x1.f1bc069a574c5p+5 L2 B2).
  destruct (POWERFUL_FROM <=? d) eqn:L1.
  { now rewrite (Up 1 POWERFUL_FROM A1 L1). }
  apply (below_predecessor _ 0x1.8e30054845d6bp+2) in L1;
    [|reflexivity|reflexivity|reflexivity|exact Nd].
  now rewrite (Down 1 0x1.8e30054845d6bp+2 L1 B1).
Qed.

End MockThroughRoute.

Section RouteOutcomes.

Variable libm_pow : float -> float -> float.

(** What the route hands on as the density: the parsed float, or the int
    3000. *)
Lemma parse_density_cases (density_value : option string) :
  (exists x, parse_density density_value = Ok (NFloat x)) \/
  parse_density density_value = Ok (NInt 3000).
Proof.
  unfold parse_density. destruct density_value as [s|]; simpl.
  - destruct (PyFloat.of_string s); eauto.
  - now right.
Qed.

Lemma parse_density_float (density_value : option string) :
  exists dn d, parse_density density_value = Ok dn /\ num_float dn = Ok d.
Proof.
  destruct (parse_density_cases density_value) as [(x & E) | E].
  - exists (NFloat x), x. now split.
  - exists (NInt 3000), 3000%float. now split.
Qed.

Lemma route_found (f : form) (n : string) (dn : pynum) :
  assoc "asteroid_name" f = Some n ->
  find_mock_asteroid_data n <> None ->
  parse_density (assoc "density_value" f) = Ok dn ->
  calculate_impact_route libm_pow f
  = Ok (calculate_impact_energy libm_pow MOCK_ASTEROID_DATA dn).
Proof.
  intros Hn Hf Hd. unfold calculate_impact_route.
  rewrite Hd, Hn. cbn [bind]. revert Hf. unfold find_mock_asteroid_data.
  destruct (_ || _); [reflexivity | congruence].
Qed.

End RouteOutcomes.

(** X3. The route raises exactly when the form holds no asteroid name: the
    AttributeError of [None.strip()] leaves the view function, whatever the
    density field holds; with a name in the form the route returns a dict,
    whatever the name and the density field are. *)
Theorem route_raises_only_without_name
  (libm_pow : float -> float -> float) (f : form) :
  (assoc "asteroid_name" f = None ->
   calculate_impact_route libm_pow f
   = Raise (AttributeError "'NoneType' object has no attribute 'strip'")) /\
  (forall n, assoc "asteroid_name" f = Some n ->
             exists o, calculate_impact_route libm_pow f = Ok o).
Proof.
  unfold calculate_impact_route.
  destruct (parse_density_total (assoc "density_value" f)) as (d & ->).
  cbn [bind]. split.
  - now intros ->.
  - intros n ->. destruct (find_mock_asteroid_data n); eauto.
Qed.

(** X4. Through the route the computation never fails: for a name that
    resolves, and whatever the density field holds (a number, [nan], [inf],
    a negative value, text that is no number, or nothing), the answer is a
    report, never an error dict.  It carries the name, the hazard flag, the
    diameter and the velocity of the mock record and the density the route
    settled on. *)
Theorem resolved_name_always_reports
  (libm_pow : float -> float -> float) (f : form) (n : string) :
  pow_on_examples libm_pow ->
  assoc "asteroid_name" f = Some n ->
  find_mock_asteroid_data n <> None ->
  exists r dn,
    parse_density (assoc "density_value" f) = Ok dn /\
    calculate_impact_route libm_pow f = Ok (ReportDict r) /\
    Report.name r = PyStr "99942 Apophis" /\
    Report.is_potentially_hazardous r = PyBool true /\
    formatted_value (Report.average_diameter_m r) = NFloat 360 /\
    formatted_value (Report.relative_velocity_km_s r)
    = NFloat 0x1.dae147ae147aep+2 /\
    formatted_value (Report.assumed_density_kg_m3 r) = dn.
Proof.
  intros H Hn Hf.
  destruct (parse_density_float (assoc "density_value" f))
    as (dn & d & Hd & Hnum).
  eexists. exists dn. split; [exact Hd|]. split.
  - rewrite (route_found libm_pow f n dn Hn Hf Hd).
    now rewrite (calculate_mock_num libm_pow dn d H Hnum).
  - repeat split.
Qed.

Lemma resolved_name_always_reports_witness :
  exists r dn,
    parse_density (Some "nan") = Ok dn /\
    calculate_impact_route product_pow
      [("asteroid_name", " (99942 apophis) "); ("density_value", "nan")]
    = Ok (ReportDict r) /\
    Report.name r = PyStr "99942 Apophis" /\
    Report.is_potentially_hazardous r = PyBool true /\
    formatted_value (Report.average_diameter_m r) = NFloat 360 /\
    formatted_value (Report.relative_velocity_km_s r)
    = NFloat 0x1.dae147ae147aep+2 /\
    formatted_value (Report.assumed_density_kg_m3 r) = dn.
Proof.
  apply (resolved_name_always_reports product_pow
           [("asteroid_name", " (99942 apophis) "); ("density_value", "nan")]
           " (99942 apophis) ").
  - repeat split; vm_compute; reflexivity.
  - reflexivity.
  - vm_compute. discriminate.
Defined.

(** X5. For a name that resolves, the label the route answers with is a
    function of the density alone, with three thresholds: Devastating from
    622.1680946902192 kg/m³ on, Major from 62.216809469021925, Powerful
    from 6.221680946902193, Smaller below that and for NaN.  The density is
    the parsed field, or 3000 when the field is absent or no number. *)
Theorem route_band_by_density
  (libm_pow : float -> float -> float) (f : form) (n : string) :
  pow_on_examples libm_pow ->
  assoc "asteroid_name" f = Some n ->
  find_mock_asteroid_data n <> None ->
  exists r dn d,
    parse_density (assoc "density_value" f) = Ok dn /\
    num_float dn = Ok d /\
    calculate_impact_route libm_pow f = Ok (ReportDict r) /\
    Report.interpretation r = band_of_density d.
Proof.
  intros H Hn Hf.
  destruct (parse_density_float (assoc "density_value" f))
    as (dn & d & Hd & Hnum).
  eexists. exists dn, d. split; [exact Hd|]. split; [exact Hnum|]. split.
  - rewrite (route_found libm_pow f n dn Hn Hf Hd).
    now rewrite (calculate_mock_num libm_pow dn d H Hnum).
  - cbn [report_of Report.interpretation]. apply mock_band.
Qed.

Lemma route_band_by_density_witness :
  exists r dn d,
    parse_density (Some "62.3") = Ok dn /\
    num_float dn = Ok d /\
    calculate_impact_route product_pow
      [("asteroid_name", "2000042"); ("density_value", "62.3")]
    = Ok (ReportDict r) /\
    Report.interpretation r = band_of_density d.
Proof.
  apply (route_band_by_density product_pow
           [("asteroid_name", "2000042"); ("density_value", "62.3")]
           "2000042").
  - repeat split; vm_compute; reflexivity.
  - reflexivity.
  - vm_compute. discriminate.
Defined.

Example bands_of_some_densities :
  band_of_density 3000 = DEVASTATING /\
  band_of_density 622.25 = DEVASTATING /\
  band_of_density 622 = MAJOR /\
  band_of_density 62.25 = MAJOR /\
  band_of_density 62 = POWERFUL /\
  band_of_density 6.25 = POWERFUL /\
  band_of_density 6 = SMALLER /\
  band_of_density (-3000) = SMALLER /\
  band_of_density nan = SMALLER /\
  band_of_density infinity = DEVASTATING.
Proof. repeat split. Qed.

(** ** The computation: what it depends on *)

Section Frame.

Variable libm_pow : float -> float -> float.

Lemma getitem_last_entry (l : list pyval) (ca : pyval) :
  last_entry l = Some ca -> getitem_last (PyList l) = Ok ca.
Proof.
  unfold last_entry, getitem_last. destruct (rev l); congruence.
Qed.

End Frame.

Ltac same_binds :=
  repeat match goal with
         | |- context [bind ?m _] => destruct m; cbn [bind]; try reflexivity
         end.

(** X6. The result depends on the record only through the four keys the
    code reads: two records that agree on [estimated_diameter],
    [close_approach_data], [name] and [is_potentially_hazardous_asteroid]
    give the same dict, report or error, whatever else they hold. *)
Theorem unread_keys_do_not_matter
  (libm_pow : float -> float -> float)
  (items1 items2 : list (string * pyval)) (density : pynum) :
  (forall k, In k READ_KEYS -> assoc k items1 = assoc k items2) ->
  calculate_impact_energy libm_pow (PyDict items1) density
  = calculate_impact_energy libm_pow (PyDict items2) density.
Proof.
  intros H.
  assert (H1 := H "estimated_diameter" ltac:(simpl; tauto)).
  assert (H2 := H "close_approach_data" ltac:(simpl; tauto)).
  assert (H3 := H "name" ltac:(simpl; tauto)).
  assert (H4 := H "is_potentially_hazardous_asteroid" ltac:(simpl; tauto)).
  unfold calculate_impact_energy, calculate_body, py_get.
  cbn [getitem]. now rewrite H1, H2, H3, H4.
Qed.

Lemma unread_keys_do_not_matter_witness :
  calculate_impact_energy product_pow MOCK_ASTEROID_DATA (NFloat 3000)
  = calculate_impact_energy product_pow (PyDict MOCK_WITHOUT_ID) (NFloat 3000).
Proof.
  unfold MOCK_ASTEROID_DATA. apply unread_keys_do_not_matter.
  intros k [<- | [<- | [<- | [<- | []]]]]; reflexivity.
Defined.

(** X7. Of the close-approach list only the last entry counts, and of that
    entry only [relative_velocity]: two records that agree on the other
    three keys and whose lists end in dicts with the same
    [relative_velocity] give the same dict, whatever the earlier entries and
    the other keys of the last one (such as [miss_distance]) hold. *)
Theorem only_last_velocity_matters
  (libm_pow : float -> float -> float)
  (items1 items2 : list (string * pyval)) (l1 l2 : list pyval)
  (ca1 ca2 : list (string * pyval)) (density : pynum) :
  assoc "estimated_diameter" items1 = assoc "estimated_diameter" items2 ->
  assoc "name" items1 = assoc "name" items2 ->
  assoc "is_potentially_hazardous_asteroid" items1
  = assoc "is_potentially_hazardous_asteroid" items2 ->
  assoc "close_approach_data" items1 = Some (PyList l1) ->
  assoc "close_approach_data" items2 = Some (PyList l2) ->
  last_entry l1 = Some (PyDict ca1) ->
  last_entry l2 = Some (PyDict ca2) ->
  assoc "relative_velocity" ca1 = assoc "relative_velocity" ca2 ->
  calculate_impact_energy libm_pow (PyDict items1) density
  = calculate_impact_energy libm_pow (PyDict items2) density.
Proof.
  intros H1 H3 H4 C1 C2 L1 L2 V.
  apply getitem_last_entry in L1, L2.
  unfold calculate_impact_energy, calculate_body, py_get.
  cbn [getitem]. rewrite H1, H3, H4, C1, C2. cbn [bind].
  rewrite L1, L2. cbn [bind getitem]. now rewrite V.
Qed.

Lemma only_last_velocity_matters_witness :
  calculate_impact_energy product_pow
    (PyDict [ ("estimated_diameter",
                PyDict [ ("meters",
                  PyDict [ ("estimated_diameter_min", PyStr "320.0");
                           ("estimated_diameter_max", PyStr "400.0") ]) ]);
              ("close_approach_data",
                PyList [ PyNone;
                         PyDict [ ("relative_velocity", PyStr "fast") ];
                         PyDict [ ("miss_distance", PyInt 7);
                                  ("relative_velocity",
                                    PyDict [ ("kilometers_per_second",
                                               PyStr "7.42") ]) ] ]) ])
    (NFloat 3000)
  = calculate_impact_energy product_pow (PyDict ANONYMOUS) (NFloat 3000).
Proof.
  apply (only_last_velocity_matters product_pow _ _
           [ PyNone;
             PyDict [ ("relative_velocity", PyStr "fast") ];
             PyDict [ ("miss_distance", PyInt 7);
                      ("relative_velocity",
                        PyDict [ ("kilometers_per_second", PyStr "7.42") ]) ] ]
           [ PyDict [ ("relative_velocity",
                        PyDict [ ("kilometers_per_second", PyStr "7.42") ]) ] ]
           [ ("miss_distance", PyInt 7);
             ("relative_velocity",
               PyDict [ ("kilometers_per_second", PyStr "7.42") ]) ]
           [ ("relative_velocity",
               PyDict [ ("kilometers_per_second", PyStr "7.42") ]) ]);
    reflexivity.
Defined.

(** X8. An int density computes what the float it converts to computes:
    the two calls fail alike or return reports that differ only in the
    density entry, which shows the int in one and the float in the other.
    So the fallback, the int 3000, yields the numbers of a posted 3000.0. *)
Theorem int_density_same_numbers
  (libm_pow : float -> float -> float)
  (rec : pyval) (z : Z) (d : float) :
  PyFloat.of_Z z = Some d ->
  calculate_impact_energy libm_pow rec (NFloat d)
  = match calculate_impact_energy libm_pow rec (NInt z) with
    | ReportDict r => ReportDict (with_density (NFloat d) r)
    | ErrorDict error => ErrorDict error
    end.
Proof.
  intros H. unfold calculate_impact_energy, calculate_body.
  cbn [num_float py_float]. rewrite H.
  same_binds.
Qed.

Lemma int_density_same_numbers_witness :
  calculate_impact_energy product_pow MOCK_ASTEROID_DATA (NFloat 3000)
  = match calculate_impact_energy product_pow MOCK_ASTEROID_DATA
            (NInt DEFAULT_DENSITY) with
    | ReportDict r => ReportDict (with_density (NFloat 3000) r)
    | ErrorDict error => ErrorDict error
    end.
Proof.
  apply (int_density_same_numbers product_pow MOCK_ASTEROID_DATA 3000 3000).
  reflexivity.
Defined.

(** ** The computation: its error messages *)

(** X9. The message of a failed computation names the first defect met,
    in the order of the reads.  A record without [estimated_diameter] gives
    the quoted key, whatever the rest holds; a minimum diameter that is text
    [float()] refuses gives Python's conversion message with the text
    quoted; with both diameters readable, a record without
    [close_approach_data] gives that quoted key and an empty list gives the
    IndexError text. *)
Theorem error_messages
  (libm_pow : float -> float -> float)
  (items : list (string * pyval)) (density : pynum) :
  (assoc "estimated_diameter" items = None ->
   calculate_impact_energy libm_pow (PyDict items) density
   = ErrorDict (ERROR_PREFIX ++ "'estimated_diameter'")) /\
  (forall s,
     field DIAMETER_MIN (PyDict items) = Some (PyStr s) ->
     PyFloat.of_string s = None ->
     calculate_impact_energy libm_pow (PyDict items) density
     = ErrorDict (ERROR_PREFIX ++ "could not convert string to float: "
                  ++ py_repr s)) /\
  (forall a b,
     read_float DIAMETER_MIN (PyDict items) = Some a ->
     read_float DIAMETER_MAX (PyDict items) = Some b ->
     (assoc "close_approach_data" items = None ->
      calculate_impact_energy libm_pow (PyDict items) density
      = ErrorDict (ERROR_PREFIX ++ "'close_approach_data'")) /\
     (assoc "close_approach_data" items = Some (PyList []) ->
      calculate_impact_energy libm_pow (PyDict items) density
      = ErrorDict (ERROR_PREFIX ++ "list index out of range"))).
Proof.
  split; [|split].
  - intros H. unfold calculate_impact_energy, calculate_body.
    cbn [getitem]. rewrite H. reflexivity.
  - intros s F P. unfold DIAMETER_MIN in F.
    apply field_cons in F as (ed & G1 & F).
    apply field_cons in F as (m & G2 & F).
    apply getitem_ok in F.
    unfold calculate_impact_energy, calculate_body.
    rewrite G1. cbn [bind]. rewrite G2. cbn [bind]. rewrite F. cbn [bind].
    cbn [py_float]. rewrite P. reflexivity.
  - intros a b Ha Hb.
    apply read_float_some in Ha as (x & Fa & Pa).
    apply read_float_some in Hb as (y & Fb & Pb).
    unfold DIAMETER_MIN in Fa. unfold DIAMETER_MAX in Fb.
    apply field_cons in Fa as (ed & G1 & Fa).
    apply field_cons in Fa as (m & G2 & Fa).
    apply getitem_ok in Fa.
    apply field_cons in Fb as (ed' & G1' & Fb).
    rewrite G1 in G1'. injection G1' as <-.
    apply field_cons in Fb as (m' & G2' & Fb).
    rewrite G2 in G2'. injection G2' as <-.
    apply getitem_ok in Fb.
    split; intros H; unfold calculate_impact_energy, calculate_body;
      rewrite G1; cbn [bind]; rewrite G2; cbn [bind]; rewrite Fa; cbn [bind];
      rewrite Pa; cbn [bind]; rewrite Fb; cbn [bind]; rewrite Pb; cbn [bind];
      cbn [getitem]; rewrite H; reflexivity.
Qed.

(** ** The computation on NaN and on a reversed velocity *)

Section SpecialValues.

Local Open Scope float_scope.

Variable libm_pow : float -> float -> float.

Lemma SFcompare_refl (a : spec_float) :
  a <> S754_nan -> SFcompare a a = Some Eq.
Proof.
  destruct a as [s|s| |s m e]; cbn; try congruence;
    try (destruct s; reflexivity).
  intros _. rewrite Z.compare_refl.
  change (Pos.compare_cont Eq m m) with (Pos.compare m m).
  rewrite Pos.compare_refl. destruct s; reflexivity.
Qed.

Lemma is_nan_spec (x : float) : is_nan x = true <-> Prim2SF x = S754_nan.
Proof.
  unfold is_nan. rewrite eqb_spec. unfold SFeqb. split.
  - intros H. destruct (Prim2SF x) eqn:E; try reflexivity;
      rewrite SFcompare_refl in H by discriminate; discriminate.
  - intros ->. reflexivity.
Qed.

Lemma add_nan (x y : float) :
  Prim2SF x = S754_nan \/ Prim2SF y = S754_nan -> Prim2SF (x + y) = S754_nan.
Proof.
  rewrite add_spec. intros [-> | ->]; [reflexivity|].
  now destruct (Prim2SF x).
Qed.

Lemma mul_nan (x y : float) :
  Prim2SF x = S754_nan \/ Prim2SF y = S754_nan -> Prim2SF (x * y) = S754_nan.
Proof.
  rewrite mul_spec. intros [-> | ->]; [reflexivity|].
  now destruct (Prim2SF x).
Qed.

Lemma div_nan (x y : float) :
  Prim2SF x = S754_nan -> Prim2SF (x / y) = S754_nan.
Proof. rewrite div_spec. now intros ->. Qed.

Lemma float_pow_nan (x : float) (n : positive) :
  Prim2SF x = S754_nan -> float_pow libm_pow x n = Ok x.
Proof.
  intros H. apply is_nan_spec in H. unfold float_pow. now rewrite H.
Qed.

(** A NaN among the four inputs makes the energy NaN. *)
Lemma energy_nan (d min_d max_d v r3 v2 : float) :
  float_pow libm_pow (Spec.avgRadius min_d max_d) 3 = Ok r3 ->
  float_pow libm_pow (Spec.velocity_m_s v) 2 = Ok v2 ->
  is_nan min_d || is_nan max_d || is_nan v || is_nan d = true ->
  Prim2SF (Spec.energy d r3 v2) = S754_nan.
Proof.
  intros H3 H2 N.
  unfold Spec.energy, Spec.energyMegatons, Spec.kineticEnergy, Spec.mass.
  apply div_nan.
  apply orb_true_iff in N as [N | N].
  - apply orb_true_iff in N as [N | N].
    + assert (R : Prim2SF (Spec.avgRadius min_d max_d) = S754_nan).
      { unfold Spec.avgRadius, Spec.avgDiameter.
        apply div_nan, div_nan, add_nan.
        apply orb_true_iff in N as [N | N]; apply is_nan_spec in N; auto. }
      rewrite (float_pow_nan _ _ R) in H3. injection H3 as <-.
      apply mul_nan. left. apply mul_nan. right. apply mul_nan. now right.
    + apply is_nan_spec in N.
      assert (V : Prim2SF (Spec.velocity_m_s v) = S754_nan).
      { unfold Spec.velocity_m_s. apply mul_nan. now left. }
      rewrite (float_pow_nan _ _ V) in H2. injection H2 as <-.
      apply mul_nan. now right.
  - apply is_nan_spec in N.
    apply mul_nan. left. apply mul_nan. right. apply mul_nan. left.
    apply mul_nan. left. apply mul_nan. now left.
Qed.

Lemma SFopp_involutive (a : spec_float) : SFopp (SFopp a) = a.
Proof. destruct a; cbn; now rewrite ?negb_involutive. Qed.

Lemma abs_opp (x : float) : abs (- x) = abs x.
Proof.
  apply Prim2SF_inj. rewrite !abs_spec, opp_spec.
  now destruct (Prim2SF x).
Qed.

Lemma is_nan_opp (x : float) : is_nan (- x) = is_nan x.
Proof.
  unfold is_nan. rewrite !eqb_spec, opp_spec. unfold SFeqb.
  destruct (Prim2SF x) as [s|s| |s m e] eqn:E; cbn [SFopp];
    try reflexivity;
    rewrite !SFcompare_refl by discriminate; reflexivity.
Qed.

Lemma is_zero_opp (x : float) : is_zero (- x) = is_zero x.
Proof.
  unfold is_zero. rewrite !eqb_spec, opp_spec. unfold SFeqb.
  change (Prim2SF 0) with (S754_zero false).
  destruct (Prim2SF x) as [s|s| |s m e]; cbn; try reflexivity;
    destruct s; reflexivity.
Qed.

Lemma is_infinity_opp (x : float) : is_infinity (- x) = is_infinity x.
Proof. unfold is_infinity. now rewrite abs_opp. Qed.

Lemma opp_nan (x : float) : is_nan x = true -> (- x) = x.
Proof.
  intros H. apply is_nan_spec in H. apply Prim2SF_inj.
  rewrite opp_spec, H. reflexivity.
Qed.

(** An even power does not see the sign of its base. *)
Lemma float_pow_2_opp (x : float) :
  float_pow libm_pow (- x) 2 = float_pow libm_pow x 2.
Proof.
  unfold float_pow.
  rewrite is_nan_opp, is_infinity_opp, is_zero_opp, abs_opp.
  cbn [Z.odd]. rewrite !andb_false_r.
  destruct (is_nan x) eqn:N; [now rewrite opp_nan|].
  reflexivity.
Qed.

Lemma mul_opp_l (x y : float) : (- x) * y = - (x * y).
Proof.
  apply Prim2SF_inj. rewrite opp_spec, !mul_spec, opp_spec.
  unfold SF64mul.
  destruct (Prim2SF x) as [sx|sx| |sx mx ex],
           (Prim2SF y) as [sy|sy| |sy my ey];
    cbn [SFmul SFopp]; try reflexivity;
    try (now rewrite negb_xorb_l).
  destruct sx, sy; cbn [negb xorb];
    rewrite ?Rounding.binary_round_aux_opp, ?SFopp_involutive; reflexivity.
Qed.

End SpecialValues.

(** X10. NaN is taken as a number: [float()] reads the text [nan], and a
    NaN among the diameters, the velocity and the density raises nothing.
    Unless a power overflows, the call returns a report whose energy is NaN
    and whose label is the smaller one, since every comparison with NaN is
    false. *)
Theorem nan_input_gives_smaller
  (libm_pow : float -> float -> float)
  (rec : pyval) (l : list pyval) (ca : pyval)
  (d min_d max_d v radiusCubed velocitySquared : float) :
  read_float DIAMETER_MIN rec = Some min_d ->
  read_float DIAMETER_MAX rec = Some max_d ->
  field APPROACHES rec = Some (PyList l) ->
  last_entry l = Some ca ->
  read_float VELOCITY ca = Some v ->
  float_pow libm_pow (Spec.avgRadius min_d max_d) 3 = Ok radiusCubed ->
  float_pow libm_pow (Spec.velocity_m_s v) 2 = Ok velocitySquared ->
  is_nan min_d || is_nan max_d || is_nan v || is_nan d = true ->
  exists r e,
    calculate_impact_energy libm_pow rec (NFloat d) = ReportDict r /\
    formatted_value (Report.impact_energy_megatons_tnt r) = NFloat e /\
    is_nan e = true /\
    Report.interpretation r = SMALLER.
Proof.
  intros Hmin Hmax Hcad Hlast Hv H3 H2 N.
  destruct (calculate_read libm_pow rec (NFloat d) l ca d min_d max_d v)
    as (items & -> & E); try assumption; [reflexivity|].
  unfold body_powers in E. rewrite H3, H2 in E.
  pose proof (energy_nan libm_pow d min_d max_d v _ _ H3 H2 N) as En.
  do 2 eexists. split; [exact E|]. split; [reflexivity|]. split.
  - now apply is_nan_spec.
  - cbn [report_of Report.interpretation]. now apply interpret_nan.
Qed.

Lemma nan_input_gives_smaller_witness :
  exists r e,
    calculate_impact_energy product_pow NAN_DIAMETER (NFloat 3000)
    = ReportDict r /\
    formatted_value (Report.impact_energy_megatons_tnt r) = NFloat e /\
    is_nan e = true /\
    Report.interpretation r = SMALLER.
Proof.
  apply (nan_input_gives_smaller product_pow NAN_DIAMETER
           [ PyDict [ ("relative_velocity",
                        PyDict [ ("kilometers_per_second", PyStr "7.42") ]) ] ]
           (PyDict [ ("relative_velocity",
                       PyDict [ ("kilometers_per_second", PyStr "7.42") ]) ])
           3000 nan 400 0x1.dae147ae147aep+2 nan 55056400);
    vm_compute; reflexivity.
Defined.

(** X11. The direction of the velocity does not matter: two records with
    the same diameters whose last approaches hold opposite velocities give,
    for every float density, the same mass, kinetic energy, megatons and
    label, or the same error. *)
Theorem velocity_sign_does_not_matter
  (libm_pow : float -> float -> float)
  (rec1 rec2 : pyval) (l1 l2 : list pyval) (ca1 ca2 : pyval)
  (d min_d max_d v : float) :
  read_float DIAMETER_MIN rec1 = Some min_d ->
  read_float DIAMETER_MAX rec1 = Some max_d ->
  field APPROACHES rec1 = Some (PyList l1) ->
  last_entry l1 = Some ca1 ->
  read_float VELOCITY ca1 = Some v ->
  read_float DIAMETER_MIN rec2 = Some min_d ->
  read_float DIAMETER_MAX rec2 = Some max_d ->
  field APPROACHES rec2 = Some (PyList l2) ->
  last_entry l2 = Some ca2 ->
  read_float VELOCITY ca2 = Some (- v)%float ->
  same_energy (calculate_impact_energy libm_pow rec1 (NFloat d))
              (calculate_impact_energy libm_pow rec2 (NFloat d)).
Proof.
  intros A1 B1 C1 D1 E1 A2 B2 C2 D2 E2.
  destruct (calculate_read libm_pow rec1 (NFloat d) l1 ca1 d min_d max_d v)
    as (items1 & -> & R1); try assumption; [reflexivity|].
  destruct (calculate_read libm_pow rec2 (NFloat d) l2 ca2 d min_d max_d
              (- v)%float)
    as (items2 & -> & R2); try assumption; [reflexivity|].
  rewrite R1, R2. unfold body_powers, Spec.velocity_m_s.
  rewrite mul_opp_l, float_pow_2_opp.
  destruct (float_pow libm_pow (Spec.avgRadius min_d max_d) 3) as [r3|e3];
    [|reflexivity].
  destruct (float_pow libm_pow (v * 1000)%float 2) as [v2|e2];
    [|reflexivity].
  cbn. repeat split.
Qed.

Lemma velocity_sign_does_not_matter_witness :
  same_energy (calculate_impact_energy product_pow (PyDict ANONYMOUS)
                 (NFloat 3000))
              (calculate_impact_energy product_pow REVERSED (NFloat 3000)).
Proof.
  apply (velocity_sign_does_not_matter product_pow (PyDict ANONYMOUS) REVERSED
           [ PyDict [ ("relative_velocity",
                        PyDict [ ("kilometers_per_second", PyStr "7.42") ]) ] ]
           [ PyDict [ ("relative_velocity",
                        PyDict [ ("kilometers_per_second", PyStr "-7.42") ]) ] ]
           (PyDict [ ("relative_velocity",
                       PyDict [ ("kilometers_per_second", PyStr "7.42") ]) ])
           (PyDict [ ("relative_velocity",
                       PyDict [ ("kilometers_per_second", PyStr "-7.42") ]) ])
           3000 320 400 0x1.dae147ae147aep+2);
    vm_compute; reflexivity.
Defined.

(** ** Reports come from readable records only *)

Section Inversion.

Variable libm_pow : float -> float -> float.

Lemma calculate_body_density (rec : pyval) (density : pynum) (r : Report.t) :
  calculate_body libm_pow rec density = Ok r ->
  exists d, num_float density = Ok d.
Proof.
  unfold calculate_body.
  repeat match goal with
         | |- context [bind ?m _] =>
             let E := fresh "E" in
             destruct m eqn:E; cbn [bind]; [|discriminate]
         end.
  intros _. eauto.
Qed.

Lemma getitem_last_list (cad ca : pyval) (v : float) :
  getitem_last cad = Ok ca -> read_float VELOCITY ca = Some v ->
  exists l, cad = PyList l /\ last_entry l = Some ca.
Proof.
  destruct cad; cbn; try discriminate.
  - destruct (last_char s); [|discriminate]. intros [= <-]. discriminate.
  - intros H _. exists l. split; [reflexivity|].
    unfold last_entry. destruct (rev l); congruence.
Qed.

End Inversion.

(** X12. A report is returned only for a record the code could read, and
    it is the report of the formula: whenever the call returns a report,
    the record is a dict with numeric diameters and a non-empty approach
    list whose last entry has a numeric velocity, the density converts to a
    float, both powers returned, and the report is the one built from these
    numbers. *)
Theorem report_only_from_readable_record
  (libm_pow : float -> float -> float)
  (rec : pyval) (density : pynum) (r : Report.t) :
  calculate_impact_energy libm_pow rec density = ReportDict r ->
  exists items l ca min_d max_d v d radiusCubed velocitySquared,
    rec = PyDict items /\
    read_float DIAMETER_MIN rec = Some min_d /\
    read_float DIAMETER_MAX rec = Some max_d /\
    field APPROACHES rec = Some (PyList l) /\
    last_entry l = Some ca /\
    read_float VELOCITY ca = Some v /\
    num_float density = Ok d /\
    float_pow libm_pow (Spec.avgRadius min_d max_d) 3 = Ok radiusCubed /\
    float_pow libm_pow (Spec.velocity_m_s v) 2 = Ok velocitySquared /\
    r = report_of items density d min_d max_d v radiusCubed velocitySquared.
Proof.
  intros H. unfold calculate_impact_energy in H.
  destruct (calculate_body libm_pow rec density) as [r'|e] eqn:B;
    [|discriminate].
  injection H as ->.
  destruct (calculate_body_density libm_pow rec density r B) as (d & Hd).
  destruct (calculate_body_ok_inv libm_pow rec density r B)
    as (min_d & max_d & cad & ca & v & Hmin & Hmax & Hcad & Hlast & Hv).
  destruct (getitem_last_list cad ca v Hlast Hv) as (l & -> & Hl).
  destruct (calculate_read libm_pow rec density l ca d min_d max_d v)
    as (items & -> & E); try assumption.
  unfold calculate_impact_energy in E. rewrite B in E.
  unfold body_powers in E.
  destruct (float_pow libm_pow (Spec.avgRadius min_d max_d) 3)
    as [r3|e3] eqn:P3; [|discriminate].
  destruct (float_pow libm_pow (Spec.velocity_m_s v) 2)
    as [v2|e2] eqn:P2; [|discriminate].
  injection E as ->.
  exists items, l, ca, min_d, max_d, v, d, r3, v2.
  repeat split; assumption.
Qed.

Lemma report_only_from_readable_record_witness :
  exists items l ca min_d max_d v d radiusCubed velocitySquared,
    MOCK_ASTEROID_DATA = PyDict items /\
    read_float DIAMETER_MIN MOCK_ASTEROID_DATA = Some min_d /\
    read_float DIAMETER_MAX MOCK_ASTEROID_DATA = Some max_d /\
    field APPROACHES MOCK_ASTEROID_DATA = Some (PyList l) /\
    last_entry l = Some ca /\
    read_float VELOCITY ca = Some v /\
    num_float (NInt 3000) = Ok d /\
    float_pow product_pow (Spec.avgRadius min_d max_d) 3 = Ok radiusCubed /\
    float_pow product_pow (Spec.velocity_m_s v) 2 = Ok velocitySquared /\
    report_of
      [ ("name", PyStr "99942 Apophis");
        ("is_potentially_hazardous_asteroid", PyBool true) ]
      (NInt 3000) 3000 320 400 0x1.dae147ae147aep+2 5832000 55056400
    = report_of items (NInt 3000) d min_d max_d v radiusCubed velocitySquared.
Proof.
  apply (report_only_from_readable_record product_pow MOCK_ASTEROID_DATA
           (NInt 3000)).
  vm_compute. reflexivity.
Defined.

(** ** The names of the index page *)

(** X13. Of the five names the index page is given, only "99942 Apophis"
    resolves: the route answers every other one with the not-found dict,
    whatever the density.  The distance listed with it is the miss distance
    of the mock record's approach. *)
Theorem top_five_only_apophis_resolves
  (libm_pow : float -> float -> float)
  (name : string) (distance : float) (density_value : string) :
  In (name, distance) MOCK_TOP_5_NEAREST ->
  (name = "99942 Apophis" /\
   find_mock_asteroid_data name = Some MOCK_ASTEROID_DATA /\
   exists l ca,
     field APPROACHES MOCK_ASTEROID_DATA = Some (PyList l) /\
     last_entry l = Some ca /\
     read_float ["miss_distance"; "kilometers"] ca = Some distance) \/
  (name <> "99942 Apophis" /\
   find_mock_asteroid_data name = None /\
   calculate_impact_route libm_pow
     [("asteroid_name", name); ("density_value", density_value)]
   = Ok (ErrorDict (not_found_message name))).
Proof.
  assert (R : forall n, find_mock_asteroid_data n = None ->
              calculate_impact_route libm_pow
                [("asteroid_name", n); ("density_value", density_value)]
              = Ok (ErrorDict (not_found_message n))).
  { intros n Hn. unfold calculate_impact_route.
    destruct (parse_density_total
                (assoc "density_value"
                   [("asteroid_name", n); ("density_value", density_value)]))
      as (d & ->).
    cbn [bind]. cbn [assoc String.eqb Ascii.eqb Bool.eqb]. now rewrite Hn. }
  intros [H | [H | [H | [H | [H | []]]]]]; injection H as <- <-.
  - right. split; [discriminate|]. split; [reflexivity|].
    now apply R.
  - left. split; [reflexivity|]. split; [reflexivity|].
    do 2 eexists. split; [reflexivity|]. split; [reflexivity|].
    vm_compute. reflexivity.
  - right. split; [discriminate|]. split; [reflexivity|]. now apply R.
  - right. split; [discriminate|]. split; [reflexivity|]. now apply R.
  - right. split; [discriminate|]. split; [reflexivity|]. now apply R.
Qed.

Lemma top_five_only_apophis_resolves_witness :
  ("433 Eros" = "99942 Apophis" /\
   find_mock_asteroid_data "433 Eros" = Some MOCK_ASTEROID_DATA /\
   exists l ca,
     field APPROACHES MOCK_ASTEROID_DATA = Some (PyList l) /\
     last_entry l = Some ca /\
     read_float ["miss_distance"; "kilometers"] ca = Some 150000%float) \/
  ("433 Eros" <> "99942 Apophis" /\
   find_mock_asteroid_data "433 Eros" = None /\
   calculate_impact_route product_pow
     [("asteroid_name", "433 Eros"); ("density_value", "2700")]
   = Ok (ErrorDict (not_found_message "433 Eros"))).
Proof.
  apply (top_five_only_apophis_resolves product_pow "433 Eros" 150000 "2700").
  simpl. tauto.
Defined.

(** ** The density field: what [float()] refuses *)

Section FloatText.

Import PyStr PyFloat.

Lemma all_chars_mono (p q : ascii -> bool) (s : string) :
  (forall c, p c = true -> q c = true) ->
  all_chars p s = true -> all_chars q s = true.
Proof.
  intros M. induction s as [|c s IH]; simpl; [reflexivity|].
  intros H. apply andb_true_iff in H as [Hc Hs].
  now rewrite (M c Hc), IH.
Qed.

Lemma has_char_cons (x k : ascii) (K : string) :
  has_char x K = true -> has_char x (String k K) = true.
Proof.
  unfold has_char. simpl. intros H.
  destruct (Ascii.eqb k x); simpl; [reflexivity | exact H].
Qed.

(** Every character of [t] is, upper-cased, a character of [upper t]. *)
Lemma upper_chars (t K : string) :
  upper t = K ->
  all_chars (fun c => has_char (upper_char c) K) t = true.
Proof.
  revert K. induction t as [|c t IH]; intros K; simpl; [reflexivity|].
  intros <-. apply andb_true_iff. split.
  - unfold has_char. simpl. now rewrite Ascii.eqb_refl.
  - apply (all_chars_mono (fun c => has_char (upper_char c) (upper t))).
    + intros x. apply has_char_cons.
    + now apply IH.
Qed.

Variable q : ascii -> bool.

Lemma drop_underscores_chars (s : string) :
  q "_"%char = true ->
  forall prev t, drop_underscores prev s = Some t ->
  all_chars q t = true -> all_chars q s = true.
Proof.
  intros U. induction s as [|c s IH]; intros prev t; simpl; [reflexivity|].
  destruct (Ascii.eqb c "_") eqn:E.
  - apply Ascii.eqb_eq in E. subst c. rewrite U.
    destruct (is_digit prev); [|discriminate]. apply IH.
  - destruct (Ascii.eqb prev "_" && negb (is_digit c)); [discriminate|].
    destruct (drop_underscores c s) as [t'|] eqn:D; [|discriminate].
    simpl. intros [= <-]. simpl. intros H.
    apply andb_true_iff in H as [Hc Ht]. rewrite Hc. simpl.
    now apply (IH c t').
Qed.

Hypothesis spaces : forall c, is_c_space c = true -> q c = true.

Lemma lstrip_c_chars (s : string) :
  all_chars q (lstrip_c s) = true -> all_chars q s = true.
Proof.
  induction s as [|c s IH]; simpl; [reflexivity|].
  destruct (is_c_space c) eqn:E; [|trivial].
  intros H. now rewrite (spaces c E), IH.
Qed.

Lemma rstrip_c_chars (s : string) :
  all_chars q (rstrip_c s) = true -> all_chars q s = true.
Proof.
  induction s as [|c s IH]; simpl; [reflexivity|].
  destruct (rstrip_c s) as [|c' r'] eqn:R.
  - destruct (is_c_space c) eqn:E; simpl.
    + intros _. now rewrite (spaces c E), IH.
    + intros H. apply andb_true_iff in H as [Hc _]. now rewrite Hc, IH.
  - intros H. change (all_chars q (String c (String c' r')) = true) in H.
    simpl in H. apply andb_true_iff in H as [Hc Hr].
    rewrite Hc. simpl. apply IH. exact Hr.
Qed.

Hypothesis digits : forall c, is_digit c = true -> q c = true.

Lemma span_digits_chars (s d t : string) :
  span_digits s = (d, t) ->
  all_chars q t = true -> all_chars q s = true.
Proof.
  revert d t. induction s as [|c s IH]; intros d t; simpl.
  - now intros [= <- <-].
  - destruct (is_digit c) eqn:E.
    + destruct (span_digits s) as [d' t'] eqn:S. intros [= <- <-] H.
      now rewrite (digits c E), (IH d' t').
    + now intros [= <- <-].
Qed.

Hypothesis minus : q "-"%char = true.
Hypothesis plus : q "+"%char = true.

Lemma take_sign_chars (s t : string) (neg : bool) :
  take_sign s = (neg, t) ->
  all_chars q t = true -> all_chars q s = true.
Proof.
  destruct s as [|c s]; simpl; [now intros [= <- <-]|].
  destruct c as [[] [] [] [] [] [] [] []]; intros [= <- <-]; simpl;
    rewrite ?minus, ?plus; trivial.
Qed.

Hypothesis point : q "."%char = true.
Hypothesis mark_e : q "e"%char = true.
Hypothesis mark_E : q "E"%char = true.

Lemma fraction_chars (s2 fp s3 : string) :
  match s2 with
  | String "." r => span_digits r
  | _ => (EmptyString, s2)
  end = (fp, s3) ->
  all_chars q s3 = true -> all_chars q s2 = true.
Proof.
  destruct s2 as [|c r]; [now intros [= <- <-]|].
  destruct (Ascii.eqb c ".") eqn:E.
  - apply Ascii.eqb_eq in E. subst c. intros S H. simpl.
    now rewrite point, (span_digits_chars r fp s3).
  - destruct c as [[] [] [] [] [] [] [] []]; try discriminate;
      now intros [= <- <-].
Qed.

Lemma parse_decimal_chars (u : string) (f : float) :
  parse_decimal u = Some f -> all_chars q u = true.
Proof.
  unfold parse_decimal.
  destruct (take_sign u) as [neg s1] eqn:T.
  destruct (span_digits s1) as [ip s2] eqn:S1.
  destruct (match s2 with
            | String "." r => span_digits r
            | _ => (EmptyString, s2)
            end) as [fp s3] eqn:S2.
  destruct (String.eqb (ip ++ fp) ""); [discriminate|].
  intros H.
  apply (take_sign_chars u s1 neg T).
  apply (span_digits_chars s1 ip s2 S1).
  apply (fraction_chars s2 fp s3 S2).
  destruct s3 as [|c r]; [reflexivity|].
  destruct (Ascii.eqb c "e" || Ascii.eqb c "E") eqn:E.
  - destruct (take_sign r) as [eneg r1] eqn:T2.
    destruct (span_digits r1) as [ed r2] eqn:S3.
    destruct (String.eqb ed ""); [discriminate|].
    destruct (String.eqb r2 "") eqn:R2; [|discriminate].
    apply String.eqb_eq in R2. subst r2.
    simpl. apply orb_true_iff in E as [E | E];
      apply Ascii.eqb_eq in E; subst c; rewrite ?mark_e, ?mark_E; simpl;
      apply (take_sign_chars r r1 eneg T2);
      now apply (span_digits_chars r1 ed "" S3).
  - discriminate.
Qed.

Hypothesis letters :
  forall c, has_char (upper_char c) "INFATY" = true -> q c = true.

Lemma letters_of (K : string) (t : string) :
  (forall x, has_char x K = true -> has_char x "INFATY" = true) ->
  upper t = K -> all_chars q t = true.
Proof.
  intros Sub H.
  apply (all_chars_mono (fun c => has_char (upper_char c) K)).
  - intros c Hc. apply letters, Sub, Hc.
  - now apply upper_chars.
Qed.

Lemma parse_inf_or_nan_chars (u : string) (f : float) :
  parse_inf_or_nan u = Some f -> all_chars q u = true.
Proof.
  unfold parse_inf_or_nan.
  destruct (take_sign u) as [neg t] eqn:T.
  intros H. apply (take_sign_chars u t neg T).
  destruct (String.eqb (upper t) "INF") eqn:E1.
  { apply String.eqb_eq in E1. apply (letters_of "INF"); [|exact E1].
    intros x. unfold has_char. cbn -[Ascii.eqb].
    destruct (Ascii.eqb "I" x), (Ascii.eqb "N" x), (Ascii.eqb "F" x),
      (Ascii.eqb "A" x), (Ascii.eqb "T" x), (Ascii.eqb "Y" x);
      cbn; congruence. }
  destruct (String.eqb (upper t) "INFINITY") eqn:E2.
  { apply String.eqb_eq in E2. apply (letters_of "INFINITY"); [|exact E2].
    intros x. unfold has_char. cbn -[Ascii.eqb].
    destruct (Ascii.eqb "I" x), (Ascii.eqb "N" x), (Ascii.eqb "F" x),
      (Ascii.eqb "A" x), (Ascii.eqb "T" x), (Ascii.eqb "Y" x);
      cbn; congruence. }
  simpl in H.
  destruct (String.eqb (upper t) "NAN") eqn:E3; [|discriminate].
  apply String.eqb_eq in E3. apply (letters_of "NAN"); [|exact E3].
  intros x. unfold has_char. cbn -[Ascii.eqb].
  destruct (Ascii.eqb "I" x), (Ascii.eqb "N" x), (Ascii.eqb "F" x),
      (Ascii.eqb "A" x), (Ascii.eqb "T" x), (Ascii.eqb "Y" x);
      cbn; congruence.
Qed.

Hypothesis underscore : q "_"%char = true.

Lemma of_string_chars (s : string) (f : float) :
  of_string s = Some f -> all_chars q s = true.
Proof.
  unfold of_string.
  destruct (drop_underscores _ s) as [t|] eqn:D; [|discriminate].
  intros H. apply (drop_underscores_chars s underscore _ t D).
  apply lstrip_c_chars, rstrip_c_chars.
  destruct (parse_decimal (rstrip_c (lstrip_c t))) as [g|] eqn:P.
  - now apply (parse_decimal_chars _ g).
  - now apply (parse_inf_or_nan_chars _ f).
Qed.

End FloatText.

Lemma float_text_chars (s : string) (f : float) :
  PyFloat.of_string s = Some f -> PyStr.all_chars float_char s = true.
Proof.
  apply of_string_chars; unfold float_char; intros;
    repeat match goal with H : _ = true |- _ => rewrite H end;
    rewrite ?orb_true_r; reflexivity.
Qed.

(** X14. A density text is taken as a number only if it is made of digits,
    signs, the point, the exponent mark, underscores, the whitespace
    [float()] strips and the letters of [inf], [infinity] and [nan]: with
    any other character in it (a thousands separator, a unit, a decimal
    comma) [float()] refuses it and the route goes on with the int 3000,
    without notice. *)
Theorem density_with_foreign_character_falls_back
  (f : form) (s : string) :
  assoc "density_value" f = Some s ->
  PyStr.all_chars is_ascii s = true ->
  PyStr.all_chars float_char s = false ->
  PyFloat.of_string s = None /\
  parse_density (assoc "density_value" f) = Ok (NInt 3000).
Proof.
  intros Hf _ H.
  assert (N : PyFloat.of_string s = None).
  { destruct (PyFloat.of_string s) as [x|] eqn:E; [|reflexivity].
    apply float_text_chars in E. congruence. }
  split; [exact N|]. rewrite Hf. apply parse_density_default.
  right. now exists s.
Qed.

Lemma density_with_foreign_character_falls_back_witness :
  PyFloat.of_string "5,000" = None /\
  parse_density
    (assoc "density_value"
       [("asteroid_name", "99942 Apophis"); ("density_value", "5,000")])
  = Ok (NInt 3000).
Proof.
  apply (density_with_foreign_character_falls_back
           [("asteroid_name", "99942 Apophis"); ("density_value", "5,000")]
           "5,000"); reflexivity.
Defined.

(** ** The ladder against the energy *)

(** X15. A larger energy never gets a lower band: the index of the label is
    non-decreasing in the energy, the infinities included. *)
Theorem severity_monotone_in_energy (e1 e2 : float) :
  (e1 <=? e2)%float = true ->
  (band_index (interpret e1) <= band_index (interpret e2))%nat.
Proof. apply band_index_mono. Qed.

Lemma severity_monotone_in_energy_witness :
  (band_index (interpret 5) <= band_index (interpret 50))%nat.
Proof. apply severity_monotone_in_energy. reflexivity. Defined.

(** ** A readable record fails by overflow only *)

Section Overflow.

Variable libm_pow : float -> float -> float.

Lemma float_pow_raise_inv (iv : float) (n : positive) (e : pyexn) :
  float_pow libm_pow iv n = Raise e ->
  overflows libm_pow iv (SF2Prim (PyFloat.round_int (Zpos n) 0)).
Proof.
  unfold float_pow, overflows.
  destruct (is_nan iv); [discriminate|].
  destruct (is_infinity iv); [discriminate|].
  destruct (is_zero iv); [discriminate|].
  destruct (abs iv =? 1)%float; [discriminate|].
  destruct (is_infinity (libm_pow _ _)) eqn:E; [|discriminate].
  intros _. repeat split.
Qed.

End Overflow.

(** X17. A record the code can read fails, with a float density, by
    overflow only: when the call returns an error dict for a record with
    numeric diameters and a non-empty approach list whose last entry has a
    numeric velocity, the message is the OverflowError text after the
    prefix, and the radius or the velocity in m/s is a finite number whose
    cube, respectively square, the C library returns as infinite.  So
    infinite and NaN diameters and velocities never make the call fail. *)
Theorem readable_record_fails_by_overflow_only
  (libm_pow : float -> float -> float)
  (rec : pyval) (l : list pyval) (ca : pyval)
  (d min_d max_d v : float) (error : string) :
  read_float DIAMETER_MIN rec = Some min_d ->
  read_float DIAMETER_MAX rec = Some max_d ->
  field APPROACHES rec = Some (PyList l) ->
  last_entry l = Some ca ->
  read_float VELOCITY ca = Some v ->
  calculate_impact_energy libm_pow rec (NFloat d) = ErrorDict error ->
  error = ERROR_PREFIX ++ OVERFLOW_TEXT /\
  (overflows libm_pow (Spec.avgRadius min_d max_d) 3 \/
   overflows libm_pow (Spec.velocity_m_s v) 2).
Proof.
  intros Hmin Hmax Hcad Hlast Hv H.
  destruct (calculate_read libm_pow rec (NFloat d) l ca d min_d max_d v)
    as (items & -> & E); try assumption; [reflexivity|].
  rewrite E in H. unfold body_powers in H.
  destruct (float_pow libm_pow (Spec.avgRadius min_d max_d) 3)
    as [r3|e3] eqn:P3.
  - destruct (float_pow libm_pow (Spec.velocity_m_s v) 2)
      as [v2|e2] eqn:P2; [discriminate|].
    injection H as <-. split.
    + now rewrite (float_pow_raise libm_pow _ _ _ P2).
    + right. exact (float_pow_raise_inv libm_pow _ _ _ P2).
  - injection H as <-. split.
    + now rewrite (float_pow_raise libm_pow _ _ _ P3).
    + left. exact (float_pow_raise_inv libm_pow _ _ _ P3).
Qed.

Lemma readable_record_fails_by_overflow_only_witness :
  "An unexpected error occurred during calculation: (34, 'Numerical result out of range')"
  = ERROR_PREFIX ++ OVERFLOW_TEXT /\
  (overflows product_pow
     (Spec.avgRadius 0x1.4e718d7d7625ap+664 0x1.4e718d7d7625ap+664) 3 \/
   overflows product_pow (Spec.velocity_m_s 0x1.dae147ae147aep+2) 2).
Proof.
  apply (readable_record_fails_by_overflow_only product_pow HUGE
           [ PyDict [ ("relative_velocity",
                        PyDict [ ("kilometers_per_second", PyStr "7.42") ]) ] ]
           (PyDict [ ("relative_velocity",
                       PyDict [ ("kilometers_per_second", PyStr "7.42") ]) ])
           3000 0x1.4e718d7d7625ap+664 0x1.4e718d7d7625ap+664
           0x1.dae147ae147aep+2);
    vm_compute; reflexivity.
Defined.

Example infinite_diameter_report :
  exists r,
    calculate_impact_energy product_pow INFINITE_DIAMETER (NFloat 3000)
    = ReportDict r /\
    formatted_value (Report.impact_energy_megatons_tnt r) = NFloat infinity /\
    Report.interpretation r = DEVASTATING.
Proof. eexists. split; [vm_compute; reflexivity|]. split; reflexivity. Qed.
